(** * BioTutor backend: a shallow embedding of the user, school and content
    operations, and the properties they satisfy.

    The Python code runs on Django and Django REST framework.  Rows of the
    relational tables are records, a table is a finite map from primary key
    to row, and a view is a function from the database (and the request) to
    a new database and either a response or the exception it raises.  Nothing
    is rolled back when an exception is raised: the code opens no
    transaction.

    What the framework does on behalf of the code is written out where the
    code relies on it:
    - [Model.save] inserts under the next key when the instance has none and
      updates otherwise; a unique column ([unique=True], [unique_together],
      a one-to-one primary key) makes the write raise [IntegrityError];
      [auto_now_add] and [auto_now] columns are stamped with the time of the
      request, which is an argument of the operation;
    - foreign keys are not checked again: every key the code writes was read
      from the table it points to;
    - a refused permission is answered 403 and a missing object 404;
    - [serializer.save] puts its keyword arguments over the validated data
      and calls [create]. *)

From stdpp Require Import base decidable option list strings pretty gmap fin_maps.
From Stdlib Require Import ZArith Lia.

Local Open Scope string_scope.
Local Open Scope Z_scope.

(** ** Data model *)

(** [User.ROLE_CHOICES] (users/models.py). *)
Inductive Role := SUPER_ADMIN | SCHOOL_ADMIN | TEACHER | STUDENT.

#[global] Instance Role_eq_dec : EqDecision Role.
Proof. solve_decision. Defined.

(** [StudentProfile.CLASS_LEVEL_CHOICES] is kept as strings: the bulk
    endpoint stores whatever string passed its membership test. *)
Definition valid_levels : list string := ["S1"; "S2"; "S3"; "S4"; "S5"; "S6"].

(** The choices of [School.subscription_type]. *)
Inductive Subscription := FREE | BASIC | PREMIUM.

#[global] Instance Subscription_eq_dec : EqDecision Subscription.
Proof. solve_decision. Defined.

(** Rows of table [schools] (schools/models.py). Dates and times are
    integers (seconds, days); primary keys are integers. *)
Module School.
Record t := mk {
  name : string;
  slug : string;
  email : string;
  phone_number : string;
  address : string;
  district : string;
  region : string;
  registration_number : string;
  is_active : bool;
  subscription_type : Subscription;
  subscription_start_date : option Z;
  subscription_end_date : option Z;
  created_at : Z;
  updated_at : Z
}.

#[global] Instance eq_dec : EqDecision t.
Proof. solve_decision. Defined.

Definition set_slug (v : string) (s : t) : t :=
  mk (name s) v (email s) (phone_number s) (address s) (district s)
     (region s) (registration_number s) (is_active s) (subscription_type s)
     (subscription_start_date s) (subscription_end_date s)
     (created_at s) (updated_at s).

Definition set_is_active (v : bool) (s : t) : t :=
  mk (name s) (slug s) (email s) (phone_number s) (address s) (district s)
     (region s) (registration_number s) v (subscription_type s)
     (subscription_start_date s) (subscription_end_date s)
     (created_at s) (updated_at s).

Definition set_created_at (v : Z) (s : t) : t :=
  mk (name s) (slug s) (email s) (phone_number s) (address s) (district s)
     (region s) (registration_number s) (is_active s) (subscription_type s)
     (subscription_start_date s) (subscription_end_date s)
     v (updated_at s).

Definition set_updated_at (v : Z) (s : t) : t :=
  mk (name s) (slug s) (email s) (phone_number s) (address s) (district s)
     (region s) (registration_number s) (is_active s) (subscription_type s)
     (subscription_start_date s) (subscription_end_date s)
     (created_at s) v.
End School.

(** Rows of table [users] (users/models.py); [password] is the hashed
    password column of [AbstractBaseUser], [is_superuser] comes from
    [PermissionsMixin]. [school] is the nullable foreign key. *)
Module User.
Record t := mk {
  email : string;
  first_name : string;
  last_name : string;
  role : Role;
  school : option Z;
  is_active : bool;
  is_staff : bool;
  is_superuser : bool;
  date_joined : Z;
  last_login : option Z;
  password : string
}.

#[global] Instance eq_dec : EqDecision t.
Proof. solve_decision. Defined.

Definition set_is_active (v : bool) (u : t) : t :=
  mk (email u) (first_name u) (last_name u) (role u) (school u) v
     (is_staff u) (is_superuser u) (date_joined u) (last_login u)
     (password u).

Definition set_password_hash (v : string) (u : t) : t :=
  mk (email u) (first_name u) (last_name u) (role u) (school u)
     (is_active u) (is_staff u) (is_superuser u) (date_joined u)
     (last_login u) v.
End User.

(** Rows of table [teacher_profiles]; the primary key is the user's. *)
Module TeacherProfile.
Record t := mk {
  subject_specialization : string;
  years_of_experience : option Z;
  bio : string;
  phone_number : string;
  created_at : Z;
  updated_at : Z
}.

#[global] Instance eq_dec : EqDecision t.
Proof. solve_decision. Defined.
End TeacherProfile.

(** Rows of table [student_profiles]; the primary key is the user's. *)
Module StudentProfile.
Record t := mk {
  class_level : string;
  student_id : string;
  phone_number : string;
  parent_email : string;
  parent_phone : string;
  weak_topics : list Z;
  created_at : Z;
  updated_at : Z
}.

#[global] Instance eq_dec : EqDecision t.
Proof. solve_decision. Defined.
End StudentProfile.

(** Rows of table [topics] (content/models.py). *)
Module Topic.
Record t := mk {
  curriculum_class : Z;
  title : string;
  description : string;
  order : Z;
  learning_objectives : string;
  key_concepts : list string;
  created_at : Z;
  updated_at : Z
}.

#[global] Instance eq_dec : EqDecision t.
Proof. solve_decision. Defined.
End Topic.

(** The database: one finite map per table. *)
Record DB := mkDB {
  schools : gmap Z School.t;
  users : gmap Z User.t;
  teacher_profiles : gmap Z TeacherProfile.t;
  student_profiles : gmap Z StudentProfile.t;
  topics : gmap Z Topic.t
}.

Definition empty_db : DB := mkDB ∅ ∅ ∅ ∅ ∅.

Definition with_schools (f : gmap Z School.t → gmap Z School.t) (db : DB) : DB :=
  mkDB (f (schools db)) (users db) (teacher_profiles db) (student_profiles db)
       (topics db).
Definition with_users (f : gmap Z User.t → gmap Z User.t) (db : DB) : DB :=
  mkDB (schools db) (f (users db)) (teacher_profiles db) (student_profiles db)
       (topics db).
Definition with_teacher_profiles
    (f : gmap Z TeacherProfile.t → gmap Z TeacherProfile.t) (db : DB) : DB :=
  mkDB (schools db) (users db) (f (teacher_profiles db)) (student_profiles db)
       (topics db).
Definition with_student_profiles
    (f : gmap Z StudentProfile.t → gmap Z StudentProfile.t) (db : DB) : DB :=
  mkDB (schools db) (users db) (teacher_profiles db) (f (student_profiles db))
       (topics db).
Definition with_topics (f : gmap Z Topic.t → gmap Z Topic.t) (db : DB) : DB :=
  mkDB (schools db) (users db) (teacher_profiles db) (student_profiles db)
       (f (topics db)).

(** ** Exceptions and the state-and-exception monad *)

Inductive exn :=
  | IntegrityError (constraint : string)
  | ValueError (msg : string)
  | AttributeError (attr : string)
  | KeyError (key : string)
  | DoesNotExist
  | MultipleObjectsReturned.

#[global] Instance exn_eq_dec : EqDecision exn.
Proof. solve_decision. Defined.

(** A computation reads and writes the database and either returns a value
    or raises; the database it leaves behind is kept in both cases. *)
Definition M (A : Type) : Type := DB → DB * (exn + A).

Definition ret {A} (a : A) : M A := λ db, (db, inr a).
Definition raise {A} (e : exn) : M A := λ db, (db, inl e).
Definition bind {A B} (c : M A) (k : A → M B) : M B :=
  λ db, match c db with
        | (db', inr a) => k a db'
        | (db', inl e) => (db', inl e)
        end.
Definition get_db : M DB := λ db, (db, inr db).
Definition modify_db (f : DB → DB) : M unit := λ db, (f db, inr tt).

Notation "'do' x <- c ; k" := (bind c (λ x, k))
  (at level 10, x name, c at level 100, k at level 200).
Notation "'do' ' p <- c ; k" := (bind c (λ x, match x with p => k end))
  (at level 10, p pattern, c at level 100, k at level 200).

(** ** Permissions (users/permissions.py) *)

(** [request.user]: the anonymous user or an authenticated row with its
    primary key. *)
Inductive RequestUser :=
  | AnonymousUser
  | Authenticated (pk : Z) (u : User.t).

(** [request.user and request.user.is_authenticated and
    request.user.role == r]. *)
Definition has_role (r : Role) (ru : RequestUser) : bool :=
  match ru with
  | AnonymousUser => false
  | Authenticated _ u => bool_decide (User.role u = r)
  end.

Definition IsSuperAdmin_has_permission : RequestUser → bool := has_role SUPER_ADMIN.
Definition IsSchoolAdmin_has_permission : RequestUser → bool := has_role SCHOOL_ADMIN.
Definition IsTeacher_has_permission : RequestUser → bool := has_role TEACHER.
Definition IsStudent_has_permission : RequestUser → bool := has_role STUDENT.

Definition IsSuperAdminOrSchoolAdmin_has_permission (ru : RequestUser) : bool :=
  match ru with
  | AnonymousUser => false
  | Authenticated _ u =>
      bool_decide (User.role u ∈ [SUPER_ADMIN; SCHOOL_ADMIN])
  end.

(** The objects a view can hand to an object-level permission. *)
Inductive Obj :=
  | ObjUser (pk : Z) (u : User.t)
  | ObjSchool (pk : Z) (s : School.t)
  | ObjTeacherProfile (pk : Z) (p : TeacherProfile.t)
  | ObjStudentProfile (pk : Z) (p : StudentProfile.t)
  | ObjTopic (pk : Z) (t : Topic.t).

(** [getattr(obj, 'school')]: only [User] has the attribute; its value is
    the referenced school's key, or [None]. *)
Definition getattr_school (obj : Obj) : option (option Z) :=
  match obj with
  | ObjUser _ u => Some (User.school u)
  | _ => None
  end.

Definition hasattr_school (obj : Obj) : bool :=
  bool_decide (is_Some (getattr_school obj)).

Definition hasattr_role (obj : Obj) : bool :=
  match obj with
  | ObjUser _ _ => true
  | _ => false
  end.

(** [obj.school == request.user.school]; reading a missing attribute raises. *)
Definition obj_school_eq (obj : Obj) (user : User.t) : exn + bool :=
  match getattr_school obj with
  | Some s => inr (bool_decide (s = User.school user))
  | None => inl (AttributeError "school")
  end.

(** [IsSameSchool.has_object_permission(request, view, obj)] with
    [user = request.user]. *)
Definition IsSameSchool_has_object_permission (user : User.t) (obj : Obj)
    : exn + bool :=
  if bool_decide (User.role user = SUPER_ADMIN) then inr true
  else
    if bool_decide (User.role user = SCHOOL_ADMIN) then
      if hasattr_school obj then obj_school_eq obj user
      else if hasattr_role obj then obj_school_eq obj user
      else inr false
    else inr false.

(** [IsOwnerOrAdmin.has_object_permission]. *)
Definition IsOwnerOrAdmin_has_object_permission (pk : Z) (user : User.t)
    (obj : Obj) : bool :=
  if bool_decide (User.role user ∈ [SUPER_ADMIN; SCHOOL_ADMIN]) then true
  else
    match obj with
    | ObjTeacherProfile k _ | ObjStudentProfile k _ => bool_decide (k = pk)
    | ObjUser k _ => bool_decide (k = pk)
    | _ => false
    end.

(** ** The object-relational layer *)

(** Auto-increment primary keys: one more than the largest key in use (the
    modelled code never removes a row). *)
Definition max_key {A} (t : gmap Z A) : Z := foldr Z.max 0 (map_to_list t).*1.
Definition next_id {A} (t : gmap Z A) : Z := max_key t + 1.

(** A unique column [col]: does a row other than [self] already hold the
    value that [row] has in that column? *)
Definition clashes {A B} `{EqDecision B} (col : A → B) (t : gmap Z A)
    (self : option Z) (row : A) : bool :=
  bool_decide (map_Exists (λ k r, Some k ≠ self ∧ col r = col row) t).

(** A column is unique in a table when no two rows share a value in it. *)
Definition unique_on {A B} (col : A → B) (t : gmap Z A) : Prop :=
  ∀ i j x y, t !! i = Some x → t !! j = Some y → col x = col y → i = j.

(** [QuerySet.filter(col=v).exists()]. *)
Definition exists_where {A B} `{EqDecision B} (col : A → B) (v : B)
    (t : gmap Z A) : bool :=
  bool_decide (map_Exists (λ _ r, col r = v) t).

(** A Python model instance: the primary key ([None] until first saved) and
    the field values. *)
Definition instance (A : Type) : Type := option Z * A.

(** Write the row of an instance: [INSERT] under a new key when the instance
    has none, [UPDATE] otherwise. *)
Definition write_row {A} (t : gmap Z A) (inst : instance A) : Z * gmap Z A :=
  let k := match inst.1 with Some k => k | None => next_id t end in
  (k, <[k := inst.2]> t).

(** [User.save()]: [email] is the only unique column of the table. *)
Definition User_save (inst : instance User.t) : M (Z * User.t) :=
  do db <- get_db;
  if clashes User.email (users db) inst.1 inst.2
  then raise (IntegrityError "users.email")
  else
    let '(k, t) := write_row (users db) inst in
    do _ <- modify_db (with_users (λ _, t));
    ret (k, inst.2).

(** [TeacherProfile.objects.create(user=user, ...)]: an [INSERT] whose
    primary key is the user's. *)
Definition TeacherProfile_create (user_pk : Z) (p : TeacherProfile.t) : M unit :=
  do db <- get_db;
  if bool_decide (is_Some (teacher_profiles db !! user_pk))
  then raise (IntegrityError "teacher_profiles.user_id")
  else modify_db (with_teacher_profiles <[user_pk := p]>).

(** [StudentProfile.objects.create(user=user, ...)]: the primary key is the
    user's and [student_id] is unique. *)
Definition StudentProfile_create (user_pk : Z) (p : StudentProfile.t) : M unit :=
  do db <- get_db;
  if bool_decide (is_Some (student_profiles db !! user_pk))
  then raise (IntegrityError "student_profiles.user_id")
  else if clashes StudentProfile.student_id (student_profiles db) None p
  then raise (IntegrityError "student_profiles.student_id")
  else modify_db (with_student_profiles <[user_pk := p]>).

(** [Topic.objects.create(...)]: [unique_together = ['curriculum_class',
    'title']]; [auto_now_add] and [auto_now] stamp the row. *)
Definition Topic_key (t : Topic.t) : Z * string :=
  (Topic.curriculum_class t, Topic.title t).

Definition Topic_stamp (now : Z) (t : Topic.t) : Topic.t :=
  Topic.mk (Topic.curriculum_class t) (Topic.title t) (Topic.description t)
    (Topic.order t) (Topic.learning_objectives t) (Topic.key_concepts t)
    now now.

Definition Topic_create (now : Z) (t : Topic.t) : M (Z * Topic.t) :=
  do db <- get_db;
  let row := Topic_stamp now t in
  if clashes Topic_key (topics db) None row
  then raise (IntegrityError "topics.curriculum_class_id_title")
  else
    let '(k, tbl) := write_row (topics db) (None, row) in
    do _ <- modify_db (with_topics (λ _, tbl));
    ret (k, row).

(** f"{n:06d}": decimal, zero-filled to width six, the sign first. *)
Fixpoint zeros (n : nat) : string :=
  match n with
  | O => ""
  | S n => "0" +:+ zeros n
  end.

Definition zfill (width : nat) (digits : string) : string :=
  zeros (width - String.length digits) +:+ digits.

Definition format_06d (n : Z) : string :=
  match n with
  | Zneg p => "-" +:+ zfill 5 (pretty (Zpos p))
  | _ => zfill 6 (pretty n)
  end.

(** f"STD{user.id:06d}" *)
Definition auto_student_id (user_pk : Z) : string := "STD" +:+ format_06d user_pk.

(** ** Responses *)

(** One row of the [students] list in the bulk endpoint's answer. *)
Record StudentSummary := mkSummary {
  summary_id : Z;
  summary_email : string;
  summary_name : string;
  summary_student_id : string
}.

Inductive Body :=
  | Message (m : string)
  | Errors (errs : list (string * string))
  | Detail (m : string)
  | UserBody (pk : Z) (u : User.t)
  | Students (m : string) (students : list StudentSummary).

Record Response := mkResponse { status : Z; body : Body }.

Definition HTTP_200_OK : Z := 200.
Definition HTTP_201_CREATED : Z := 201.
Definition HTTP_400_BAD_REQUEST : Z := 400.
Definition HTTP_403_FORBIDDEN : Z := 403.
Definition HTTP_404_NOT_FOUND : Z := 404.

(** What the framework answers when a permission class refuses, and when
    [get_object] finds no row. *)
Definition permission_denied : Response :=
  mkResponse HTTP_403_FORBIDDEN
    (Detail "You do not have permission to perform this action.").
Definition not_found : Response :=
  mkResponse HTTP_404_NOT_FOUND (Detail "Not found.").

(** ** Request data *)

(** What the fields of [UserRegistrationSerializer] hand to [validate]: the
    role is one of the declared choices, the school is a key or [None]. *)
Module Attrs.
Record t := mk {
  email : string;
  first_name : string;
  last_name : string;
  role : Role;
  school : option Z;
  password : string;
  password_confirm : string
}.

Definition set_role (v : Role) (a : t) : t :=
  mk (email a) (first_name a) (last_name a) v (school a) (password a)
     (password_confirm a).

Definition set_school (v : option Z) (a : t) : t :=
  mk (email a) (first_name a) (last_name a) (role a) v (password a)
     (password_confirm a).
End Attrs.

(** The keyword arguments of [serializer.save(...)]: they replace the
    validated values of the same name. *)
Record Overrides := mkOverrides {
  ov_role : option Role;
  ov_school : option (option Z)
}.

Definition apply_overrides (ov : Overrides) (a : Attrs.t) : Attrs.t :=
  let a := match ov_role ov with Some r => Attrs.set_role r a | None => a end in
  match ov_school ov with Some s => Attrs.set_school s a | None => a end.

(** One entry of the bulk endpoint's [students] list: a dictionary of
    strings, as read from a CSV file. *)
Abbreviation Entry := (gmap string string).

(** A serializer's error dictionary: field name and message (for checks
    that the framework generates from the field declarations, the
    framework's error code). *)
Abbreviation ErrorDict := (list (string * string)).

(** ** Models, serializers and views

    The framework functions the code calls but does not define are
    parameters: [django.utils.text.slugify], [BaseUserManager.normalize_email],
    the password hasher behind [set_password], the [EmailField] format check
    and [validate_password]. *)
Section Backend.

Variable slugify : string → string.
Variable normalize_email : string → string.
Variable make_password : option string → string.
Variable validate_email : string → bool.
Variable validate_password : string → bool.

(** *** schools/models.py *)

(** The first two lines of [School.save]:
    [if not self.slug: self.slug = slugify(self.name)]. *)
Definition School_fill_slug (s : School.t) : School.t :=
  if bool_decide (School.slug s = "")
  then School.set_slug (slugify (School.name s)) s
  else s.

(** Every row that [School.save] has written satisfies this: its slug is
    empty only when its name slugifies to the empty string. *)
Definition slug_settled (s : School.t) : Prop :=
  School.slug s = "" → slugify (School.name s) = "".

(** [Model.save] for a school: [auto_now_add] stamps [created_at] on
    insert, [auto_now] stamps [updated_at] on every save; [name], [slug] and
    [registration_number] are unique columns.  Each of the two columns reads
    the clock for itself; [now] is the time of the save, and on insert the
    two readings are not told apart, so nothing is stated about the two
    stamps of a new row being equal.  When more than one unique column is
    violated the database names one of them, here the first of name, slug
    and registration number; a statement that names the constraint assumes
    that the others are met. *)
Definition School_pre_save (now : Z) (inst : instance School.t) : School.t :=
  let s := School.set_updated_at now inst.2 in
  match inst.1 with
  | None => School.set_created_at now s
  | Some _ => s
  end.

Definition School_super_save (now : Z) (inst : instance School.t)
    : M (Z * School.t) :=
  do db <- get_db;
  let s := School_pre_save now inst in
  if clashes School.name (schools db) inst.1 s
  then raise (IntegrityError "schools.name")
  else if clashes School.slug (schools db) inst.1 s
  then raise (IntegrityError "schools.slug")
  else if clashes School.registration_number (schools db) inst.1 s
  then raise (IntegrityError "schools.registration_number")
  else
    let '(k, t) := write_row (schools db) (inst.1, s) in
    do _ <- modify_db (with_schools (λ _, t));
    ret (k, s).

(** [School.save]. *)
Definition School_save (now : Z) (inst : instance School.t) : M (Z * School.t) :=
  School_super_save now (inst.1, School_fill_slug inst.2).

(** *** users/models.py *)

(** [self.model(email=..., first_name=..., ...)]: the fields not given take
    their declared defaults. *)
Definition User_init (now : Z) (email first_name last_name : string)
    (role : Role) (school : option Z) : User.t :=
  User.mk email first_name last_name role school true false false now None "".

(** [user.set_password(raw)] *)
Definition set_password (raw : option string) (u : User.t) : User.t :=
  User.set_password_hash (make_password raw) u.

(** [UserManager.create_user(email, password, first_name=..., last_name=...,
    role=..., school=...)]. *)
Definition create_user (now : Z) (email : string) (password : option string)
    (first_name last_name : string) (role : Role) (school : option Z)
    : M (Z * User.t) :=
  if bool_decide (email = "")
  then raise (ValueError "Users must have an email address")
  else
    let email := normalize_email email in
    let user := User_init now email first_name last_name role school in
    let user := set_password password user in
    do ' (k, _) <- User_save (None, user);
    ret (k, user).

(** Whitespace for [str.strip()]: the code points for which Python's
    [str.isspace] holds (U+0009 to U+000D, U+001C to U+0020, U+0085, U+00A0,
    U+1680, U+2000 to U+200A, U+2028, U+2029, U+202F, U+205F, U+3000). *)
Definition is_space (code_point : N) : bool :=
  (((9 <=? code_point) && (code_point <=? 13))
   || ((28 <=? code_point) && (code_point <=? 32))
   || (code_point =? 133) || (code_point =? 160) || (code_point =? 5760)
   || ((8192 <=? code_point) && (code_point <=? 8202))
   || (code_point =? 8232) || (code_point =? 8233) || (code_point =? 8239)
   || (code_point =? 8287) || (code_point =? 12288))%N.

(** A string is the UTF-8 encoding of a Python [str].  The code point of a
    sequence of two or of three bytes; a code point of four bytes is never
    whitespace. *)
Definition continuation (byte : N) : bool :=
  ((128 <=? byte) && (byte <=? 191))%N.

Definition code_point_2 (b1 b2 : N) : option N :=
  if ((194 <=? b1) && (b1 <=? 223))%N && continuation b2
  then Some ((b1 - 192) * 64 + (b2 - 128))%N
  else None.

Definition code_point_3 (b1 b2 b3 : N) : option N :=
  let code_point := ((b1 - 224) * 4096 + (b2 - 128) * 64 + (b3 - 128))%N in
  if ((224 <=? b1) && (b1 <=? 239))%N && continuation b2 && continuation b3
     && (2048 <=? code_point)%N
  then Some code_point
  else None.

Definition space_2 (b1 b2 : N) : bool :=
  from_option is_space false (code_point_2 b1 b2).

Definition space_3 (b1 b2 b3 : N) : bool :=
  from_option is_space false (code_point_3 b1 b2 b3).

(** Whitespace code points are dropped from the front; [two] and [three]
    recognise a whitespace code point in the next two or three bytes. *)
Fixpoint strip_front (two : N → N → bool) (three : N → N → N → bool)
    (s : string) : string :=
  match s with
  | String c1 s1 =>
      let b1 := Ascii.N_of_ascii c1 in
      if (b1 <? 128)%N
      then if is_space b1 then strip_front two three s1 else s
      else
        match s1 with
        | String c2 s2 =>
            let b2 := Ascii.N_of_ascii c2 in
            if two b1 b2 then strip_front two three s2
            else
              match s2 with
              | String c3 s3 =>
                  if three b1 b2 (Ascii.N_of_ascii c3)
                  then strip_front two three s3
                  else s
              | EmptyString => s
              end
        | EmptyString => s
        end
  | EmptyString => EmptyString
  end.

Definition lstrip (s : string) : string := strip_front space_2 space_3 s.

(** From the end: the same on the reversed string, where the bytes of a
    code point come last byte first. *)
Definition rstrip (s : string) : string :=
  String.rev
    (strip_front (λ b2 b1, space_2 b1 b2) (λ b3 b2 b1, space_3 b1 b2 b3)
       (String.rev s)).

Definition strip (s : string) : string := rstrip (lstrip s).

(** [len(s)]: the number of code points, that is of the bytes that do not
    continue one. *)
Fixpoint len (s : string) : nat :=
  match s with
  | String c s' =>
      if continuation (Ascii.N_of_ascii c) then len s' else S (len s')
  | EmptyString => O
  end.

(** Does the text hold the null character? *)
Fixpoint has_null (s : string) : bool :=
  match s with
  | String c s' => (Ascii.N_of_ascii c =? 0)%N || has_null s'
  | EmptyString => false
  end.

(** [User.get_full_name] *)
Definition get_full_name (u : User.t) : string :=
  strip (User.first_name u +:+ " " +:+ User.last_name u).

(** *** users/serializers.py *)

(** [UserRegistrationSerializer.validate]. A school instance is always
    truthy, so [attrs.get('school')] is truthy exactly when a school is
    set. *)
Definition UserRegistrationSerializer_validate (attrs : Attrs.t)
    : ErrorDict + Attrs.t :=
  if bool_decide (Attrs.password attrs ≠ Attrs.password_confirm attrs)
  then inl [("password", "Password fields didn't match.")]
  else if bool_decide (Attrs.role attrs = SUPER_ADMIN)
          && bool_decide (is_Some (Attrs.school attrs))
  then inl [("school", "Super Admin cannot be assigned to a school.")]
  else if bool_decide (Attrs.role attrs ≠ SUPER_ADMIN)
          && negb (bool_decide (is_Some (Attrs.school attrs)))
  then inl [("school", "This role requires a school assignment.")]
  else inr attrs.

(** The checks the framework derives from [Meta.fields] and the model's
    columns, run before [validate]: email format and uniqueness, non-blank
    names of at most 150 characters, an existing school key, and
    [validate_password]. *)
Definition check (ok : bool) (field code : string) : ErrorDict :=
  if ok then [] else [(field, code)].

Definition name_errors (field value : string) : ErrorDict :=
  check (negb (bool_decide (value = ""))) field "blank"
  ++ check (bool_decide (len value ≤ 150)%nat) field "max_length".

Definition UserRegistrationSerializer_field_errors (db : DB) (data : Attrs.t)
    : ErrorDict :=
  check (validate_email (Attrs.email data)) "email" "invalid"
  ++ check (bool_decide (len (Attrs.email data) ≤ 254)%nat)
       "email" "max_length"
  ++ check (negb (exists_where User.email (Attrs.email data) (users db)))
       "email" "unique"
  ++ name_errors "first_name" (Attrs.first_name data)
  ++ name_errors "last_name" (Attrs.last_name data)
  ++ match Attrs.school data with
     | Some k => check (bool_decide (is_Some (schools db !! k)))
                   "school" "does_not_exist"
     | None => []
     end
  ++ check (validate_password (Attrs.password data)) "password" "invalid".

(** [serializer.is_valid()]: [validate] runs only when no field failed. *)
Definition UserRegistrationSerializer_is_valid (db : DB) (data : Attrs.t)
    : ErrorDict + Attrs.t :=
  match UserRegistrationSerializer_field_errors db data with
  | [] => UserRegistrationSerializer_validate data
  | errs => inl errs
  end.

Definition default_teacher_profile (now : Z) : TeacherProfile.t :=
  TeacherProfile.mk "Biology" None "" "" now now.

(** [UserRegistrationSerializer.create]. *)
Definition UserRegistrationSerializer_create (now : Z)
    (validated_data : Attrs.t) : M (Z * User.t) :=
  let password := Attrs.password validated_data in
  do ' (pk, user) <-
    User_save (None, User_init now (Attrs.email validated_data)
                       (Attrs.first_name validated_data)
                       (Attrs.last_name validated_data)
                       (Attrs.role validated_data)
                       (Attrs.school validated_data));
  let user := set_password (Some password) user in
  do _ <- User_save (Some pk, user);
  do _ <-
    match User.role user with
    | TEACHER => TeacherProfile_create pk (default_teacher_profile now)
    | STUDENT =>
        StudentProfile_create pk
          (StudentProfile.mk "S1" (auto_student_id pk) "" "" "" [] now now)
    | _ => ret tt
    end;
  ret (pk, user).

(** [serializer.save] with keyword arguments. *)
Definition UserRegistrationSerializer_save (now : Z) (validated_data : Attrs.t)
    (kwargs : Overrides) : M (Z * User.t) :=
  UserRegistrationSerializer_create now (apply_overrides kwargs validated_data).

(** [BulkStudentCreateSerializer.validate_students]: the first failure ends
    the validation with its message. *)
Definition required_fields : list string :=
  ["email"; "first_name"; "last_name"; "class_level"].

Definition missing_field (student : Entry) : option string :=
  head (filter (λ field, student !! field = None) required_fields).

(** How an f-string prints the result of [dict.get]. *)
Definition py_str (v : option string) : string := default "None" v.

Definition truthy (v : option string) : bool :=
  match v with
  | Some s => negb (bool_decide (s = ""))
  | None => false
  end.

Definition student_label (idx : nat) : string :=
  "Student " +:+ pretty (idx + 1)%nat.

Definition validate_student (db : DB) (idx : nat) (student : Entry)
    : option string :=
  match missing_field student with
  | Some field =>
      Some (student_label idx +:+ ": Missing required field '" +:+ field +:+ "'")
  | None =>
      let email := student !! "email" in
      if truthy email
         && bool_decide (map_Exists (λ _ u, Some (User.email u) = email) (users db))
      then Some (student_label idx +:+ ": Email '" +:+ py_str email
                 +:+ "' already exists")
      else
        let class_level := student !! "class_level" in
        if bool_decide (Forall (λ l, Some l ≠ class_level) valid_levels)
        then Some (student_label idx +:+ ": Invalid class level '"
                   +:+ py_str class_level +:+ "'")
        else None
  end.

Fixpoint validate_students_from (db : DB) (idx : nat) (value : list Entry)
    : option string :=
  match value with
  | [] => None
  | student :: rest =>
      match validate_student db idx student with
      | Some err => Some err
      | None => validate_students_from db (S idx) rest
      end
  end.

Definition BulkStudentCreateSerializer_validate_students (db : DB)
    (value : list Entry) : string + list Entry :=
  match validate_students_from db 0 value with
  | Some err => inl err
  | None => inr value
  end.

(** [BulkStudentCreateSerializer(data=...).is_valid()]: [students] is a
    required, non-empty list of dictionaries. *)
Definition BulkStudentCreateSerializer_is_valid (db : DB)
    (data : option (list Entry)) : ErrorDict + list Entry :=
  match data with
  | None => inl [("students", "required")]
  | Some [] => inl [("students", "empty")]
  | Some value =>
      match BulkStudentCreateSerializer_validate_students db value with
      | inl err => inl [("students", err)]
      | inr value => inr value
      end
  end.

(** [PasswordResetRequestSerializer(data=...).is_valid()]: one required
    [EmailField]. *)
Definition PasswordResetRequestSerializer_is_valid (data : option string)
    : ErrorDict + string :=
  match data with
  | None => inl [("email", "required")]
  | Some email =>
      if validate_email email then inr email else inl [("email", "invalid")]
  end.

(** *** users/views.py *)

(** The view-level permission check: the requester behind a request that
    the permission class lets through. *)
Definition authorize (has_permission : RequestUser → bool) (ru : RequestUser)
    : option (Z * User.t) :=
  match ru with
  | Authenticated pk u => if has_permission ru then Some (pk, u) else None
  | AnonymousUser => None
  end.

(** [CreateAPIView.create] with [serializer_class =
    UserRegistrationSerializer]: validate the request data, then
    [perform_create], which calls [serializer.save] with the view's keyword
    arguments; the answer is 201 with the new user. *)
Definition CreateAPIView_create (has_permission : RequestUser → bool)
    (perform_create_kwargs : User.t → Overrides)
    (now : Z) (ru : RequestUser) (data : Attrs.t) : M Response :=
  match authorize has_permission ru with
  | None => ret permission_denied
  | Some (_, requester) =>
      do db <- get_db;
      match UserRegistrationSerializer_is_valid db data with
      | inl errs => ret (mkResponse HTTP_400_BAD_REQUEST (Errors errs))
      | inr validated_data =>
          do ' (pk, user) <-
            UserRegistrationSerializer_save now validated_data
              (perform_create_kwargs requester);
          ret (mkResponse HTTP_201_CREATED (UserBody pk user))
      end
  end.

(** [SchoolAdminCreateView]: [serializer.save(role='SCHOOL_ADMIN')]. *)
Definition SchoolAdminCreateView : Z → RequestUser → Attrs.t → M Response :=
  CreateAPIView_create IsSuperAdmin_has_permission
    (λ _, mkOverrides (Some SCHOOL_ADMIN) None).

(** [TeacherCreateView]:
    [serializer.save(role='TEACHER', school=self.request.user.school)]. *)
Definition TeacherCreateView : Z → RequestUser → Attrs.t → M Response :=
  CreateAPIView_create IsSchoolAdmin_has_permission
    (λ requester, mkOverrides (Some TEACHER) (Some (User.school requester))).

(** [StudentCreateView]:
    [serializer.save(role='STUDENT', school=self.request.user.school)]. *)
Definition StudentCreateView : Z → RequestUser → Attrs.t → M Response :=
  CreateAPIView_create IsSchoolAdmin_has_permission
    (λ requester, mkOverrides (Some STUDENT) (Some (User.school requester))).

(** [student_data[key]] *)
Definition getitem (student_data : Entry) (key : string) : M string :=
  match student_data !! key with
  | Some v => ret v
  | None => raise (KeyError key)
  end.

(** [student_data.get(key, fallback)] *)
Definition get_or (student_data : Entry) (key fallback : string) : string :=
  default fallback (student_data !! key).

(** One turn of the loop of [BulkStudentCreateView.post]. *)
Definition bulk_create_one (now : Z) (school : option Z) (student_data : Entry)
    : M StudentSummary :=
  do email <- getitem student_data "email";
  do first_name <- getitem student_data "first_name";
  do last_name <- getitem student_data "last_name";
  do ' (pk, user) <-
    create_user now email (Some (get_or student_data "password" "BioTutor2025!"))
      first_name last_name STUDENT school;
  do class_level <- getitem student_data "class_level";
  let profile :=
    StudentProfile.mk class_level
      (get_or student_data "student_id" (auto_student_id pk))
      (get_or student_data "phone_number" "")
      (get_or student_data "parent_email" "")
      (get_or student_data "parent_phone" "")
      [] now now in
  do _ <- StudentProfile_create pk profile;
  ret (mkSummary pk (User.email user) (get_full_name user)
         (StudentProfile.student_id profile)).

(** The loop: [created_students] grows by one summary per entry. *)
Fixpoint bulk_create_loop (now : Z) (school : option Z)
    (students_data : list Entry) (created_students : list StudentSummary)
    : M (list StudentSummary) :=
  match students_data with
  | [] => ret created_students
  | student_data :: rest =>
      do summary <- bulk_create_one now school student_data;
      bulk_create_loop now school rest (created_students ++ [summary])
  end.

(** [BulkStudentCreateView.post] *)
Definition BulkStudentCreateView_post (now : Z) (ru : RequestUser)
    (data : option (list Entry)) : M Response :=
  match authorize IsSchoolAdmin_has_permission ru with
  | None => ret permission_denied
  | Some (_, requester) =>
      do db <- get_db;
      match BulkStudentCreateSerializer_is_valid db data with
      | inr students_data =>
          do created_students <-
            bulk_create_loop now (User.school requester) students_data [];
          ret (mkResponse HTTP_201_CREATED
                 (Students ("Successfully created "
                            +:+ pretty (length created_students)
                            +:+ " students") created_students))
      | inl errs => ret (mkResponse HTTP_400_BAD_REQUEST (Errors errs))
      end
  end.

(** [User.objects.get(email=email)] *)
Definition User_objects_get (email : string) (db : DB) : exn + (Z * User.t) :=
  match filter (λ kr, User.email kr.2 = email) (map_to_list (users db)) with
  | [] => inl DoesNotExist
  | [kr] => inr kr
  | _ => inl MultipleObjectsReturned
  end.

(** [password_reset_request]: only [User.DoesNotExist] is caught. *)
Definition password_reset_request (data : option string) : M Response :=
  match PasswordResetRequestSerializer_is_valid data with
  | inr email =>
      do db <- get_db;
      match User_objects_get email db with
      | inr user =>
          ret (mkResponse HTTP_200_OK (Message "Password reset link sent to email"))
      | inl DoesNotExist =>
          ret (mkResponse HTTP_200_OK (Message "Password reset link sent to email"))
      | inl e => raise e
      end
  | inl errs => ret (mkResponse HTTP_400_BAD_REQUEST (Errors errs))
  end.

(** The body shared by [UserDetailView.destroy] and
    [SchoolUserDetailView.destroy], once [get_object] has returned. *)
Definition deactivate_user (pk : Z) (user : User.t) : M Response :=
  let user := User.set_is_active false user in
  do _ <- User_save (Some pk, user);
  ret (mkResponse HTTP_200_OK (Message "User deactivated successfully")).

(** [UserDetailView.destroy]: [queryset = User.objects.all()],
    [permission_classes = [IsSuperAdmin]]. *)
Definition UserDetailView_destroy (ru : RequestUser) (pk : Z) : M Response :=
  match authorize IsSuperAdmin_has_permission ru with
  | None => ret permission_denied
  | Some _ =>
      do db <- get_db;
      match users db !! pk with
      | None => ret not_found
      | Some user => deactivate_user pk user
      end
  end.

(** [SchoolUserDetailView.destroy]: the queryset holds the users of the
    requester's school, [permission_classes = [IsSchoolAdmin, IsSameSchool]]. *)
Definition SchoolUserDetailView_get_queryset (requester : User.t) (db : DB)
    : gmap Z User.t :=
  filter (λ kr, User.school kr.2 = User.school requester) (users db).

Definition SchoolUserDetailView_destroy (ru : RequestUser) (pk : Z) : M Response :=
  match authorize IsSchoolAdmin_has_permission ru with
  | None => ret permission_denied
  | Some (_, requester) =>
      do db <- get_db;
      match SchoolUserDetailView_get_queryset requester db !! pk with
      | None => ret not_found
      | Some user =>
          match IsSameSchool_has_object_permission requester (ObjUser pk user) with
          | inl e => raise e
          | inr false => ret permission_denied
          | inr true => deactivate_user pk user
          end
      end
  end.

(** *** schools/views.py *)

(** [SchoolDetailView.destroy]: for [DELETE], [get_permissions] returns
    [[IsSuperAdmin()]]. *)
Definition SchoolDetailView_destroy (now : Z) (ru : RequestUser) (pk : Z)
    : M Response :=
  match authorize IsSuperAdmin_has_permission ru with
  | None => ret permission_denied
  | Some _ =>
      do db <- get_db;
      match schools db !! pk with
      | None => ret not_found
      | Some school =>
          let school := School.set_is_active false school in
          do _ <- School_save now (Some pk, school);
          ret (mkResponse HTTP_200_OK (Message "School deactivated successfully"))
      end
  end.

(** *** The rows that one entry of a bulk request is turned into *)
Definition user_from_entry (school : option Z) (student_data : Entry)
    (u : User.t) : Prop :=
  Some (User.email u) = normalize_email <$> student_data !! "email" ∧
  Some (User.first_name u) = student_data !! "first_name" ∧
  Some (User.last_name u) = student_data !! "last_name" ∧
  User.role u = STUDENT ∧
  User.school u = school ∧
  User.password u
  = make_password (Some (get_or student_data "password" "BioTutor2025!")).

Definition profile_from_entry (user_pk : Z) (student_data : Entry)
    (p : StudentProfile.t) : Prop :=
  Some (StudentProfile.class_level p) = student_data !! "class_level" ∧
  StudentProfile.student_id p
  = get_or student_data "student_id" (auto_student_id user_pk).

(** *** What an entry of a bulk request leaves in the database

    [summary] is the element of the answer's [students] list that belongs to
    the entry [student_data]. *)
Definition entry_created (db' : DB) (school : option Z) (student_data : Entry)
    (summary : StudentSummary) : Prop :=
  ∃ (u : User.t) (p : StudentProfile.t),
    users db' !! summary_id summary = Some u ∧
    student_profiles db' !! summary_id summary = Some p ∧
    Some (User.email u) = normalize_email <$> student_data !! "email" ∧
    User.role u = STUDENT ∧
    User.school u = school ∧
    summary_student_id summary = StudentProfile.student_id p ∧
    (student_data !! "password" = None →
     User.password u = make_password (Some "BioTutor2025!")) ∧
    (student_data !! "student_id" = None →
     StudentProfile.student_id p = "STD" +:+ format_06d (summary_id summary)).

(** *** The schema's constraints as a predicate on the database

    The unique columns and [unique_together] of the models, and the slug
    rule that [School.save] establishes. *)
Record db_consistent (db : DB) : Prop := mk_consistent {
  users_email_unique : unique_on User.email (users db);
  schools_name_unique : unique_on School.name (schools db);
  schools_slug_unique : unique_on School.slug (schools db);
  schools_registration_unique :
    unique_on School.registration_number (schools db);
  schools_slug_settled : map_Forall (λ _ s, slug_settled s) (schools db);
  student_id_unique :
    unique_on StudentProfile.student_id (student_profiles db);
  topics_unique_together : unique_on Topic_key (topics db)
}.

(** A computation keeps the constraints, whether it returns or raises. *)
Definition preserves {A} (c : M A) : Prop :=
  ∀ db db' r, db_consistent db → c db = (db', r) → db_consistent db'.

End Backend.

(** ** The role and school rule

    "Super Admin should not have a school", "All other roles must have a
    school" (users/serializers.py); "NULL for SUPER_ADMIN" (users/models.py). *)
Definition role_school_ok (u : User.t) : Prop :=
  (User.role u ≠ SUPER_ADMIN → is_Some (User.school u)) ∧
  (User.role u = SUPER_ADMIN → User.school u = None).

(** ** Entries a bulk request must not contain

    An entry without one of the required keys, or whose (non-empty) email
    is the email of a stored user. *)
Definition entry_rejected (db : DB) (student : Entry) : Prop :=
  (∃ field, field ∈ required_fields ∧ student !! field = None) ∨
  (∃ email k u, student !! "email" = Some email ∧ email ≠ "" ∧
                users db !! k = Some u ∧ User.email u = email).

(** ** Entries a bulk request may contain

    What [validate_students] asks of an entry: the four required keys, an
    email that is empty or not the email of a stored user, and a class level
    of the list. *)
Definition entry_accepted (db : DB) (student : Entry) : Prop :=
  (∀ field, field ∈ required_fields → is_Some (student !! field)) ∧
  (∀ email, student !! "email" = Some email → email ≠ "" →
            ∀ k u, users db !! k = Some u → User.email u ≠ email) ∧
  (∃ level, student !! "class_level" = Some level ∧ level ∈ valid_levels).

(** ** Further request data and answers *)

(** The request data of [ChangePasswordView]: a key may be missing. *)
Module ChangePasswordData.
Record t := mk {
  old_password : option string;
  new_password : option string;
  new_password_confirm : option string
}.
End ChangePasswordData.

(** The request data of a [PUT] or [PATCH] on a user ([UserUpdateSerializer],
    [fields = ['first_name', 'last_name', 'is_active']]). *)
Module UserUpdateData.
Record t := mk {
  first_name : option string;
  last_name : option string;
  is_active : option bool
}.
End UserUpdateData.

(** The request data of a [PUT] or [PATCH] on the student's own profile
    ([StudentProfileUpdateSerializer]). *)
Module StudentProfileUpdateData.
Record t := mk {
  class_level : option string;
  phone_number : option string;
  parent_email : option string;
  parent_phone : option string
}.
End StudentProfileUpdateData.

(** What the fields of [SchoolCreateSerializer] hand on; the registration
    number, the subscription type and the two dates may be left out. *)
Module SchoolCreateData.
Record t := mk {
  name : string;
  email : string;
  phone_number : string;
  address : string;
  district : string;
  region : string;
  registration_number : option string;
  subscription_type : option Subscription;
  subscription_start_date : option Z;
  subscription_end_date : option Z
}.
End SchoolCreateData.

(** The keyword arguments of [create_superuser], which reach the row through
    [self.model(email=email, ...)]: the key and every column of the table but
    the email and the password, which are parameters of their own.  A
    keyword may be left out; [school=None] and no [school] are the same, and
    a role is one of the declared choices. *)
Module ExtraFields.
Record t := mk {
  id : option Z;
  first_name : option string;
  last_name : option string;
  role : option Role;
  school : option Z;
  is_active : option bool;
  is_staff : option bool;
  is_superuser : option bool;
  date_joined : option Z;
  last_login : option Z
}.
End ExtraFields.

(** Answers whose body is the data of a serializer. *)
Inductive Payload :=
  | Plain (b : Body)
  | UserUpdateBody (first_name last_name : string) (is_active : bool)
  | StudentProfileUpdateBody
      (class_level phone_number parent_email parent_phone : string)
  | SchoolDetailBody (pk : Z) (s : School.t) (total_students total_teachers : nat)
  | SchoolCreateBody (s : School.t).

Record Reply := mkReply { reply_status : Z; reply_body : Payload }.

Definition plain (r : Response) : Reply := mkReply (status r) (Plain (body r)).

(** The HTTP methods a detail view answers. *)
Inductive Method := GET | PUT | PATCH | DELETE.

#[global] Instance Method_eq_dec : EqDecision Method.
Proof. solve_decision. Defined.

(** The stored value of a role, as [filter(role=...)] compares it. *)
Definition Role_value (r : Role) : string :=
  match r with
  | SUPER_ADMIN => "SUPER_ADMIN"
  | SCHOOL_ADMIN => "SCHOOL_ADMIN"
  | TEACHER => "TEACHER"
  | STUDENT => "STUDENT"
  end.

(** ** Further models, serializers and views

    More framework functions as parameters: the password check behind
    [check_password], the case folding behind an [iexact] lookup and
    Python's [int] on a query parameter. *)
Section Endpoints.

Variable slugify : string → string.
Variable normalize_email : string → string.
Variable make_password : option string → string.
Variable check_password : string → string → bool.
Variable validate_email : string → bool.
Variable validate_password : string → bool.
Variable casefold : string → string.
Variable python_int : string → option Z.

(** *** Serializer fields *)

(** [CharField.run_validation]: the value is stripped, an empty one is
    refused unless [allow_blank] and is not validated further; the
    validators of the field enforce [max_length] and refuse the null
    character. *)
Definition char_field (field : string) (max_length : option nat)
    (allow_blank : bool) (value : string) : ErrorDict + string :=
  let v := strip value in
  if bool_decide (v = "") then
    if allow_blank then inr "" else inl [(field, "blank")]
  else
    match (match max_length with
           | Some n => check (bool_decide (len v ≤ n)%nat) field "max_length"
           | None => []
           end
           ++ check (negb (has_null v)) field "null_characters_not_allowed")%list
    with
    | [] => inr v
    | errs => inl errs
    end.

(** A field of a serializer: [None] when the key is missing and the field
    may be left out ([required=False], or a partial update). *)
Definition run_field {A B} (field : string) (optional : bool)
    (run : A → ErrorDict + B) (value : option A) : ErrorDict + option B :=
  match value with
  | None => if optional then inr None else inl [(field, "required")]
  | Some v =>
      match run v with
      | inr b => inr (Some b)
      | inl errs => inl errs
      end
  end.

(** The errors of a field, if any. *)
Definition errors_of {A} (r : ErrorDict + A) : ErrorDict :=
  match r with
  | inl errs => errs
  | inr _ => []
  end.

(** *** users/models.py: [create_superuser] *)

(** [create_user] with the keyword arguments that [create_superuser] hands
    on: [role], [is_staff] and [is_superuser] are set by then; a column
    whose keyword is left out takes its declared default, and a given [id]
    makes [save] write the row under that key. *)
Definition create_user_extra (now : Z) (email : string)
    (password : option string) (role : Role) (is_staff is_superuser : bool)
    (extra_fields : ExtraFields.t) : M (Z * User.t) :=
  if bool_decide (email = "")
  then raise (ValueError "Users must have an email address")
  else
    let email := normalize_email email in
    let user :=
      User.mk email
        (default "" (ExtraFields.first_name extra_fields))
        (default "" (ExtraFields.last_name extra_fields))
        role (ExtraFields.school extra_fields)
        (default true (ExtraFields.is_active extra_fields))
        is_staff is_superuser
        (default now (ExtraFields.date_joined extra_fields))
        (ExtraFields.last_login extra_fields) "" in
    let user := set_password make_password password user in
    do ' (k, _) <- User_save (ExtraFields.id extra_fields, user);
    ret (k, user).

(** [UserManager.create_superuser]: the three [setdefault]s, the two
    checks, then [create_user]. *)
Definition create_superuser (now : Z) (email : string)
    (password : option string) (extra_fields : ExtraFields.t)
    : M (Z * User.t) :=
  let is_staff := default true (ExtraFields.is_staff extra_fields) in
  let is_superuser := default true (ExtraFields.is_superuser extra_fields) in
  let role := default SUPER_ADMIN (ExtraFields.role extra_fields) in
  if negb is_staff
  then raise (ValueError "Superuser must have is_staff=True.")
  else if negb is_superuser
  then raise (ValueError "Superuser must have is_superuser=True.")
  else
    create_user_extra now email password role is_staff is_superuser
      extra_fields.

(** *** schools/models.py: the counts *)

(** [self.users.filter(role=r, is_active=True).count()] for the school with
    key [pk]. *)
Definition School_active_users (r : Role) (pk : Z) (db : DB) : gmap Z User.t :=
  filter (λ kr, User.school kr.2 = Some pk ∧ User.role kr.2 = r ∧
                User.is_active kr.2 = true) (users db).

Definition School_total_students (pk : Z) (db : DB) : nat :=
  size (School_active_users STUDENT pk db).

Definition School_total_teachers (pk : Z) (db : DB) : nat :=
  size (School_active_users TEACHER pk db).

(** *** users/serializers.py: password change *)

(** [ChangePasswordSerializer.validate_old_password], with the requesting
    user's stored hash. *)
Definition ChangePasswordSerializer_validate_old_password (user : User.t)
    (value : string) : ErrorDict + string :=
  if check_password value (User.password user) then inr value
  else inl [("old_password", "Old password is incorrect.")].

(** [ChangePasswordSerializer.validate] on the old, the new and the
    confirmed password. *)
Definition ChangePasswordSerializer_validate (attrs : string * string * string)
    : ErrorDict + string * string * string :=
  let '(_, new_password, new_password_confirm) := attrs in
  if bool_decide (new_password ≠ new_password_confirm)
  then inl [("new_password", "Password fields didn't match.")]
  else inr attrs.

(** [PasswordResetConfirmSerializer.validate] *)
Definition PasswordResetConfirmSerializer_validate (attrs : string * string)
    : ErrorDict + string * string :=
  if bool_decide (attrs.1 ≠ attrs.2)
  then inl [("new_password", "Password fields didn't match.")]
  else inr attrs.

(** [ChangePasswordSerializer(data=...).is_valid()]: each field is run (its
    validators, then its [validate_<field>] method) and the errors of all
    fields are collected; [validate] runs when there is none. *)
Definition ChangePasswordSerializer_is_valid (user : User.t)
    (data : ChangePasswordData.t) : ErrorDict + string * string * string :=
  let old :=
    run_field "old_password" false
      (λ v, match char_field "old_password" None false v with
            | inr v => ChangePasswordSerializer_validate_old_password user v
            | inl errs => inl errs
            end)
      (ChangePasswordData.old_password data) in
  let new :=
    run_field "new_password" false
      (λ v, match char_field "new_password" None false v with
            | inr v => if validate_password v then inr v
                       else inl [("new_password", "invalid")]
            | inl errs => inl errs
            end)
      (ChangePasswordData.new_password data) in
  let confirm :=
    run_field "new_password_confirm" false
      (char_field "new_password_confirm" None false)
      (ChangePasswordData.new_password_confirm data) in
  match old, new, confirm with
  | inr (Some o), inr (Some n), inr (Some c) =>
      ChangePasswordSerializer_validate (o, n, c)
  | _, _, _ => inl (errors_of old ++ errors_of new ++ errors_of confirm)%list
  end.

(** *** users/views.py: password change *)

(** [ChangePasswordView.update]; [get_object] is [request.user] and the
    permission is [IsAuthenticated]. *)
Definition ChangePasswordView_update (ru : RequestUser)
    (data : ChangePasswordData.t) : M Response :=
  match ru with
  | AnonymousUser => ret permission_denied
  | Authenticated pk user =>
      match ChangePasswordSerializer_is_valid user data with
      | inr (_, new_password, _) =>
          let user := set_password make_password (Some new_password) user in
          do _ <- User_save (Some pk, user);
          ret (mkResponse HTTP_200_OK (Message "Password changed successfully"))
      | inl errs => ret (mkResponse HTTP_400_BAD_REQUEST (Errors errs))
      end
  end.

(** *** users/serializers.py and users/views.py: updating a user *)

(** [UserUpdateSerializer(instance, data=..., partial=...).is_valid()]: the
    two names are required unless the update is partial; [is_active] has a
    model default and may always be left out. *)
Definition UserUpdateSerializer_is_valid (partial : bool)
    (data : UserUpdateData.t) : ErrorDict + UserUpdateData.t :=
  let first :=
    run_field "first_name" partial (char_field "first_name" (Some 150%nat) false)
      (UserUpdateData.first_name data) in
  let last :=
    run_field "last_name" partial (char_field "last_name" (Some 150%nat) false)
      (UserUpdateData.last_name data) in
  match first, last with
  | inr f, inr l => inr (UserUpdateData.mk f l (UserUpdateData.is_active data))
  | _, _ => inl (errors_of first ++ errors_of last)%list
  end.

(** [ModelSerializer.update] up to the save: [setattr] for every validated
    key. *)
Definition UserUpdateSerializer_update (instance : User.t)
    (validated_data : UserUpdateData.t) : User.t :=
  User.mk (User.email instance)
    (default (User.first_name instance) (UserUpdateData.first_name validated_data))
    (default (User.last_name instance) (UserUpdateData.last_name validated_data))
    (User.role instance) (User.school instance)
    (default (User.is_active instance) (UserUpdateData.is_active validated_data))
    (User.is_staff instance) (User.is_superuser instance)
    (User.date_joined instance) (User.last_login instance)
    (User.password instance).

(** [UpdateModelMixin.update] once [get_object] has returned: validate, save,
    answer 200 with the serializer's data. *)
Definition update_user (partial : bool) (pk : Z) (user : User.t)
    (data : UserUpdateData.t) : M Reply :=
  match UserUpdateSerializer_is_valid partial data with
  | inl errs => ret (plain (mkResponse HTTP_400_BAD_REQUEST (Errors errs)))
  | inr validated_data =>
      let user := UserUpdateSerializer_update user validated_data in
      do _ <- User_save (Some pk, user);
      ret (mkReply HTTP_200_OK
             (UserUpdateBody (User.first_name user) (User.last_name user)
                (User.is_active user)))
  end.

(** [UserDetailView] on [PUT] ([partial = false]) and [PATCH]. *)
Definition UserDetailView_update (partial : bool) (ru : RequestUser) (pk : Z)
    (data : UserUpdateData.t) : M Reply :=
  match authorize IsSuperAdmin_has_permission ru with
  | None => ret (plain permission_denied)
  | Some _ =>
      do db <- get_db;
      match users db !! pk with
      | None => ret (plain not_found)
      | Some user => update_user partial pk user data
      end
  end.

(** [SchoolUserDetailView] on [PUT] and [PATCH]. *)
Definition SchoolUserDetailView_update (partial : bool) (ru : RequestUser)
    (pk : Z) (data : UserUpdateData.t) : M Reply :=
  match authorize IsSchoolAdmin_has_permission ru with
  | None => ret (plain permission_denied)
  | Some (_, requester) =>
      do db <- get_db;
      match SchoolUserDetailView_get_queryset requester db !! pk with
      | None => ret (plain not_found)
      | Some user =>
          match IsSameSchool_has_object_permission requester (ObjUser pk user) with
          | inl e => raise e
          | inr false => ret (plain permission_denied)
          | inr true => update_user partial pk user data
          end
      end
  end.

(** *** users/views.py: the list querysets *)

(** [AllUsersListView.get_queryset]; [role] and [school] are the query
    parameters, ignored when missing or empty.  A [school] that is not a
    number makes [filter] raise. *)
Definition AllUsersListView_get_queryset (role school : option string)
    (db : DB) : exn + gmap Z User.t :=
  let queryset := users db in
  let queryset :=
    if truthy role
    then filter (λ kr, Some (Role_value (User.role kr.2)) = role) queryset
    else queryset in
  if truthy school then
    match school ≫= python_int with
    | Some school_id =>
        inr (filter (λ kr, User.school kr.2 = Some school_id) queryset)
    | None => inl (ValueError "Field 'id' expected a number")
    end
  else inr queryset.

(** [SchoolTeachersListView.get_queryset] *)
Definition SchoolTeachersListView_get_queryset (requester : User.t) (db : DB)
    : gmap Z User.t :=
  filter (λ kr, User.school kr.2 = User.school requester ∧
                User.role kr.2 = TEACHER) (users db).

(** [SchoolStudentsListView.get_queryset]; [class_level] is the query
    parameter, and the second filter joins the student's profile. *)
Definition SchoolStudentsListView_get_queryset (requester : User.t)
    (class_level : option string) (db : DB) : gmap Z User.t :=
  let queryset :=
    filter (λ kr, User.school kr.2 = User.school requester ∧
                  User.role kr.2 = STUDENT) (users db) in
  if truthy class_level
  then filter (λ kr, StudentProfile.class_level <$> student_profiles db !! kr.1
                     = class_level) queryset
  else queryset.

(** *** users/views.py: the profile views *)

(** [TeacherProfileView.get_object] and [StudentProfileView.get_object]:
    [objects.get(user=self.request.user)]. *)
Definition TeacherProfileView_get_object (pk : Z) (db : DB)
    : exn + TeacherProfile.t :=
  match teacher_profiles db !! pk with
  | Some p => inr p
  | None => inl DoesNotExist
  end.

Definition StudentProfileView_get_object (pk : Z) (db : DB)
    : exn + StudentProfile.t :=
  match student_profiles db !! pk with
  | Some p => inr p
  | None => inl DoesNotExist
  end.

(** An [EmailField] that may be blank: the length and the format are both
    checked. *)
Definition blank_email_field (field : string) (value : string)
    : ErrorDict + string :=
  let v := strip value in
  if bool_decide (v = "") then inr ""
  else
    match (check (bool_decide (len v ≤ 254)%nat) field "max_length"
           ++ check (validate_email v) field "invalid"
           ++ check (negb (has_null v)) field "null_characters_not_allowed")%list
    with
    | [] => inr v
    | errs => inl errs
    end.

(** A [ChoiceField] over the class levels. *)
Definition class_level_field (value : string) : ErrorDict + string :=
  if bool_decide (value ∈ valid_levels) then inr value
  else inl [("class_level", "invalid_choice")].

(** [StudentProfileUpdateSerializer(...).is_valid()]: only [class_level] is
    required. *)
Definition StudentProfileUpdateSerializer_is_valid (partial : bool)
    (data : StudentProfileUpdateData.t)
    : ErrorDict + StudentProfileUpdateData.t :=
  let level :=
    run_field "class_level" partial class_level_field
      (StudentProfileUpdateData.class_level data) in
  let phone :=
    run_field "phone_number" true (char_field "phone_number" (Some 20%nat) true)
      (StudentProfileUpdateData.phone_number data) in
  let email :=
    run_field "parent_email" true (blank_email_field "parent_email")
      (StudentProfileUpdateData.parent_email data) in
  let parent_phone :=
    run_field "parent_phone" true (char_field "parent_phone" (Some 20%nat) true)
      (StudentProfileUpdateData.parent_phone data) in
  match level, phone, email, parent_phone with
  | inr l, inr p, inr e, inr pp => inr (StudentProfileUpdateData.mk l p e pp)
  | _, _, _, _ =>
      inl (errors_of level ++ errors_of phone ++ errors_of email
           ++ errors_of parent_phone)%list
  end.

Definition StudentProfileUpdateSerializer_update (now : Z)
    (instance : StudentProfile.t) (validated_data : StudentProfileUpdateData.t)
    : StudentProfile.t :=
  StudentProfile.mk
    (default (StudentProfile.class_level instance)
       (StudentProfileUpdateData.class_level validated_data))
    (StudentProfile.student_id instance)
    (default (StudentProfile.phone_number instance)
       (StudentProfileUpdateData.phone_number validated_data))
    (default (StudentProfile.parent_email instance)
       (StudentProfileUpdateData.parent_email validated_data))
    (default (StudentProfile.parent_phone instance)
       (StudentProfileUpdateData.parent_phone validated_data))
    (StudentProfile.weak_topics instance)
    (StudentProfile.created_at instance)
    now.

(** [StudentProfile.save()] on an existing row: [student_id] is unique. *)
Definition StudentProfile_save (pk : Z) (p : StudentProfile.t) : M unit :=
  do db <- get_db;
  if clashes StudentProfile.student_id (student_profiles db) (Some pk) p
  then raise (IntegrityError "student_profiles.student_id")
  else modify_db (with_student_profiles <[pk := p]>).

(** [StudentProfileView] on [PUT] and [PATCH]: the permission is
    [IsAuthenticated], the object the requester's own profile, and
    [updated_at] is [auto_now]. *)
Definition StudentProfileView_update (now : Z) (partial : bool)
    (ru : RequestUser) (data : StudentProfileUpdateData.t) : M Reply :=
  match ru with
  | AnonymousUser => ret (plain permission_denied)
  | Authenticated pk _ =>
      do db <- get_db;
      match StudentProfileView_get_object pk db with
      | inl e => raise e
      | inr profile =>
          match StudentProfileUpdateSerializer_is_valid partial data with
          | inl errs =>
              ret (plain (mkResponse HTTP_400_BAD_REQUEST (Errors errs)))
          | inr validated_data =>
              let profile :=
                StudentProfileUpdateSerializer_update now profile validated_data in
              do _ <- StudentProfile_save pk profile;
              ret (mkReply HTTP_200_OK
                     (StudentProfileUpdateBody
                        (StudentProfile.class_level profile)
                        (StudentProfile.phone_number profile)
                        (StudentProfile.parent_email profile)
                        (StudentProfile.parent_phone profile)))
          end
      end
  end.

(** *** schools/serializers.py and schools/views.py *)

(** [SchoolCreateSerializer.validate_name]:
    [School.objects.filter(name__iexact=value).exists()]. *)
Definition SchoolCreateSerializer_validate_name (db : DB) (value : string)
    : ErrorDict + string :=
  if bool_decide (map_Exists (λ _ s, casefold (School.name s) = casefold value)
                    (schools db))
  then inl [("name", "A school with this name already exists.")]
  else inr value.

(** The checks that the framework derives from the columns of [School]. *)
Definition bounded (field value : string) (n : nat) : ErrorDict :=
  (check (negb (bool_decide (value = ""))) field "blank"
   ++ check (bool_decide (len value ≤ n)%nat) field "max_length")%list.

Definition SchoolCreateSerializer_name_errors (db : DB) (value : string)
    : ErrorDict :=
  match (bounded "name" value 255
         ++ check (negb (exists_where School.name value (schools db)))
              "name" "unique")%list with
  | [] => errors_of (SchoolCreateSerializer_validate_name db value)
  | errs => errs
  end.

Definition SchoolCreateSerializer_errors (db : DB) (data : SchoolCreateData.t)
    : ErrorDict :=
  (SchoolCreateSerializer_name_errors db (SchoolCreateData.name data)
   ++ check (validate_email (SchoolCreateData.email data)) "email" "invalid"
   ++ check (bool_decide (len (SchoolCreateData.email data) ≤ 254)%nat)
        "email" "max_length"
   ++ bounded "phone_number" (SchoolCreateData.phone_number data) 20
   ++ check (negb (bool_decide (SchoolCreateData.address data = "")))
        "address" "blank"
   ++ bounded "district" (SchoolCreateData.district data) 100
   ++ bounded "region" (SchoolCreateData.region data) 100
   ++ match SchoolCreateData.registration_number data with
      | Some number =>
          check (bool_decide (len number ≤ 100)%nat)
            "registration_number" "max_length"
          ++ check (negb (exists_where School.registration_number number
                            (schools db)))
               "registration_number" "unique"
      | None => []
      end)%list.

(** The [School] built from the validated data: the columns the serializer
    does not have take their defaults. *)
Definition SchoolCreateSerializer_instance (data : SchoolCreateData.t)
    : School.t :=
  School.mk (SchoolCreateData.name data) "" (SchoolCreateData.email data)
    (SchoolCreateData.phone_number data) (SchoolCreateData.address data)
    (SchoolCreateData.district data) (SchoolCreateData.region data)
    (default "" (SchoolCreateData.registration_number data)) true
    (default FREE (SchoolCreateData.subscription_type data))
    (SchoolCreateData.subscription_start_date data)
    (SchoolCreateData.subscription_end_date data) 0 0.

(** [SchoolCreateView]: [CreateAPIView] with [SchoolCreateSerializer] and
    [IsSuperAdmin]. *)
Definition SchoolCreateView (now : Z) (ru : RequestUser)
    (data : SchoolCreateData.t) : M Reply :=
  match authorize IsSuperAdmin_has_permission ru with
  | None => ret (plain permission_denied)
  | Some _ =>
      do db <- get_db;
      match SchoolCreateSerializer_errors db data with
      | [] =>
          do ' (_, school) <-
            School_save slugify now (None, SchoolCreateSerializer_instance data);
          ret (mkReply HTTP_201_CREATED (SchoolCreateBody school))
      | errs => ret (plain (mkResponse HTTP_400_BAD_REQUEST (Errors errs)))
      end
  end.

(** [SchoolDetailView.get_permissions] *)
Definition SchoolDetailView_get_permissions (method : Method)
    : RequestUser → bool :=
  if bool_decide (method ∈ [PUT; PATCH; DELETE])
  then IsSuperAdmin_has_permission
  else IsSuperAdminOrSchoolAdmin_has_permission.

(** [SchoolDetailView] on [GET]: [queryset = School.objects.all()], the
    answer is the data of [SchoolDetailSerializer], the two counts
    included. *)
Definition SchoolDetailView_retrieve (ru : RequestUser) (pk : Z) : M Reply :=
  match authorize (SchoolDetailView_get_permissions GET) ru with
  | None => ret (plain permission_denied)
  | Some _ =>
      do db <- get_db;
      match schools db !! pk with
      | None => ret (plain not_found)
      | Some school =>
          ret (mkReply HTTP_200_OK
                 (SchoolDetailBody pk school (School_total_students pk db)
                    (School_total_teachers pk db)))
      end
  end.

(** *** scripts/create_test_data.py *)

(** [School.objects.get(name=name)] *)
Definition School_objects_get (name : string) (db : DB) : exn + (Z * School.t) :=
  match filter (λ kr, School.name kr.2 = name) (map_to_list (schools db)) with
  | [] => inl DoesNotExist
  | [kr] => inr kr
  | _ => inl MultipleObjectsReturned
  end.

(** [School.objects.get_or_create(name=..., defaults=...)]: the row found,
    or the row created from [instance]; an [IntegrityError] of the insert is
    raised again when a second [get] finds nothing either. *)
Definition School_objects_get_or_create (now : Z) (instance : School.t)
    : M (Z * School.t * bool) :=
  do db <- get_db;
  match School_objects_get (School.name instance) db with
  | inr (pk, school) => ret (pk, school, false)
  | inl DoesNotExist =>
      λ db0,
        match School_save slugify now (None, instance) db0 with
        | (db1, inr (pk, school)) => (db1, inr (pk, school, true))
        | (db1, inl (IntegrityError c)) =>
            match School_objects_get (School.name instance) db1 with
            | inr (pk, school) => (db1, inr (pk, school, false))
            | inl DoesNotExist => (db1, inl (IntegrityError c))
            | inl e => (db1, inl e)
            end
        | (db1, inl e) => (db1, inl e)
        end
  | inl e => raise e
  end.

Definition test_school : School.t :=
  School.mk "Test High School" "" "admin@testhigh.com" "+256700000000"
    "123 Test Street" "Kampala" "Central" "THS2025" true BASIC None None 0 0.

(** The five lines printed at the start and the credentials printed at the
    end are constant; [rule] is "="*50. *)
Definition rule : string := String.concat "" (replicate 50 "=").

Definition credentials : list string :=
  ["
" +:+ rule; "TEST CREDENTIALS:"; rule;
   "Super Admin:"; "  Email: superadmin@biotutor.com"; "  Password: Admin@2025";
   "
School Admin:"; "  Email: schooladmin@testhigh.com"; "  Password: School@2025";
   "
Teacher:"; "  Email: teacher@testhigh.com"; "  Password: Teacher@2025";
   "
Student:"; "  Email: student@testhigh.com"; "  Password: Student@2025";
   rule].

(** The script: the school, then the four accounts, each created only when
    no user has its email.  [times] are the moments of the five writes; the
    result is the list of the lines printed. *)
Definition create_test_data (times : Z * Z * Z * Z * Z) : M (list string) :=
  let '(t_school, t_super, t_admin, t_teacher, t_student) := times in
  do ' (school_pk, school, created) <-
    School_objects_get_or_create t_school test_school;
  let line_school :=
    if created then "✓ Created school: " +:+ School.name school
    else "✓ School already exists: " +:+ School.name school in
  do db <- get_db;
  do line_super <-
    (if negb (exists_where User.email "superadmin@biotutor.com" (users db))
     then
       do ' (_, super_admin) <-
         create_superuser t_super "superadmin@biotutor.com" (Some "Admin@2025")
           (ExtraFields.mk None (Some "Super") (Some "Admin") (Some SUPER_ADMIN)
              None None None None None None);
       ret ("✓ Created Super Admin: " +:+ User.email super_admin)
     else ret "✓ Super Admin already exists");
  do db <- get_db;
  do line_admin <-
    (if negb (exists_where User.email "schooladmin@testhigh.com" (users db))
     then
       do ' (_, school_admin) <-
         create_user normalize_email make_password t_admin
           "schooladmin@testhigh.com" (Some "School@2025") "School"
           "Administrator" SCHOOL_ADMIN (Some school_pk);
       ret ("✓ Created School Admin: " +:+ User.email school_admin)
     else ret "✓ School Admin already exists");
  do db <- get_db;
  do line_teacher <-
    (if negb (exists_where User.email "teacher@testhigh.com" (users db))
     then
       do ' (_, teacher) <-
         create_user normalize_email make_password t_teacher
           "teacher@testhigh.com" (Some "Teacher@2025") "Test" "Teacher"
           TEACHER (Some school_pk);
       ret ("✓ Created Teacher: " +:+ User.email teacher)
     else ret "✓ Teacher already exists");
  do db <- get_db;
  do line_student <-
    (if negb (exists_where User.email "student@testhigh.com" (users db))
     then
       do ' (_, student) <-
         create_user normalize_email make_password t_student
           "student@testhigh.com" (Some "Student@2025") "Test" "Student"
           STUDENT (Some school_pk);
       ret ("✓ Created Student: " +:+ User.email student)
     else ret "✓ Student already exists");
  ret (["Creating test data..."; line_school; line_super; line_admin;
        line_teacher; line_student] ++ credentials)%list.

(** The four accounts of the script, by email. *)
Definition test_emails : list string :=
  ["superadmin@biotutor.com"; "schooladmin@testhigh.com";
   "teacher@testhigh.com"; "student@testhigh.com"].

(** What the script looks for before it writes: the school by its name,
    each account by its email. *)
Definition test_data_present (db : DB) : Prop :=
  (∃ kr, School_objects_get "Test High School" db = inr kr) ∧
  Forall (λ email, exists_where User.email email (users db) = true)
    test_emails.

(** The shape of the accounts that the script creates: the Super Admin, or
    an account of the school with key [school_pk]. *)
Definition test_account (school_pk : Z) (u : User.t) : Prop :=
  User.is_active u = true ∧
  ((User.role u = SUPER_ADMIN ∧ User.school u = None ∧
    User.is_staff u = true ∧ User.is_superuser u = true) ∨
   (User.role u ≠ SUPER_ADMIN ∧ User.school u = Some school_pk ∧
    User.is_staff u = false ∧ User.is_superuser u = false)).

(** What the account part of the script may do to a database: it writes to
    [users] only, keeps the rows that are there, and every row it adds is a
    test account. *)
Definition test_accounts_added (school_pk : Z) (db db' : DB) : Prop :=
  schools db' = schools db ∧ teacher_profiles db' = teacher_profiles db ∧
  student_profiles db' = student_profiles db ∧ topics db' = topics db ∧
  users db ⊆ users db' ∧
  ∀ k u, users db' !! k = Some u → users db !! k = None →
         test_account school_pk u.

End Endpoints.

(** ** Sample data

    Concrete stand-ins for the framework functions and a small database,
    used to run the model on explicit inputs. *)
Module Sample.
(** Lower-case letters and hyphens for spaces: enough of [slugify] for the
    names used here. *)
Definition slug_char (c : Ascii.ascii) : Ascii.ascii :=
  let n := Ascii.N_of_ascii c in
  if ((65 <=? n) && (n <=? 90))%N then Ascii.ascii_of_N (n + 32)
  else if (n =? 32)%N then Ascii.ascii_of_N 45
  else c.
Fixpoint slugify (s : string) : string :=
  match s with
  | String c s' => String (slug_char c) (slugify s')
  | EmptyString => EmptyString
  end.
Definition normalize_email (s : string) : string := s.
Definition make_password (raw : option string) : string :=
  match raw with
  | Some p => "pbkdf2$" +:+ p
  | None => "!"
  end.
Definition validate_email (s : string) : bool := negb (bool_decide (s = "")).
Definition validate_password (s : string) : bool :=
  bool_decide (8 ≤ String.length s)%nat.

Definition school1 : School.t :=
  School.mk "Test High School" "test-high-school" "admin@testhigh.com"
    "+256700000000" "123 Test Street" "Kampala" "Central" "THS2025"
    true BASIC None None 100 100.

Definition super_admin : User.t :=
  User.mk "superadmin@biotutor.com" "Super" "Admin" SUPER_ADMIN None
    true true true 100 None "pbkdf2$Admin@2025".

Definition school_admin : User.t :=
  User.mk "schooladmin@testhigh.com" "School" "Administrator" SCHOOL_ADMIN
    (Some 1) true false false 100 None "pbkdf2$School@2025".

Definition teacher : User.t :=
  User.mk "teacher@testhigh.com" "Test" "Teacher" TEACHER (Some 1)
    true false false 100 None "pbkdf2$Teacher@2025".

Definition cell : Topic.t :=
  Topic.mk 1 "The Cell" "Cell structure" 1 "" [] 100 100.

(** One school, three users, one teacher profile, one topic. *)
Definition db : DB :=
  mkDB {[1 := school1]}
       {[1 := super_admin; 2 := school_admin; 3 := teacher]}
       {[3 := TeacherProfile.mk "Biology" None "" "" 100 100]}
       ∅
       {[1 := cell]}.

(** A school that has not been saved yet: no slug, no key. *)
Definition hill : School.t :=
  School.mk "Hill School" "" "office@hill.example" "+256700000001"
    "1 Hill Road" "Gulu" "Northern" "HILL2025" true FREE None None 0 0.

Definition new_teacher : Attrs.t :=
  Attrs.mk "newteacher@testhigh.com" "New" "Teacher" TEACHER (Some 1)
    "Secret#2025" "Secret#2025".

Definition new_student : Attrs.t :=
  Attrs.mk "newstudent@testhigh.com" "New" "Student" STUDENT (Some 1)
    "Secret#2025" "Secret#2025".

(** A registration that names the role SUPER_ADMIN and no school. *)
Definition no_school : Attrs.t :=
  Attrs.mk "newadmin@testhigh.com" "New" "Admin" SUPER_ADMIN None
    "Secret#2025" "Secret#2025".

Definition student_a : Entry :=
  {[ "email" := "amina@testhigh.com"; "first_name" := "Amina";
     "last_name" := "Okello"; "class_level" := "S2" ]}.

Definition student_b : Entry :=
  {[ "email" := "brian@testhigh.com"; "first_name" := "Brian";
     "last_name" := "Mukasa"; "class_level" := "S3";
     "password" := "Chosen#2025"; "student_id" := "THS-0042" ]}.
(** The stand-ins for the password check, the case folding and [int]. *)
Definition check_password (raw hash : string) : bool :=
  bool_decide (make_password (Some raw) = hash).
Definition casefold : string → string := slugify.
Definition digit_value (c : Ascii.ascii) : option Z :=
  let n := Ascii.N_of_ascii c in
  if ((48 <=? n) && (n <=? 57))%N then Some (Z.of_N n - 48) else None.
Fixpoint digits_value (acc : Z) (s : string) : option Z :=
  match s with
  | String c s' =>
      match digit_value c with
      | Some d => digits_value (10 * acc + d) s'
      | None => None
      end
  | EmptyString => Some acc
  end.
Definition python_int (s : string) : option Z :=
  if bool_decide (s = "") then None else digits_value 0 s.

Definition student : User.t :=
  User.mk "student@testhigh.com" "Test" "Student" STUDENT (Some 1)
    true false false 100 None "pbkdf2$Student@2025".

Definition student_profile : StudentProfile.t :=
  StudentProfile.mk "S1" "STD000004" "" "" "" [] 100 100.

(** The sample database with one student and a second school. *)
Definition school2 : School.t :=
  School.mk "Lake View College" "lake-view-college" "office@lakeview.example"
    "+256700000002" "2 Lake Road" "Jinja" "Eastern" "LVC2025"
    true FREE None None 100 100.

Definition outsider : User.t :=
  User.mk "teacher@lakeview.example" "Other" "Teacher" TEACHER (Some 2)
    true false false 100 None "pbkdf2$Other@2025".

Definition db2 : DB :=
  mkDB {[1 := school1; 2 := school2]}
       {[1 := super_admin; 2 := school_admin; 3 := teacher; 4 := student;
         5 := outsider]}
       {[3 := TeacherProfile.mk "Biology" None "" "" 100 100]}
       {[4 := student_profile]}
       {[1 := cell]}.
(** Lower case only: a case folding that keeps spaces and hyphens apart. *)
Definition lower_char (c : Ascii.ascii) : Ascii.ascii :=
  let n := Ascii.N_of_ascii c in
  if ((65 <=? n) && (n <=? 90))%N then Ascii.ascii_of_N (n + 32) else c.
Fixpoint lower (s : string) : string :=
  match s with
  | String c s' => String (lower_char c) (lower s')
  | EmptyString => EmptyString
  end.

(** Requests to create a school: a new one, one whose name differs from
    Test High School by its hyphens only, and one without a registration
    number. *)
Definition hill_data : SchoolCreateData.t :=
  SchoolCreateData.mk "Hill School" "office@hill.example" "+256700000001"
    "1 Hill Road" "Gulu" "Northern" (Some "HILL2025") None None None.

Definition hyphen_data : SchoolCreateData.t :=
  SchoolCreateData.mk "Test-High-School" "office@hyphen.example"
    "+256700000003" "3 Hyphen Road" "Mbale" "Eastern" (Some "HYP2025") None
    None None.

Definition unregistered_data : SchoolCreateData.t :=
  SchoolCreateData.mk "Valley School" "office@valley.example" "+256700000004"
    "4 Valley Road" "Mbarara" "Western" None None None None.

(** A stored school without a registration number. *)
Definition unregistered : School.t :=
  School.mk "River School" "river-school" "office@river.example"
    "+256700000005" "5 River Road" "Lira" "Northern" "" true FREE None None
    100 100.

Definition db3 : DB :=
  mkDB {[1 := school1; 3 := unregistered]}
       {[1 := super_admin; 2 := school_admin; 3 := teacher]}
       {[3 := TeacherProfile.mk "Biology" None "" "" 100 100]}
       ∅
       {[1 := cell]}.

(** An entry of a bulk request with an empty email. *)
Definition student_no_email : Entry :=
  {[ "email" := ""; "first_name" := "Carol"; "last_name" := "Nambi";
     "class_level" := "S1" ]}.

(** The database before anything is stored. *)
Definition empty_db : DB := mkDB ∅ ∅ ∅ ∅ ∅.

(** U+00A0, the no-break space, in UTF-8. *)
Definition nbsp : string :=
  String (Ascii.ascii_of_N 194) (String (Ascii.ascii_of_N 160) "").
End Sample.

(** * Properties *)

(** ** The object-relational layer *)

Lemma max_key_upper {A} (t : gmap Z A) k x : t !! k = Some x → k ≤ max_key t.
Proof.
  intros Hk. unfold max_key.
  assert (Hin : k ∈ (map_to_list t).*1).
  { apply list_elem_of_fmap. exists (k, x). split; [done|].
    by apply elem_of_map_to_list. }
  clear Hk. induction ((map_to_list t).*1) as [|y l IH]; simpl.
  - by apply elem_of_nil in Hin.
  - apply elem_of_cons in Hin as [->|Hin]; [lia|]. specialize (IH Hin). lia.
Qed.

Lemma next_id_fresh {A} (t : gmap Z A) : t !! next_id t = None.
Proof.
  destruct (t !! next_id t) as [x|] eqn:Hk; [|done].
  apply max_key_upper in Hk. unfold next_id in Hk. lia.
Qed.

Lemma next_id_positive {A} (t : gmap Z A) : 0 < next_id t.
Proof.
  unfold next_id, max_key.
  induction ((map_to_list t).*1) as [|y l IH]; simpl; lia.
Qed.

Lemma clashes_true {A B} `{EqDecision B} (col : A → B) t self row :
  clashes col t self row = true ↔
  ∃ k r, t !! k = Some r ∧ Some k ≠ self ∧ col r = col row.
Proof. unfold clashes. rewrite bool_decide_eq_true. reflexivity. Qed.

Lemma clashes_false {A B} `{EqDecision B} (col : A → B) t self row :
  clashes col t self row = false ↔
  ∀ k r, t !! k = Some r → Some k ≠ self → col r ≠ col row.
Proof.
  rewrite <-not_true_iff_false, clashes_true. split.
  - intros Hno k r Hk Hself Hcol. apply Hno. eauto.
  - intros Hall (k & r & Hk & Hself & Hcol). by eapply Hall.
Qed.

Lemma exists_where_true {A B} `{EqDecision B} (col : A → B) v t :
  exists_where col v t = true ↔ ∃ k r, t !! k = Some r ∧ col r = v.
Proof. unfold exists_where. rewrite bool_decide_eq_true. reflexivity. Qed.

(** Uniqueness can be read off the list of the column's values. *)
Lemma unique_on_NoDup {A B} (col : A → B) (t : gmap Z A) :
  NoDup ((λ kr, col kr.2) <$> map_to_list t) → unique_on col t.
Proof.
  intros Hnd i j x y Hi Hj Hcol.
  apply elem_of_map_to_list, list_elem_of_lookup in Hi as [a Ha].
  apply elem_of_map_to_list, list_elem_of_lookup in Hj as [b Hb].
  assert (a = b) as ->.
  { eapply NoDup_lookup; [exact Hnd|..]; rewrite list_lookup_fmap.
    - by rewrite Ha.
    - rewrite Hb. simpl. by rewrite Hcol. }
  congruence.
Qed.

Lemma unique_on_empty {A B} (col : A → B) : unique_on col (∅ : gmap Z A).
Proof. intros i j x y Hi. by rewrite lookup_empty in Hi. Qed.

(** Rewriting a row without touching a unique column never clashes. *)
Lemma clashes_same_row {A B} `{EqDecision B} (col : A → B) t pk old new :
  unique_on col t → t !! pk = Some old → col new = col old →
  clashes col t (Some pk) new = false.
Proof.
  intros Huniq Hpk Hcol. apply clashes_false. intros k r Hk Hne Heq.
  apply Hne. f_equal. eapply Huniq; [done..|]. congruence.
Qed.

(** ** The shape of an automatic student id *)

Lemma length_append (s1 s2 : string) :
  String.length (s1 +:+ s2) = (String.length s1 + String.length s2)%nat.
Proof. induction s1 as [|c s1 IH]; simpl; [done|by rewrite IH]. Qed.

Lemma length_zeros n : String.length (zeros n) = n.
Proof.
  induction n as [|n IH]; [done|].
  change (zeros (S n)) with ("0" +:+ zeros n). by rewrite length_append, IH.
Qed.

Lemma length_zfill width digits :
  String.length (zfill width digits) = (width `max` String.length digits)%nat.
Proof. unfold zfill. rewrite length_append, length_zeros. lia. Qed.

(** A number below [10 ^ k] has at most [k] decimal digits. *)
Lemma length_pretty_N_go (k : nat) :
  ∀ (x : N) (s : string),
    (x < 10 ^ N.of_nat k)%N →
    (String.length (pretty_N_go x s) ≤ k + String.length s)%nat.
Proof.
  induction k as [|k IH]; intros x s Hx.
  - assert (x = 0%N) as -> by (simpl in Hx; lia). rewrite pretty_N_go_0. lia.
  - destruct (decide (x = 0%N)) as [->|Hpos]; [rewrite pretty_N_go_0; lia|].
    rewrite pretty_N_go_step by lia.
    etrans; [apply IH|simpl; lia].
    rewrite Nat2N.inj_succ, N.pow_succ_r' in Hx.
    apply N.Div0.div_lt_upper_bound. lia.
Qed.

Lemma length_pretty_Z (k : nat) (n : Z) :
  (0 < k)%nat → 0 ≤ n < 10 ^ Z.of_nat k → (String.length (pretty n) ≤ k)%nat.
Proof.
  intros Hk [Hlo Hhi]. destruct n as [|p|p]; [simpl; lia| |lia].
  unfold pretty, pretty_Z, pretty, pretty_positive, pretty, pretty_N.
  rewrite decide_False by done.
  etrans; [apply (length_pretty_N_go k)|simpl; lia].
  apply N2Z.inj_lt. rewrite N2Z.inj_pow, nat_N_Z. simpl. lia.
Qed.

(** f"{n:06d}" of a key is the decimal number, with zeros in front when it
    has fewer than six digits; keys below one million give exactly six
    characters. *)
Lemma format_06d_nonneg (n : Z) :
  0 ≤ n →
  format_06d n = zeros (6 - String.length (pretty n)) +:+ pretty n.
Proof. intros Hn. by destruct n. Qed.

Lemma format_06d_length (n : Z) :
  0 ≤ n → String.length (format_06d n) = (6 `max` String.length (pretty n))%nat.
Proof. intros Hn. destruct n; [done|apply length_zfill|lia]. Qed.

Lemma format_06d_six (n : Z) :
  0 ≤ n < 1000000 → String.length (format_06d n) = 6%nat.
Proof.
  intros Hn. rewrite format_06d_length by lia.
  pose proof (length_pretty_Z 6 n). lia.
Qed.

(** The key of a new row is positive, so its id reads STD and at least six
    digits. *)
Lemma auto_student_id_next {A} (t : gmap Z A) :
  auto_student_id (next_id t)
  = "STD" +:+ zeros (6 - String.length (pretty (next_id t)))
      +:+ pretty (next_id t).
Proof.
  unfold auto_student_id. rewrite format_06d_nonneg; [done|].
  pose proof (next_id_positive t). lia.
Qed.

Lemma zeros_replicate n : zeros n = String.concat "" (replicate n "0").
Proof.
  induction n as [|n IH]; [done|].
  change (zeros (S n)) with ("0" +:+ zeros n). rewrite IH.
  by destruct n.
Qed.

(** The automatic student id in the words of the format: STD, then zeros
    up to six digits, then the decimal digits of the key. *)
Lemma auto_student_id_padded (pk : Z) :
  0 ≤ pk →
  auto_student_id pk
  = "STD" +:+ String.concat "" (replicate (6 - String.length (pretty pk)) "0")
      +:+ pretty pk.
Proof.
  intros Hpk. unfold auto_student_id.
  by rewrite format_06d_nonneg, zeros_replicate.
Qed.

Lemma auto_student_id_length (pk : Z) :
  0 ≤ pk < 1000000 → String.length (auto_student_id pk) = 9%nat.
Proof.
  intros Hpk. unfold auto_student_id.
  rewrite length_append, format_06d_six by done. done.
Qed.

(** ** Permissions *)

(** C5. [IsSameSchool.has_object_permission] is true for every Super Admin
    whatever the object is; for a School Admin it is true exactly when the
    object has a school and that school is the requester's. *)
Theorem IsSameSchool_has_object_permission_spec (user : User.t) (obj : Obj) :
  (User.role user = SUPER_ADMIN →
   IsSameSchool_has_object_permission user obj = inr true) ∧
  (User.role user = SCHOOL_ADMIN →
   (IsSameSchool_has_object_permission user obj = inr true ↔
    getattr_school obj = Some (User.school user))).
Proof.
  unfold IsSameSchool_has_object_permission, obj_school_eq, hasattr_school.
  split; intros Hrole; rewrite Hrole; simpl; [done|].
  destruct obj as [pk u| | | |]; simpl; try (split; [discriminate|done]).
  case_bool_decide as Heq.
  - split; [intros _; by rewrite Heq|done].
  - split; [discriminate|]. intros [=]. done.
Qed.

(** For the users a School Admin reaches through [SchoolUserDetailView]. *)
Lemma IsSameSchool_on_users (user : User.t) pk (target : User.t) :
  User.role user = SCHOOL_ADMIN →
  IsSameSchool_has_object_permission user (ObjUser pk target)
  = inr (bool_decide (User.school target = User.school user)).
Proof.
  intros Hrole. unfold IsSameSchool_has_object_permission. by rewrite Hrole.
Qed.

(** Teachers and students never pass. *)
Lemma IsSameSchool_other_roles (user : User.t) (obj : Obj) :
  User.role user ∈ [TEACHER; STUDENT] →
  IsSameSchool_has_object_permission user obj = inr false.
Proof.
  unfold IsSameSchool_has_object_permission.
  rewrite !elem_of_cons, elem_of_nil. by intros [->|[->|[]]].
Qed.

(** ** Registration: validation *)

(** What [validate] accepts: matching passwords, and a school exactly for
    the roles other than Super Admin. *)
Lemma UserRegistrationSerializer_validate_inr (attrs out : Attrs.t) :
  UserRegistrationSerializer_validate attrs = inr out ↔
  out = attrs ∧ Attrs.password attrs = Attrs.password_confirm attrs ∧
  (Attrs.role attrs = SUPER_ADMIN ↔ Attrs.school attrs = None).
Proof.
  unfold UserRegistrationSerializer_validate.
  destruct (decide (Attrs.password attrs = Attrs.password_confirm attrs)) as [Hpw|Hpw].
  2: { rewrite bool_decide_eq_true_2 by done. split; [discriminate|tauto]. }
  rewrite bool_decide_eq_false_2 by tauto.
  destruct (decide (Attrs.role attrs = SUPER_ADMIN)) as [Hrole|Hrole];
    destruct (Attrs.school attrs) as [k|] eqn:Hschool.
  - rewrite !bool_decide_eq_true_2 by eauto. simpl.
    split; [discriminate|]. intros (_ & _ & [Hs _]). by specialize (Hs Hrole).
  - rewrite (bool_decide_eq_true_2 _ Hrole).
    rewrite (bool_decide_eq_false_2 (is_Some None)) by (by intros [? ?]).
    rewrite (bool_decide_eq_false_2 (Attrs.role attrs ≠ SUPER_ADMIN)) by tauto.
    simpl. split; [intros [= <-]; tauto|]. by intros (-> & _).
  - rewrite (bool_decide_eq_false_2 _ Hrole).
    rewrite (bool_decide_eq_true_2 (Attrs.role attrs ≠ SUPER_ADMIN)) by done.
    rewrite bool_decide_eq_true_2 by eauto. simpl.
    split; [intros [= <-]|by intros (-> & _)].
    split; [done|]. split; [done|]. split; [done|discriminate].
  - rewrite (bool_decide_eq_false_2 _ Hrole).
    rewrite (bool_decide_eq_true_2 (Attrs.role attrs ≠ SUPER_ADMIN)) by done.
    rewrite (bool_decide_eq_false_2 (is_Some None)) by (by intros [? ?]).
    simpl. split; [discriminate|]. intros (_ & _ & [_ Hs]). by specialize (Hs eq_refl).
Qed.

(** C4. [UserRegistrationSerializer.validate] raises a validation error
    whenever the role is Super Admin and a school is set, and whenever the
    role is another one and no school is set; when neither holds and the two
    passwords match, it returns the attributes. *)
Theorem UserRegistrationSerializer_validate_spec (attrs : Attrs.t) :
  (Attrs.role attrs = SUPER_ADMIN → is_Some (Attrs.school attrs) →
   ∃ errs, UserRegistrationSerializer_validate attrs = inl errs) ∧
  (Attrs.role attrs ≠ SUPER_ADMIN → Attrs.school attrs = None →
   ∃ errs, UserRegistrationSerializer_validate attrs = inl errs) ∧
  (Attrs.password attrs = Attrs.password_confirm attrs →
   ¬ (Attrs.role attrs = SUPER_ADMIN ∧ is_Some (Attrs.school attrs)) →
   ¬ (Attrs.role attrs ≠ SUPER_ADMIN ∧ Attrs.school attrs = None) →
   UserRegistrationSerializer_validate attrs = inr attrs).
Proof.
  split; [|split].
  - intros Hrole [k Hschool].
    destruct (UserRegistrationSerializer_validate attrs) as [errs|out] eqn:Hv;
      [eauto|].
    apply UserRegistrationSerializer_validate_inr in Hv as (_ & _ & [Hs _]).
    specialize (Hs Hrole). congruence.
  - intros Hrole Hschool.
    destruct (UserRegistrationSerializer_validate attrs) as [errs|out] eqn:Hv;
      [eauto|].
    apply UserRegistrationSerializer_validate_inr in Hv as (_ & _ & [_ Hs]).
    by specialize (Hs Hschool).
  - intros Hpw Hsuper Hother.
    apply UserRegistrationSerializer_validate_inr.
    split; [done|]. split; [done|]. split.
    + intros Hrole. destruct (Attrs.school attrs) eqn:Hs; [|done].
      destruct Hsuper. eauto.
    + intros Hschool.
      destruct (decide (Attrs.role attrs = SUPER_ADMIN)); [done|].
      by destruct Hother.
Qed.

Lemma UserRegistrationSerializer_validate_spec_witness :
  (∃ errs, UserRegistrationSerializer_validate
     (Attrs.mk "a@b.org" "A" "B" SUPER_ADMIN (Some 1) "Secret#123" "Secret#123")
     = inl errs) ∧
  (∃ errs, UserRegistrationSerializer_validate
     (Attrs.mk "a@b.org" "A" "B" TEACHER None "Secret#123" "Secret#123")
     = inl errs) ∧
  UserRegistrationSerializer_validate
    (Attrs.mk "a@b.org" "A" "B" TEACHER (Some 1) "Secret#123" "Secret#123")
  = inr (Attrs.mk "a@b.org" "A" "B" TEACHER (Some 1) "Secret#123" "Secret#123").
Proof.
  split; [|split].
  - apply (proj1 (UserRegistrationSerializer_validate_spec
             (Attrs.mk "a@b.org" "A" "B" SUPER_ADMIN (Some 1)
                "Secret#123" "Secret#123"))); simpl; [reflexivity|eauto].
  - apply (proj1 (proj2 (UserRegistrationSerializer_validate_spec
             (Attrs.mk "a@b.org" "A" "B" TEACHER None
                "Secret#123" "Secret#123")))); simpl; [discriminate|reflexivity].
  - apply (proj2 (proj2 (UserRegistrationSerializer_validate_spec
             (Attrs.mk "a@b.org" "A" "B" TEACHER (Some 1)
                "Secret#123" "Secret#123")))); simpl.
    + reflexivity.
    + intros [Hrole _]. discriminate Hrole.
    + intros [_ Hschool]. discriminate Hschool.
Defined.

Lemma IsSameSchool_has_object_permission_spec_witness :
  IsSameSchool_has_object_permission Sample.super_admin (ObjSchool 1 Sample.school1)
  = inr true ∧
  IsSameSchool_has_object_permission Sample.school_admin (ObjUser 3 Sample.teacher)
  = inr true.
Proof.
  split.
  - apply (proj1 (IsSameSchool_has_object_permission_spec
                    Sample.super_admin (ObjSchool 1 Sample.school1))).
    reflexivity.
  - apply (proj2 (IsSameSchool_has_object_permission_spec
                    Sample.school_admin (ObjUser 3 Sample.teacher)));
      reflexivity.
Defined.

(** ** Saving rows *)

Lemma User_save_update (db : DB) pk (old new : User.t) :
  unique_on User.email (users db) → users db !! pk = Some old →
  User.email new = User.email old →
  User_save (Some pk, new) db = (with_users <[pk := new]> db, inr (pk, new)).
Proof.
  intros Huniq Hpk Hemail. unfold User_save, bind, get_db. simpl.
  by rewrite (clashes_same_row _ _ _ old).
Qed.

Lemma User_save_insert (db : DB) (new : User.t) :
  exists_where User.email (User.email new) (users db) = false →
  User_save (None, new) db
  = (with_users <[next_id (users db) := new]> db, inr (next_id (users db), new)).
Proof.
  intros Hfree. unfold User_save, bind, get_db. simpl.
  replace (clashes User.email (users db) None new) with false; [done|].
  symmetry. apply clashes_false. intros k r Hk _ Heq.
  apply not_true_iff_false in Hfree. apply Hfree, exists_where_true. eauto.
Qed.

Lemma User_save_ok (db : DB) (inst : instance User.t) :
  clashes User.email (users db) inst.1 inst.2 = false →
  let k := match inst.1 with Some pk => pk | None => next_id (users db) end in
  User_save inst db = (with_users <[k := inst.2]> db, inr (k, inst.2)).
Proof.
  intros Hfree. unfold User_save, bind, get_db. simpl. by rewrite Hfree.
Qed.

(** Whatever [User.save] does, it writes at most the row of its instance. *)
Lemma User_save_inv (db db' : DB) inst r :
  User_save inst db = (db', r) →
  (db' = db ∧ ∃ e, r = inl e) ∨
  (∃ k, r = inr (k, inst.2) ∧ db' = with_users <[k := inst.2]> db ∧
        match inst.1 with
        | Some pk => k = pk
        | None => k = next_id (users db)
        end ∧
        clashes User.email (users db) inst.1 inst.2 = false).
Proof.
  unfold User_save, bind, get_db. simpl.
  destruct (clashes User.email (users db) inst.1 inst.2) eqn:Hclash; simpl.
  - intros [= <- <-]. left. eauto.
  - intros [= <- <-]. right. eexists. split; [done|]. split; [done|].
    split; [|done]. by destruct inst.1.
Qed.

Section Properties.

Variable slugify : string → string.
Variable normalize_email : string → string.
Variable make_password : option string → string.
Variable validate_email : string → bool.
Variable validate_password : string → bool.

(** ** Schools: the slug *)

Lemma School_fill_slug_empty (s : School.t) :
  School.slug s = "" →
  School_fill_slug slugify s = School.set_slug (slugify (School.name s)) s.
Proof. intros Hs. unfold School_fill_slug. by rewrite bool_decide_eq_true_2. Qed.

Lemma School_fill_slug_nonempty (s : School.t) :
  School.slug s ≠ "" → School_fill_slug slugify s = s.
Proof. intros Hs. unfold School_fill_slug. by rewrite bool_decide_eq_false_2. Qed.

Lemma School_fill_slug_settled (s : School.t) :
  slug_settled slugify s → School_fill_slug slugify s = s.
Proof.
  intros Hs. destruct (decide (School.slug s = "")) as [He|He].
  - rewrite School_fill_slug_empty, (Hs He) by done. by destruct s; simplify_eq/=.
  - by apply School_fill_slug_nonempty.
Qed.

Lemma School_fill_slug_name (s : School.t) :
  School.name (School_fill_slug slugify s) = School.name s.
Proof. unfold School_fill_slug. by case_bool_decide. Qed.

Lemma School_super_save_inv now (inst : instance School.t) db db' r :
  School_super_save now inst db = (db', r) →
  (db' = db ∧ ∃ e, r = inl e) ∨
  (∃ k, r = inr (k, School_pre_save now inst) ∧
        db' = with_schools <[k := School_pre_save now inst]> db ∧
        match inst.1 with
        | Some pk => k = pk
        | None => k = next_id (schools db)
        end ∧
        clashes School.name (schools db) inst.1 (School_pre_save now inst)
        = false ∧
        clashes School.slug (schools db) inst.1 (School_pre_save now inst)
        = false ∧
        clashes School.registration_number (schools db) inst.1
          (School_pre_save now inst) = false).
Proof.
  unfold School_super_save, bind, get_db. simpl.
  destruct (clashes School.name _ _ _) eqn:Hname; simpl;
    [intros [= <- <-]; left; eauto|].
  destruct (clashes School.slug _ _ _) eqn:Hslug; simpl;
    [intros [= <- <-]; left; eauto|].
  destruct (clashes School.registration_number _ _ _) eqn:Hreg; simpl;
    [intros [= <- <-]; left; eauto|].
  intros [= <- <-]. right. eexists. split; [done|]. split; [done|].
  split; [by destruct inst.1|done].
Qed.

Lemma School_pre_save_slug now (inst : instance School.t) :
  School.slug (School_pre_save now inst) = School.slug inst.2.
Proof. unfold School_pre_save. by destruct inst.1. Qed.

Lemma School_pre_save_name now (inst : instance School.t) :
  School.name (School_pre_save now inst) = School.name inst.2.
Proof. unfold School_pre_save. by destruct inst.1. Qed.

(** [School.save] succeeds when no other row holds the name, the slug it
    ends up with, or the registration number. *)
Lemma School_save_succeeds now (inst : instance School.t) db :
  let s := School_pre_save now (inst.1, School_fill_slug slugify inst.2) in
  clashes School.name (schools db) inst.1 s = false →
  clashes School.slug (schools db) inst.1 s = false →
  clashes School.registration_number (schools db) inst.1 s = false →
  ∃ k, School_save slugify now inst db = (with_schools <[k := s]> db, inr (k, s)).
Proof.
  intros s H1 H2 H3.
  unfold School_save, School_super_save, bind, get_db. simpl.
  fold s. rewrite H1, H2, H3. simpl. eauto.
Qed.

(** C7. [School.save] on a school whose slug is empty gives it the slugified
    name, and leaves a non-empty slug as it is: this holds for the instance
    handed to the database write, and for the row stored when the write
    succeeds. *)
Theorem School_save_slug now (inst : instance School.t) (db : DB) :
  School_save slugify now inst db
  = School_super_save now (inst.1, School_fill_slug slugify inst.2) db ∧
  (School.slug inst.2 = "" →
   School.slug (School_fill_slug slugify inst.2) = slugify (School.name inst.2)) ∧
  (School.slug inst.2 ≠ "" →
   School.slug (School_fill_slug slugify inst.2) = School.slug inst.2) ∧
  (∀ db' k s', School_save slugify now inst db = (db', inr (k, s')) →
     schools db' !! k = Some s' ∧
     (School.slug inst.2 = "" → School.slug s' = slugify (School.name inst.2)) ∧
     (School.slug inst.2 ≠ "" → School.slug s' = School.slug inst.2)).
Proof.
  split; [done|]. split; [|split].
  - intros Hs. by rewrite School_fill_slug_empty.
  - intros Hs. by rewrite School_fill_slug_nonempty.
  - intros db' k s' Hsave. unfold School_save in Hsave.
    apply School_super_save_inv in Hsave as [(_ & e & [=])|(k' & [= -> ->] & -> & _)].
    split; [by simpl; rewrite lookup_insert_eq|].
    rewrite School_pre_save_slug. simpl. split; intros Hs.
    + by rewrite School_fill_slug_empty.
    + by rewrite School_fill_slug_nonempty.
Qed.

(** ** Soft deletion *)

Lemma authorize_Some has_permission ru pk u :
  ru = Authenticated pk u → has_permission ru = true →
  authorize has_permission ru = Some (pk, u).
Proof. intros -> Hperm. simpl. by rewrite Hperm. Qed.

Lemma authorize_inv has_permission ru pk u :
  authorize has_permission ru = Some (pk, u) →
  ru = Authenticated pk u ∧ has_permission ru = true.
Proof.
  destruct ru as [|pk' u']; simpl; [discriminate|].
  destruct (has_permission _) eqn:Hperm; [|discriminate]. by intros [= -> ->].
Qed.

Lemma has_role_true r ru :
  has_role r ru = true ↔ ∃ pk u, ru = Authenticated pk u ∧ User.role u = r.
Proof.
  destruct ru as [|pk u]; simpl.
  - split; [discriminate|]. by intros (? & ? & ? & _).
  - rewrite bool_decide_eq_true. split; [eauto|]. by intros (? & ? & [= <- <-] & ?).
Qed.

Lemma deactivate_user_ok (db : DB) pk (user : User.t) :
  unique_on User.email (users db) → users db !! pk = Some user →
  deactivate_user pk user db
  = (with_users <[pk := User.set_is_active false user]> db,
     inr (mkResponse 200 (Message "User deactivated successfully"))).
Proof.
  intros Huniq Hpk. unfold deactivate_user, bind.
  by rewrite (User_save_update db pk user).
Qed.

(** What replacing one user row leaves alone. *)
Lemma with_users_insert_frame (db : DB) pk (u : User.t) :
  let db' := with_users <[pk := u]> db in
  users db' !! pk = Some u ∧
  (∀ k, k ≠ pk → users db' !! k = users db !! k) ∧
  dom (users db) ⊆ dom (users db') ∧
  schools db' = schools db ∧
  teacher_profiles db' = teacher_profiles db ∧
  student_profiles db' = student_profiles db ∧
  topics db' = topics db.
Proof.
  simpl. split; [apply lookup_insert_eq|].
  split; [intros k Hk; by apply lookup_insert_ne|].
  split; [|done]. rewrite dom_insert_L. set_solver.
Qed.

Lemma with_schools_insert_frame (db : DB) pk (s : School.t) :
  let db' := with_schools <[pk := s]> db in
  schools db' !! pk = Some s ∧
  (∀ k, k ≠ pk → schools db' !! k = schools db !! k) ∧
  dom (schools db) ⊆ dom (schools db') ∧
  users db' = users db ∧
  teacher_profiles db' = teacher_profiles db ∧
  student_profiles db' = student_profiles db ∧
  topics db' = topics db.
Proof.
  simpl. split; [apply lookup_insert_eq|].
  split; [intros k Hk; by apply lookup_insert_ne|].
  split; [|done]. rewrite dom_insert_L. set_solver.
Qed.

(** C3, as amended. A [DELETE] that reaches the row answers 200 with a
    confirmation message and rewrites that one row, nothing else in the
    database.  For a user (both endpoints) the new row is the old one with
    [is_active] false.  For a school the new row is the old one with
    [is_active] false and [updated_at] set to the time of the request, the
    column being declared [auto_now]. *)
Theorem soft_delete_effect (now : Z) (ru : RequestUser) (pk : Z) (db : DB) :
  (∀ user,
     IsSuperAdmin_has_permission ru = true →
     unique_on User.email (users db) →
     users db !! pk = Some user →
     UserDetailView_destroy ru pk db
     = (with_users <[pk := User.set_is_active false user]> db,
        inr (mkResponse 200 (Message "User deactivated successfully")))) ∧
  (∀ requester_pk requester user,
     ru = Authenticated requester_pk requester →
     User.role requester = SCHOOL_ADMIN →
     unique_on User.email (users db) →
     users db !! pk = Some user →
     User.school user = User.school requester →
     SchoolUserDetailView_destroy ru pk db
     = (with_users <[pk := User.set_is_active false user]> db,
        inr (mkResponse 200 (Message "User deactivated successfully")))) ∧
  (∀ school,
     IsSuperAdmin_has_permission ru = true →
     unique_on School.name (schools db) →
     unique_on School.slug (schools db) →
     unique_on School.registration_number (schools db) →
     schools db !! pk = Some school →
     slug_settled slugify school →
     SchoolDetailView_destroy slugify now ru pk db
     = (with_schools
          <[pk := School.set_updated_at now (School.set_is_active false school)]> db,
        inr (mkResponse 200 (Message "School deactivated successfully")))).
Proof.
  split; [|split].
  - intros user Hperm Huniq Hpk.
    apply has_role_true in Hperm as (rpk & r & -> & Hrole).
    unfold UserDetailView_destroy.
    rewrite (authorize_Some _ _ rpk r) by (done || by apply has_role_true; eauto).
    unfold bind at 1, get_db. rewrite Hpk. by apply deactivate_user_ok.
  - intros rpk requester user -> Hrole Huniq Hpk Hschool.
    unfold SchoolUserDetailView_destroy.
    rewrite (authorize_Some _ _ rpk requester)
      by (done || by apply has_role_true; eauto).
    unfold bind at 1, get_db.
    assert (SchoolUserDetailView_get_queryset requester db !! pk = Some user) as ->.
    { unfold SchoolUserDetailView_get_queryset.
      by apply map_lookup_filter_Some. }
    rewrite IsSameSchool_on_users by done.
    rewrite bool_decide_eq_true_2 by done. by apply deactivate_user_ok.
  - intros school Hperm Hname Hslug Hreg Hpk Hsettled.
    apply has_role_true in Hperm as (rpk & r & -> & Hrole).
    unfold SchoolDetailView_destroy.
    rewrite (authorize_Some _ _ rpk r) by (done || by apply has_role_true; eauto).
    unfold bind at 1, get_db. rewrite Hpk.
    unfold bind, School_save. simpl.
    rewrite School_fill_slug_settled by done.
    unfold School_super_save, bind, get_db, School_pre_save. simpl.
    rewrite (clashes_same_row School.name _ _ school) by done.
    rewrite (clashes_same_row School.slug _ _ school) by done.
    by rewrite (clashes_same_row School.registration_number _ _ school) by done.
Qed.

(** ** Password reset *)

(** With unique emails, [User.objects.get(email=...)] finds one row or none. *)
Lemma User_objects_get_cases (db : DB) email :
  unique_on User.email (users db) →
  User_objects_get email db = inl DoesNotExist ∨
  ∃ k u, User_objects_get email db = inr (k, u) ∧
         users db !! k = Some u ∧ User.email u = email.
Proof.
  intros Huniq. unfold User_objects_get.
  destruct (filter _ _) as [|[k u] [|[k' u'] l]] eqn:Hl; [by left|right..].
  - assert (Hin : (k, u) ∈ filter (λ kr : Z * User.t, User.email kr.2 = email)
                     (map_to_list (users db))) by (rewrite Hl; left).
    apply list_elem_of_filter in Hin as [Hemail Hin].
    apply elem_of_map_to_list in Hin. eauto.
  - exfalso.
    assert (Hnd : NoDup (filter (λ kr : Z * User.t, User.email kr.2 = email)
                     (map_to_list (users db))))
      by apply NoDup_filter, NoDup_map_to_list.
    assert (H1 : (k, u) ∈ filter (λ kr : Z * User.t, User.email kr.2 = email)
                     (map_to_list (users db))) by (rewrite Hl; left).
    assert (H2 : (k', u') ∈ filter (λ kr : Z * User.t, User.email kr.2 = email)
                     (map_to_list (users db))) by (rewrite Hl; right; left).
    apply list_elem_of_filter in H1 as [He1 H1].
    apply list_elem_of_filter in H2 as [He2 H2].
    apply elem_of_map_to_list in H1. apply elem_of_map_to_list in H2.
    simpl in *. assert (k = k') as <- by (eapply Huniq; [done..|congruence]).
    assert (u = u') as <- by congruence.
    rewrite Hl in Hnd. apply NoDup_cons in Hnd as [Hnotin _].
    apply Hnotin. left.
Qed.

(** C8. A password-reset request with a well-formed email is answered 200
    with the same message on any two user tables: the answer does not say
    whether an account with that email exists, and the database is left as
    it was. *)
Theorem password_reset_request_noninterference (email : string) (db1 db2 : DB) :
  validate_email email = true →
  unique_on User.email (users db1) →
  unique_on User.email (users db2) →
  password_reset_request validate_email (Some email) db1
  = (db1, inr (mkResponse 200 (Message "Password reset link sent to email"))) ∧
  password_reset_request validate_email (Some email) db2
  = (db2, inr (mkResponse 200 (Message "Password reset link sent to email"))) ∧
  (password_reset_request validate_email (Some email) db1).2
  = (password_reset_request validate_email (Some email) db2).2.
Proof.
  intros Hvalid H1 H2.
  assert (Hone : ∀ db, unique_on User.email (users db) →
            password_reset_request validate_email (Some email) db
            = (db, inr (mkResponse 200 (Message "Password reset link sent to email")))).
  { intros db Huniq. unfold password_reset_request. simpl. rewrite Hvalid.
    unfold bind, get_db.
    by destruct (User_objects_get_cases db email Huniq) as [->|(k & u & -> & _)]. }
  rewrite !Hone by done. done.
Qed.

(** ** Topics *)

Lemma Topic_create_inv now (t : Topic.t) (db db' : DB) r :
  Topic_create now t db = (db', r) →
  (db' = db ∧ r = inl (IntegrityError "topics.curriculum_class_id_title") ∧
   clashes Topic_key (topics db) None (Topic_stamp now t) = true) ∨
  (db' = with_topics <[next_id (topics db) := Topic_stamp now t]> db ∧
   r = inr (next_id (topics db), Topic_stamp now t) ∧
   clashes Topic_key (topics db) None (Topic_stamp now t) = false).
Proof.
  unfold Topic_create, bind, get_db. simpl.
  destruct (clashes _ _ _ _); simpl; intros [= <- <-]; [by left|by right].
Qed.

(** [Topic.objects.create] fails exactly when a topic of the same class
    already has the title. *)
Lemma Topic_create_fails_iff now (t : Topic.t) (db : DB) :
  (∃ e, (Topic_create now t db).2 = inl e) ↔
  ∃ k t0, topics db !! k = Some t0 ∧
          Topic.curriculum_class t0 = Topic.curriculum_class t ∧
          Topic.title t0 = Topic.title t.
Proof.
  destruct (Topic_create now t db) as [db' r] eqn:Hc.
  apply Topic_create_inv in Hc as [(_ & -> & Hcl)|(_ & -> & Hcl)]; simpl.
  - apply clashes_true in Hcl as (k & t0 & Hk & _ & [= Hclass Htitle]).
    split; [eauto 6|eauto].
  - split; [by intros [? ?]|]. intros (k & t0 & Hk & Hclass & Htitle).
    exfalso. eapply clashes_false in Hcl; [|done..].
    apply Hcl. unfold Topic_key. simpl. congruence.
Qed.

(** The constraint is an invariant of [Topic.objects.create]. *)
Lemma Topic_create_unique now (t : Topic.t) (db db' : DB) r :
  unique_on Topic_key (topics db) →
  Topic_create now t db = (db', r) →
  unique_on Topic_key (topics db').
Proof.
  intros Huniq Hc.
  apply Topic_create_inv in Hc as [(-> & _)|(-> & _ & Hcl)]; [done|].
  simpl. intros i j x y Hi Hj Hkey.
  apply lookup_insert_Some in Hi as [[<- <-]|[Hine Hi]];
    apply lookup_insert_Some in Hj as [[<- <-]|[Hjne Hj]]; [done|..].
  - exfalso. eapply (proj1 (clashes_false _ _ _ _) Hcl j y); done.
  - exfalso. eapply (proj1 (clashes_false _ _ _ _) Hcl i x); done.
  - by eapply Huniq.
Qed.

(** C6. While a topic exists, creating another with its title under the
    same curriculum class fails on the uniqueness constraint and changes
    nothing; creating one with its title under a different class succeeds
    (no topic of that other class having the title) and adds the row. *)
Theorem Topic_unique_together now (db : DB) (k : Z) (existing new : Topic.t) :
  topics db !! k = Some existing →
  Topic.title new = Topic.title existing →
  (Topic.curriculum_class new = Topic.curriculum_class existing →
   Topic_create now new db
   = (db, inl (IntegrityError "topics.curriculum_class_id_title"))) ∧
  (Topic.curriculum_class new ≠ Topic.curriculum_class existing →
   (∀ j t, topics db !! j = Some t →
           Topic.curriculum_class t = Topic.curriculum_class new →
           Topic.title t ≠ Topic.title new) →
   Topic_create now new db
   = (with_topics <[next_id (topics db) := Topic_stamp now new]> db,
      inr (next_id (topics db), Topic_stamp now new)) ∧
   topics db !! next_id (topics db) = None).
Proof.
  intros Hk Htitle. split.
  - intros Hclass.
    destruct (Topic_create now new db) as [db' r] eqn:Hc.
    apply Topic_create_inv in Hc as [(-> & -> & _)|(_ & _ & Hcl)]; [done|].
    exfalso. eapply clashes_false in Hcl; [|done..].
    apply Hcl. unfold Topic_key. simpl. congruence.
  - intros Hclass Hfree. split; [|apply next_id_fresh].
    destruct (Topic_create now new db) as [db' r] eqn:Hc.
    apply Topic_create_inv in Hc as [(_ & _ & Hcl)|(-> & -> & _)]; [|done].
    exfalso. apply clashes_true in Hcl as (j & t & Hj & _ & [= Hc1 Hc2]).
    by eapply Hfree.
Qed.

(** ** Registration: creating the user and its profile *)

Lemma TeacherProfile_create_inv pk (p : TeacherProfile.t) (db db' : DB) r :
  TeacherProfile_create pk p db = (db', r) →
  (db' = db ∧ ∃ e, r = inl e) ∨
  (r = inr tt ∧ teacher_profiles db !! pk = None ∧
   db' = with_teacher_profiles <[pk := p]> db).
Proof.
  unfold TeacherProfile_create, bind, get_db, modify_db, raise. simpl.
  case_bool_decide as Hpk; intros [= <- <-]; [left; eauto|right].
  split; [done|]. split; [|done]. by apply eq_None_not_Some.
Qed.

Lemma StudentProfile_create_inv pk (p : StudentProfile.t) (db db' : DB) r :
  StudentProfile_create pk p db = (db', r) →
  (db' = db ∧ ∃ e, r = inl e) ∨
  (r = inr tt ∧ student_profiles db !! pk = None ∧
   clashes StudentProfile.student_id (student_profiles db) None p = false ∧
   db' = with_student_profiles <[pk := p]> db).
Proof.
  unfold StudentProfile_create, bind, get_db, modify_db, raise. simpl.
  case_bool_decide as Hpk; [intros [= <- <-]; left; eauto|].
  destruct (clashes _ _ _ _) eqn:Hcl; intros [= <- <-]; [left; eauto|right].
  split; [done|]. split; [|done]. by apply eq_None_not_Some.
Qed.

Lemma TeacherProfile_create_ok pk (p : TeacherProfile.t) (db : DB) :
  teacher_profiles db !! pk = None →
  TeacherProfile_create pk p db = (with_teacher_profiles <[pk := p]> db, inr tt).
Proof.
  intros Hpk. unfold TeacherProfile_create, bind, get_db. simpl.
  by rewrite bool_decide_eq_false_2 by (rewrite Hpk; by intros [? ?]).
Qed.

Lemma StudentProfile_create_ok pk (p : StudentProfile.t) (db : DB) :
  student_profiles db !! pk = None →
  (∀ k p0, student_profiles db !! k = Some p0 →
           StudentProfile.student_id p0 ≠ StudentProfile.student_id p) →
  StudentProfile_create pk p db = (with_student_profiles <[pk := p]> db, inr tt).
Proof.
  intros Hpk Hids. unfold StudentProfile_create, bind, get_db. simpl.
  rewrite bool_decide_eq_false_2 by (rewrite Hpk; by intros [? ?]).
  replace (clashes StudentProfile.student_id _ None _) with false; [done|].
  symmetry. apply clashes_false. intros k r Hk _. by eapply Hids.
Qed.

(** What a successful [UserRegistrationSerializer.create] has done, write by
    write: the user row under a new key, then the profile row its role
    calls for. *)
Lemma UserRegistrationSerializer_create_inv now (vd : Attrs.t) (db db' : DB)
    (pk : Z) (user : User.t) :
  UserRegistrationSerializer_create make_password now vd db
  = (db', inr (pk, user)) →
  pk = next_id (users db) ∧
  user = set_password make_password (Some (Attrs.password vd))
           (User_init now (Attrs.email vd) (Attrs.first_name vd)
              (Attrs.last_name vd) (Attrs.role vd) (Attrs.school vd)) ∧
  let db1 := with_users <[pk := user]> db in
  match Attrs.role vd with
  | TEACHER =>
      teacher_profiles db !! pk = None ∧
      db' = with_teacher_profiles <[pk := default_teacher_profile now]> db1
  | STUDENT =>
      student_profiles db !! pk = None ∧
      db' = with_student_profiles
              <[pk := StudentProfile.mk "S1" (auto_student_id pk) "" "" "" []
                        now now]> db1
  | SUPER_ADMIN | SCHOOL_ADMIN => db' = db1
  end.
Proof.
  unfold UserRegistrationSerializer_create. intros Hc.
  unfold bind at 1 in Hc.
  destruct (User_save _ db) as [db1 r1] eqn:Hs1.
  apply User_save_inv in Hs1 as [(-> & e & ->)|(k1 & -> & -> & -> & _)];
    [discriminate|].
  simpl in Hc. unfold bind at 1 in Hc.
  destruct (User_save _ _) as [db2 r2] eqn:Hs2.
  apply User_save_inv in Hs2 as [(-> & e & ->)|(k2 & -> & -> & -> & _)];
    [discriminate|].
  simpl in Hc. unfold bind at 1 in Hc.
  assert (Htwice : ∀ (u1 u2 : User.t) k,
            with_users <[k := u2]> (with_users <[k := u1]> db)
            = with_users <[k := u2]> db).
  { intros u1 u2 k. unfold with_users. simpl. by rewrite insert_insert_eq. }
  rewrite Htwice in Hc.
  destruct (Attrs.role vd) eqn:Hrole; simpl in Hc.
  1,2: by injection Hc as <- <- <-.
  - destruct (TeacherProfile_create _ _ _) as [db3 r3] eqn:Hp.
    apply TeacherProfile_create_inv in Hp as [(-> & e & ->)|(-> & Hnone & ->)];
      [discriminate|].
    by injection Hc as <- <- <-.
  - destruct (StudentProfile_create _ _ _) as [db3 r3] eqn:Hp.
    apply StudentProfile_create_inv in Hp
      as [(-> & e & ->)|(-> & Hnone & _ & ->)]; [discriminate|].
    by injection Hc as <- <- <-.
Qed.

Lemma UserRegistrationSerializer_create_user now (vd : Attrs.t) (db db' : DB)
    (pk : Z) (user : User.t) :
  UserRegistrationSerializer_create make_password now vd db
  = (db', inr (pk, user)) →
  users db !! pk = None ∧
  users db' = <[pk := user]> (users db) ∧
  User.role user = Attrs.role vd ∧
  User.school user = Attrs.school vd.
Proof.
  intros Hc. apply UserRegistrationSerializer_create_inv in Hc
    as (-> & -> & Hdb).
  split; [apply next_id_fresh|]. split; [|done].
  destruct (Attrs.role vd); simpl in Hdb.
  1,2: by rewrite Hdb.
  all: destruct Hdb as [_ ->]; done.
Qed.

(** When [create] raises, no profile row has been written: either nothing
    was, or the user row stays, and then the key of the profile or the
    automatic student id was taken. *)
Lemma UserRegistrationSerializer_create_raises now (vd : Attrs.t) (db db' : DB)
    e :
  UserRegistrationSerializer_create make_password now vd db = (db', inl e) →
  let pk := next_id (users db) in
  teacher_profiles db' = teacher_profiles db ∧
  student_profiles db' = student_profiles db ∧
  (db' = db ∨
   ∃ user,
     db' = with_users <[pk := user]> db ∧ User.role user = Attrs.role vd ∧
     ((Attrs.role vd = TEACHER ∧ is_Some (teacher_profiles db !! pk)) ∨
      (Attrs.role vd = STUDENT ∧
       (is_Some (student_profiles db !! pk) ∨
        ∃ k p, student_profiles db !! k = Some p ∧
               StudentProfile.student_id p = auto_student_id pk)))).
Proof.
  intros Hc pk. unfold UserRegistrationSerializer_create in Hc.
  unfold bind at 1 in Hc.
  destruct (User_save _ db) as [db1 r1] eqn:Hs1.
  apply User_save_inv in Hs1 as [(-> & e1 & ->)|(k1 & -> & -> & Hk1 & Hcl1)].
  { injection Hc as <- _. split; [done|]. split; [done|]. by left. }
  simpl in Hk1. subst k1. fold pk in Hc. cbv beta iota in Hc.
  unfold bind at 1 in Hc.
  rewrite User_save_ok in Hc.
  2: { apply clashes_false. intros k r Hk Hne Heq. simpl in Hk, Hne.
       apply lookup_insert_Some in Hk as [[-> _]|[_ Hk]]; [done|].
       eapply clashes_false in Hcl1; [|done..]. by apply Hcl1. }
  cbn [fst snd] in Hc. cbv beta iota in Hc.
  assert (Htwice : ∀ (u1 u2 : User.t) k,
            with_users <[k := u2]> (with_users <[k := u1]> db)
            = with_users <[k := u2]> db).
  { intros u1 u2 k. unfold with_users. simpl. by rewrite insert_insert_eq. }
  rewrite Htwice in Hc. unfold bind at 1 in Hc.
  change (User.role (set_password _ _ (User_init _ _ _ _ ?r _))) with r in Hc.
  destruct (Attrs.role vd) eqn:Hrole.
  1,2: simpl in Hc; discriminate Hc.
  - unfold TeacherProfile_create, bind, get_db in Hc. simpl in Hc.
    case_bool_decide as Hpk; [|by injection Hc].
    injection Hc as <- _. simpl. split; [done|]. split; [done|].
    right. eexists. split; [done|]. split; [done|]. left. done.
  - unfold StudentProfile_create, bind, get_db in Hc. simpl in Hc.
    case_bool_decide as Hpk.
    + injection Hc as <- _. simpl. split; [done|]. split; [done|].
      right. eexists. split; [done|]. split; [done|]. right. split; [done|].
      by left.
    + destruct (clashes StudentProfile.student_id _ _ _) eqn:Hcl;
        [|unfold modify_db, ret in Hc; simpl in Hc; discriminate Hc].
      injection Hc as <- _. simpl. split; [done|]. split; [done|].
      right. eexists. split; [done|]. split; [done|]. right. split; [done|].
      right. apply clashes_true in Hcl as (k & p & Hk & _ & Hid). eauto.
Qed.


(** When it raises instead, it is on one of the unique columns. *)
Lemma UserRegistrationSerializer_create_succeeds now (vd : Attrs.t) (db : DB) :
  let pk := next_id (users db) in
  exists_where User.email (Attrs.email vd) (users db) = false →
  (Attrs.role vd = TEACHER → teacher_profiles db !! pk = None) →
  (Attrs.role vd = STUDENT →
   student_profiles db !! pk = None ∧
   ∀ k p, student_profiles db !! k = Some p →
          StudentProfile.student_id p ≠ auto_student_id pk) →
  ∃ db' user,
    UserRegistrationSerializer_create make_password now vd db
    = (db', inr (pk, user)).
Proof.
  intros pk Hemail Hteacher Hstudent.
  unfold UserRegistrationSerializer_create.
  unfold bind at 1. rewrite User_save_insert by done. fold pk. cbv beta iota.
  unfold bind at 1. rewrite User_save_ok; cbn [fst snd].
  2: { apply clashes_false. intros k r Hk Hne Heq. simpl in Hk.
       apply lookup_insert_Some in Hk as [[-> _]|[_ Hk]]; [done|].
       apply not_true_iff_false in Hemail. apply Hemail, exists_where_true.
       eauto. }
  unfold bind at 1.
  change (User.role (set_password _ _ (User_init _ _ _ _ ?r _))) with r.
  destruct (Attrs.role vd) eqn:Hrole.
  1,2: unfold ret; eauto.
  - rewrite TeacherProfile_create_ok by (by apply Hteacher). unfold ret. eauto.
  - destruct Hstudent as [Hnone Hids]; [done|].
    rewrite StudentProfile_create_ok by done. unfold ret. eauto.
Qed.

(** ** Bulk creation of students *)

Lemma create_user_inv now email password first_name last_name role school
    (db db' : DB) r :
  create_user normalize_email make_password now email password first_name
    last_name role school db = (db', r) →
  (db' = db ∧ ∃ e, r = inl e) ∨
  (let pk := next_id (users db) in
   let user := set_password make_password password
                 (User_init now (normalize_email email) first_name last_name
                    role school) in
   email ≠ "" ∧ r = inr (pk, user) ∧ db' = with_users <[pk := user]> db).
Proof.
  unfold create_user. case_bool_decide as Hemail.
  - intros [= <- <-]. left. eauto.
  - unfold bind. destruct (User_save _ db) as [db1 r1] eqn:Hs.
    apply User_save_inv in Hs as [(-> & e & ->)|(k & -> & -> & -> & _)].
    + intros [= <- <-]. left. eauto.
    + intros [= <- <-]. right. done.
Qed.

(** One turn of the loop: either nothing is left behind, or the user row
    alone (the profile could not be written), or both rows. *)
Lemma bulk_create_one_inv now school (student_data : Entry) (db db' : DB) r :
  bulk_create_one normalize_email make_password now school student_data db
  = (db', r) →
  let pk := next_id (users db) in
  (db' = db ∧ ∃ e, r = inl e) ∨
  (∃ u, user_from_entry normalize_email make_password school student_data u ∧
        db' = with_users <[pk := u]> db ∧ ∃ e, r = inl e) ∨
  (∃ u p,
     user_from_entry normalize_email make_password school student_data u ∧
     profile_from_entry pk student_data p ∧
     student_profiles db !! pk = None ∧
     db' = with_student_profiles <[pk := p]> (with_users <[pk := u]> db) ∧
     r = inr (mkSummary pk (User.email u) (get_full_name u)
                (StudentProfile.student_id p))).
Proof.
  intros Hone pk. unfold bulk_create_one, getitem in Hone.
  destruct (student_data !! "email") as [email|] eqn:Hemail;
    [|injection Hone as <- <-; left; eauto].
  destruct (student_data !! "first_name") as [first_name|] eqn:Hfirst;
    [|injection Hone as <- <-; left; eauto].
  destruct (student_data !! "last_name") as [last_name|] eqn:Hlast;
    [|injection Hone as <- <-; left; eauto].
  unfold bind at 1, ret at 1 in Hone. unfold bind at 1, ret at 1 in Hone.
  unfold bind at 1, ret at 1 in Hone. unfold bind at 1 in Hone.
  destruct (create_user _ _ _ _ _ _ _ _ _ db) as [db1 r1] eqn:Hu.
  apply create_user_inv in Hu as [(-> & e & ->)|(Hne & -> & ->)];
    [injection Hone as <- <-; left; eauto|].
  fold pk in Hone. cbv beta iota in Hone.
  match type of Hone with context [with_users <[pk := ?u]> db] =>
    assert (Huser : user_from_entry normalize_email make_password school
                      student_data u)
      by (unfold user_from_entry; rewrite Hemail, Hfirst, Hlast; done)
  end.
  destruct (student_data !! "class_level") as [class_level|] eqn:Hlevel;
    [|injection Hone as <- <-; right; left; eauto].
  unfold bind at 1, ret at 1 in Hone. unfold bind at 1 in Hone.
  destruct (StudentProfile_create _ _ _) as [db2 r2] eqn:Hp.
  apply StudentProfile_create_inv in Hp
    as [(-> & e & ->)|(-> & Hnone & _ & ->)];
    [injection Hone as <- <-; right; left; eauto|].
  injection Hone as <- <-. right. right. eexists _, _.
  split; [done|]. split; [|done].
  unfold profile_from_entry. by rewrite Hlevel.
Qed.

(** A turn of the loop succeeds when the entry has the four required keys
    and a non-empty email, and neither the email nor the student id is in
    use. *)
Lemma bulk_create_one_succeeds now school (student_data : Entry) (db : DB)
    email first_name last_name class_level :
  student_data !! "email" = Some email →
  student_data !! "first_name" = Some first_name →
  student_data !! "last_name" = Some last_name →
  student_data !! "class_level" = Some class_level →
  email ≠ "" →
  exists_where User.email (normalize_email email) (users db) = false →
  let pk := next_id (users db) in
  student_profiles db !! pk = None →
  (∀ k p, student_profiles db !! k = Some p →
          StudentProfile.student_id p
          ≠ get_or student_data "student_id" (auto_student_id pk)) →
  ∃ db' summary,
    bulk_create_one normalize_email make_password now school student_data db
    = (db', inr summary) ∧ summary_id summary = pk.
Proof.
  intros Hemail Hfirst Hlast Hlevel Hne Hfree pk Hnone Hids.
  unfold bulk_create_one, getitem. rewrite Hemail, Hfirst, Hlast.
  unfold bind at 1, ret at 1. unfold bind at 1, ret at 1.
  unfold bind at 1, ret at 1. unfold bind at 1.
  unfold create_user. rewrite bool_decide_eq_false_2 by done.
  unfold bind at 1. rewrite User_save_insert by done. fold pk.
  unfold ret at 1. cbv beta iota. rewrite Hlevel.
  unfold bind at 1, ret at 1. unfold bind at 1.
  rewrite StudentProfile_create_ok by done.
  unfold ret. eauto.
Qed.

Lemma bulk_create_one_created now school (student_data : Entry) (db db' : DB)
    summary :
  bulk_create_one normalize_email make_password now school student_data db
  = (db', inr summary) →
  entry_created normalize_email make_password db' school student_data summary.
Proof.
  intros Hone. apply bulk_create_one_inv in Hone
    as [(_ & e & [=])|[(u & _ & _ & e & [=])
                      |(u & p & Hu & Hp & _ & -> & [= ->])]].
  destruct Hu as (Hemail & _ & _ & Hrole & Hschool & Hpw).
  destruct Hp as (_ & Hid).
  exists u, p. simpl. rewrite !lookup_insert_eq.
  repeat split; try done.
  - intros Hnone. rewrite Hpw. unfold get_or. by rewrite Hnone.
  - intros Hnone. rewrite Hid. unfold get_or. by rewrite Hnone.
Qed.

(** A turn of the loop only adds rows, to [users] and [student_profiles]. *)
Lemma bulk_create_one_grows now school (student_data : Entry) (db db' : DB) r :
  bulk_create_one normalize_email make_password now school student_data db
  = (db', r) →
  users db ⊆ users db' ∧ student_profiles db ⊆ student_profiles db' ∧
  schools db' = schools db ∧ teacher_profiles db' = teacher_profiles db ∧
  topics db' = topics db.
Proof.
  intros Hone. apply bulk_create_one_inv in Hone
    as [(-> & _)|[(u & _ & -> & _)|(u & p & _ & _ & Hnone & -> & _)]]; simpl.
  - done.
  - split; [|done]. apply insert_subseteq, next_id_fresh.
  - split; [apply insert_subseteq, next_id_fresh|].
    split; [by apply insert_subseteq|done].
Qed.

Lemma bulk_create_loop_grows now school (students_data : list Entry) :
  ∀ created (db db' : DB) r,
    bulk_create_loop normalize_email make_password now school students_data
      created db = (db', r) →
    users db ⊆ users db' ∧ student_profiles db ⊆ student_profiles db' ∧
    schools db' = schools db ∧ teacher_profiles db' = teacher_profiles db ∧
    topics db' = topics db.
Proof.
  induction students_data as [|student_data rest IH]; intros created db db' r.
  - by intros [= <- <-].
  - simpl. unfold bind at 1.
    destruct (bulk_create_one _ _ _ _ _ db) as [db1 [e|summary]] eqn:Hone;
      apply bulk_create_one_grows in Hone as (Hu & Hp & Hs & Ht & Hc).
    + by intros [= <- <-].
    + intros Hrest. apply IH in Hrest as (Hu' & Hp' & -> & -> & ->).
      split; [by etrans|]. split; [by etrans|done].
Qed.

Lemma entry_created_weaken (db db' : DB) school student_data summary :
  users db ⊆ users db' → student_profiles db ⊆ student_profiles db' →
  entry_created normalize_email make_password db school student_data summary →
  entry_created normalize_email make_password db' school student_data summary.
Proof.
  intros Hu Hp (u & p & Hku & Hkp & Hrest). exists u, p.
  split; [by eapply lookup_weaken|]. split; [by eapply lookup_weaken|done].
Qed.

(** The loop invariant: when the loop returns, [created_students] has grown
    by one summary per entry, in order, and each entry has left its rows. *)
Lemma bulk_create_loop_inv now school (students_data : list Entry) :
  ∀ created (db db' : DB) out,
    bulk_create_loop normalize_email make_password now school students_data
      created db = (db', inr out) →
    ∃ new, out = (created ++ new)%list ∧
      Forall2 (entry_created normalize_email make_password db' school)
        students_data new.
Proof.
  induction students_data as [|student_data rest IH]; intros created db db' out.
  - intros [= <- <-]. exists []. by rewrite app_nil_r.
  - simpl. unfold bind at 1.
    destruct (bulk_create_one _ _ _ _ _ db) as [db1 [e|summary]] eqn:Hone;
      [discriminate|].
    intros Hrest. pose proof Hrest as Hgrow.
    apply bulk_create_loop_grows in Hgrow as (Hu & Hp & _).
    apply IH in Hrest as (new & -> & Hall).
    exists (summary :: new). split; [by rewrite <-app_assoc|].
    constructor; [|done].
    apply bulk_create_one_created in Hone.
    by eapply entry_created_weaken.
Qed.

(** X27. Whatever the outcome of the loop of the bulk endpoint, also when it
    raises half-way: every user row it has added comes from an entry of the
    request, and so does the profile row added under the same key. *)
Lemma bulk_create_loop_rows now school (students_data : list Entry) :
  ∀ created (db db' : DB) r,
    bulk_create_loop normalize_email make_password now school students_data
      created db = (db', r) →
    ∀ k u, users db' !! k = Some u → users db !! k = None →
      ∃ student_data,
        student_data ∈ students_data ∧
        user_from_entry normalize_email make_password school student_data u ∧
        ∀ p, student_profiles db' !! k = Some p →
             student_profiles db !! k = None →
             profile_from_entry k student_data p.
Proof.
  induction students_data as [|student_data rest IH];
    intros created db db' r Hloop k u Hk Hnew.
  - injection Hloop as <- <-. congruence.
  - simpl in Hloop. unfold bind at 1 in Hloop.
    destruct (bulk_create_one _ _ _ _ _ db) as [db1 r1] eqn:Hone.
    apply bulk_create_one_inv in Hone
      as [(-> & e & ->)|[(u0 & Hu0 & -> & e & ->)
                        |(u0 & p0 & Hu0 & Hp0 & Hnone & -> & ->)]].
    + injection Hloop as <- <-. congruence.
    + injection Hloop as <- <-. simpl in *.
      apply lookup_insert_Some in Hk as [[<- <-]|[_ Hk]]; [|congruence].
      exists student_data. split; [left|]. split; [done|].
      intros p Hp Hpnew. congruence.
    + pose proof Hloop as Hgrow.
      apply bulk_create_loop_grows in Hgrow as (Hu & Hp & _).
      destruct (decide (k = next_id (users db))) as [->|Hne].
      * exists student_data. split; [left|].
        assert (u = u0) as ->.
        { eapply (lookup_weaken _ _ _ u0) in Hu;
            [|simpl; apply lookup_insert_eq]. congruence. }
        split; [done|]. intros p Hkp _.
        assert (p = p0) as ->; [|done].
        eapply (lookup_weaken _ _ _ p0) in Hp;
          [|simpl; apply lookup_insert_eq]. congruence.
      * destruct (IH _ _ _ _ Hloop k u Hk) as (sd & Hin & Hsd & Hprof).
        { simpl. by rewrite lookup_insert_ne. }
        exists sd. split; [by right|]. split; [done|].
        intros p Hkp Hpnew. apply Hprof; [done|].
        simpl. by rewrite lookup_insert_ne.
Qed.

Lemma BulkStudentCreateView_post_created now ru data (db db' : DB) m summaries :
  BulkStudentCreateView_post normalize_email make_password now ru data db
  = (db', inr (mkResponse 201 (Students m summaries))) →
  ∃ requester_pk requester students,
    ru = Authenticated requester_pk requester ∧ data = Some students ∧
    Forall2 (entry_created normalize_email make_password db'
               (User.school requester)) students summaries.
Proof.
  unfold BulkStudentCreateView_post.
  destruct (authorize _ ru) as [[rpk requester]|] eqn:Hauth; [|discriminate].
  apply authorize_inv in Hauth as [-> _].
  unfold bind at 1, get_db.
  destruct (BulkStudentCreateSerializer_is_valid db data) as [errs|students] eqn:Hv;
    [discriminate|].
  assert (data = Some students) as ->.
  { unfold BulkStudentCreateSerializer_is_valid in Hv.
    destruct data as [[|sd l]|]; [discriminate| |discriminate].
    destruct (BulkStudentCreateSerializer_validate_students db (sd :: l)) eqn:Hvs;
      [discriminate|].
    unfold BulkStudentCreateSerializer_validate_students in Hvs.
    destruct (validate_students_from _ _ _); congruence. }
  unfold bind at 1.
  destruct (bulk_create_loop _ _ _ _ _ _ db) as [db1 [e|out]] eqn:Hloop;
    [discriminate|].
  intros [= <- _ <-].
  apply bulk_create_loop_inv in Hloop as (new & -> & Hall).
  exists rpk, requester, students. by rewrite app_nil_l.
Qed.

Lemma bulk_create_loop_positive now school (students_data : list Entry) :
  ∀ created (db db' : DB) out,
    bulk_create_loop normalize_email make_password now school students_data
      created db = (db', inr out) →
    ∃ new, out = (created ++ new)%list ∧
           Forall (λ summary, 0 < summary_id summary) new.
Proof.
  induction students_data as [|student_data rest IH]; intros created db db' out.
  - intros [= <- <-]. exists []. by rewrite app_nil_r.
  - simpl. unfold bind at 1.
    destruct (bulk_create_one _ _ _ _ _ db) as [db1 [e|summary]] eqn:Hone;
      [discriminate|].
    intros Hrest. apply IH in Hrest as (new & -> & Hall).
    exists (summary :: new). split; [by rewrite <-app_assoc|].
    constructor; [|done].
    apply bulk_create_one_inv in Hone
      as [(_ & e & [=])|[(u & _ & _ & e & [=])|(u & p & _ & _ & _ & _ & [= ->])]].
    simpl. apply next_id_positive.
Qed.

(** Whatever the outcome of the loop: the key of every user row it has
    added is positive, the row comes from an entry of the request and has
    the default password when the entry gives none, and the profile added
    under the key has the automatic id when the entry gives none. *)
Lemma bulk_create_loop_defaults now school (students_data : list Entry) :
  ∀ created (db db' : DB) r,
    bulk_create_loop normalize_email make_password now school students_data
      created db = (db', r) →
    ∀ k u, users db' !! k = Some u → users db !! k = None →
      0 < k ∧
      ∃ student_data,
        student_data ∈ students_data ∧
        Some (User.email u) = normalize_email <$> student_data !! "email" ∧
        (student_data !! "password" = None →
         User.password u = make_password (Some "BioTutor2025!")) ∧
        ∀ p, student_profiles db' !! k = Some p →
             student_profiles db !! k = None →
             student_data !! "student_id" = None →
             StudentProfile.student_id p = auto_student_id k.
Proof.
  assert (Hentry : ∀ student_data (u : User.t),
            user_from_entry normalize_email make_password school student_data u →
            Some (User.email u) = normalize_email <$> student_data !! "email" ∧
            (student_data !! "password" = None →
             User.password u = make_password (Some "BioTutor2025!"))).
  { intros sd u (Hemail & _ & _ & _ & _ & Hpw). split; [done|].
    intros Hnone. rewrite Hpw. unfold get_or. by rewrite Hnone. }
  induction students_data as [|student_data rest IH];
    intros created db db' r Hloop k u Hk Hnew.
  - injection Hloop as <- <-. congruence.
  - simpl in Hloop. unfold bind at 1 in Hloop.
    destruct (bulk_create_one _ _ _ _ _ db) as [db1 r1] eqn:Hone.
    apply bulk_create_one_inv in Hone
      as [(-> & e & ->)|[(u0 & Hu0 & -> & e & ->)
                        |(u0 & p0 & Hu0 & Hp0 & Hnone & -> & ->)]].
    + injection Hloop as <- <-. congruence.
    + injection Hloop as <- <-. simpl in *.
      apply lookup_insert_Some in Hk as [[<- <-]|[_ Hk]]; [|congruence].
      split; [apply next_id_positive|].
      exists student_data. split; [left|].
      destruct (Hentry _ _ Hu0) as [? ?]. split; [done|]. split; [done|].
      intros p Hp Hpnew. congruence.
    + pose proof Hloop as Hgrow.
      apply bulk_create_loop_grows in Hgrow as (Hu & Hp & _).
      destruct (decide (k = next_id (users db))) as [->|Hne].
      * split; [apply next_id_positive|].
        exists student_data. split; [left|].
        assert (u = u0) as ->.
        { eapply (lookup_weaken _ _ _ u0) in Hu;
            [|simpl; apply lookup_insert_eq]. congruence. }
        destruct (Hentry _ _ Hu0) as [? ?]. split; [done|]. split; [done|].
        intros p Hkp _ Hid.
        assert (p = p0) as ->.
        { eapply (lookup_weaken _ _ _ p0) in Hp;
            [|simpl; apply lookup_insert_eq]. congruence. }
        destruct Hp0 as [_ ->]. unfold get_or. by rewrite Hid.
      * destruct (IH _ _ _ _ Hloop k u Hk) as (Hpos & sd & Hin & He & Hpw & Hprof).
        { simpl. by rewrite lookup_insert_ne. }
        split; [done|].
        exists sd. split; [by right|]. split; [done|]. split; [done|].
        intros p Hkp Hpnew. apply Hprof; [done|].
        simpl. by rewrite lookup_insert_ne.
Qed.


(** ** Bulk creation: validation *)

Lemma missing_field_Some (student : Entry) field :
  field ∈ required_fields → student !! field = None →
  is_Some (missing_field student).
Proof.
  intros Hin Hnone. unfold missing_field.
  assert (Hf : field ∈ filter (λ field, student !! field = None) required_fields)
    by by apply list_elem_of_filter.
  destruct (filter _ _) as [|f l]; [by apply elem_of_nil in Hf|by eexists].
Qed.

Lemma validate_student_rejects (db : DB) idx (student : Entry) :
  entry_rejected db student → is_Some (validate_student db idx student).
Proof.
  unfold validate_student.
  intros [(field & Hin & Hnone)|(email & k & u & Hemail & Hne & Hk & Hu)].
  - destruct (missing_field_Some student field Hin Hnone) as [f ->]. by eexists.
  - destruct (missing_field student); [by eexists|].
    rewrite Hemail. simpl.
    rewrite (bool_decide_eq_false_2 (email = "")) by done. simpl.
    rewrite bool_decide_eq_true_2; [by eexists|].
    exists k, u. split; [done|]. by rewrite Hu.
Qed.

Lemma validate_students_from_rejects (db : DB) (value : list Entry) :
  ∀ idx, Exists (entry_rejected db) value →
         is_Some (validate_students_from db idx value).
Proof.
  induction value as [|student rest IH]; intros idx Hex.
  - by apply Exists_nil in Hex.
  - simpl. destruct (validate_student db idx student) eqn:Hv; [by eexists|].
    apply Exists_cons in Hex as [Hbad|Hex]; [|by apply IH].
    apply (validate_student_rejects db idx) in Hbad as [err Herr]. congruence.
Qed.


(** X26. Every answer of the bulk endpoint other than 201 leaves the
    database as it was; only a raised exception can leave rows behind. *)
Lemma BulkStudentCreateView_post_refused now ru data (db db' : DB) response :
  BulkStudentCreateView_post normalize_email make_password now ru data db
  = (db', inr response) →
  status response ≠ 201 → db' = db.
Proof.
  unfold BulkStudentCreateView_post.
  destruct (authorize _ ru) as [[rpk requester]|]; [|by intros [= <- <-]].
  unfold bind at 1, get_db.
  destruct (BulkStudentCreateSerializer_is_valid db data) as [errs|students];
    [by intros [= <- <-]|].
  unfold bind at 1.
  destruct (bulk_create_loop _ _ _ _ _ _ db) as [db1 [e|out]]; [discriminate|].
  intros [= <- <-]. simpl. done.
Qed.

(** ** The role and school rule across the creation endpoints *)

Lemma check_nil ok field code : check ok field code = [] ↔ ok = true.
Proof. unfold check. by destruct ok. Qed.

(** What [is_valid] guarantees: the data is returned unchanged, [validate]
    accepted it, and the email is not in use. *)
Lemma UserRegistrationSerializer_is_valid_inr (db : DB) (data vd : Attrs.t) :
  UserRegistrationSerializer_is_valid validate_email validate_password db data
  = inr vd →
  vd = data ∧
  UserRegistrationSerializer_validate data = inr data ∧
  exists_where User.email (Attrs.email data) (users db) = false.
Proof.
  unfold UserRegistrationSerializer_is_valid.
  destruct (UserRegistrationSerializer_field_errors _ _ _ _) eqn:Hfield;
    [|discriminate].
  intros Hv. pose proof Hv as Hv'.
  apply UserRegistrationSerializer_validate_inr in Hv' as (-> & _).
  split; [done|]. split; [done|].
  unfold UserRegistrationSerializer_field_errors in Hfield.
  apply app_nil in Hfield as [_ Hfield].
  apply app_nil in Hfield as [_ Hfield].
  apply app_nil in Hfield as [Hunique _].
  apply check_nil in Hunique. by apply negb_true_iff in Hunique.
Qed.

(** The serializer as a whole refuses what [validate] refuses, whatever the
    field-level checks say. *)
Lemma UserRegistrationSerializer_is_valid_rejects (db : DB) (data : Attrs.t) :
  (Attrs.role data = SUPER_ADMIN ∧ is_Some (Attrs.school data)) ∨
  (Attrs.role data ≠ SUPER_ADMIN ∧ Attrs.school data = None) →
  ∃ errs,
    UserRegistrationSerializer_is_valid validate_email validate_password db data
    = inl errs.
Proof.
  intros Hbad.
  destruct (UserRegistrationSerializer_is_valid _ _ db data) as [errs|vd] eqn:Hv;
    [eauto|].
  apply UserRegistrationSerializer_is_valid_inr in Hv as (_ & Hv & _).
  apply UserRegistrationSerializer_validate_inr in Hv as (_ & _ & [Hs Hr]).
  destruct Hbad as [[Hrole [k Hk]]|[Hrole Hschool]].
  - specialize (Hs Hrole). congruence.
  - by specialize (Hr Hschool).
Qed.

Lemma CreateAPIView_create_created has_permission kwargs now ru
    (data : Attrs.t) (db db' : DB) pk (user : User.t) :
  CreateAPIView_create make_password validate_email validate_password
    has_permission kwargs now ru data db
  = (db', inr (mkResponse 201 (UserBody pk user))) →
  ∃ requester_pk requester,
    ru = Authenticated requester_pk requester ∧ has_permission ru = true ∧
    UserRegistrationSerializer_is_valid validate_email validate_password db data
    = inr data ∧
    UserRegistrationSerializer_create make_password now
      (apply_overrides (kwargs requester) data) db = (db', inr (pk, user)).
Proof.
  unfold CreateAPIView_create.
  destruct (authorize _ ru) as [[rpk requester]|] eqn:Hauth; [|discriminate].
  apply authorize_inv in Hauth as [-> Hperm].
  unfold bind at 1, get_db.
  destruct (UserRegistrationSerializer_is_valid _ _ db data) as [errs|vd] eqn:Hv;
    [discriminate|].
  pose proof Hv as Hv'.
  apply UserRegistrationSerializer_is_valid_inr in Hv' as (-> & _).
  unfold UserRegistrationSerializer_save, bind.
  destruct (UserRegistrationSerializer_create _ _ _ db) as [db1 [e|[pk1 u1]]]
    eqn:Hc; [discriminate|].
  intros [= <- <- <-]. by exists rpk, requester.
Qed.

(** The serializer on its own (no keyword argument to [save]) keeps the
    rule: what [validate] accepted is what [create] stores. *)
Lemma UserRegistrationSerializer_keeps_rule now (data vd : Attrs.t)
    (db db' : DB) pk (user : User.t) :
  UserRegistrationSerializer_is_valid validate_email validate_password db data
  = inr vd →
  UserRegistrationSerializer_create make_password now vd db
  = (db', inr (pk, user)) →
  role_school_ok user.
Proof.
  intros Hv Hc.
  apply UserRegistrationSerializer_is_valid_inr in Hv as (-> & Hv & _).
  apply UserRegistrationSerializer_validate_inr in Hv as (_ & _ & Hrule).
  apply UserRegistrationSerializer_create_user in Hc
    as (_ & _ & Hrole & Hschool).
  unfold role_school_ok. rewrite Hrole, Hschool. split.
  - intros Hne. destruct (Attrs.school data) eqn:Hs; [eauto|].
    destruct Hne. by apply Hrule.
  - apply Hrule.
Qed.

(** X28. [TeacherCreateView] and [StudentCreateView] store the role of the
    view and the requester's school: the new user obeys the role and school
    rule when the requesting School Admin does. *)
Lemma school_admin_views_keep_rule now ru (data : Attrs.t) (db db' : DB)
    pk (user : User.t) role :
  role ∈ [TEACHER; STUDENT] →
  CreateAPIView_create make_password validate_email validate_password
    IsSchoolAdmin_has_permission
    (λ requester, mkOverrides (Some role) (Some (User.school requester)))
    now ru data db
  = (db', inr (mkResponse 201 (UserBody pk user))) →
  ∃ requester_pk requester,
    ru = Authenticated requester_pk requester ∧
    User.role user = role ∧ User.school user = User.school requester ∧
    (role_school_ok requester → role_school_ok user).
Proof.
  intros Hin Hcreate.
  apply CreateAPIView_create_created in Hcreate
    as (rpk & requester & -> & Hperm & _ & Hc).
  apply UserRegistrationSerializer_create_user in Hc
    as (_ & _ & Hrole & Hschool).
  simpl in Hrole, Hschool. exists rpk, requester.
  split; [done|]. split; [done|]. split; [done|].
  apply has_role_true in Hperm as (? & ? & [= <- <-] & Hadmin).
  unfold role_school_ok. rewrite Hrole, Hschool, Hadmin.
  intros [Hsome _]. split; [intros _; by apply Hsome|].
  intros ->. rewrite !elem_of_cons, elem_of_nil in Hin. by destruct Hin as [?|[?|[]]].
Qed.

(** X29. The bulk endpoint likewise: every student of a 201 answer is
    stored with the requester's school, and obeys the role and school rule
    when the requester has a school. *)
Lemma bulk_view_keeps_rule now ru data (db db' : DB) m summaries :
  BulkStudentCreateView_post normalize_email make_password now ru data db
  = (db', inr (mkResponse 201 (Students m summaries))) →
  ∃ requester_pk requester,
    ru = Authenticated requester_pk requester ∧
    ∀ summary, summary ∈ summaries →
      ∃ u, users db' !! summary_id summary = Some u ∧
           (is_Some (User.school requester) → role_school_ok u).
Proof.
  intros Hpost.
  apply BulkStudentCreateView_post_created in Hpost
    as (rpk & requester & students & -> & -> & Hall).
  exists rpk, requester. split; [done|]. intros summary Hin.
  apply list_elem_of_lookup in Hin as [i Hi].
  destruct (Forall2_lookup_r _ _ _ _ _ Hall Hi)
    as (sd & _ & u & p & Hu & _ & _ & Hrole & Hschool & _).
  exists u. split; [done|]. intros Hsome. unfold role_school_ok.
  rewrite Hrole, Hschool. split; [done|discriminate].
Qed.

(** C1 fails on [SchoolAdminCreateView]: [validate] judges the role sent in
    the request, and [perform_create] replaces that role afterwards.  Every
    request that the view accepts with role SUPER_ADMIN (hence without a
    school) creates a School Admin without a school. *)
Theorem SchoolAdminCreateView_breaks_rule now requester_pk requester
    (data : Attrs.t) (db : DB) :
  User.role requester = SUPER_ADMIN →
  Attrs.role data = SUPER_ADMIN →
  UserRegistrationSerializer_is_valid validate_email validate_password db data
  = inr data →
  ∃ db' pk user,
    SchoolAdminCreateView make_password validate_email validate_password now
      (Authenticated requester_pk requester) data db
    = (db', inr (mkResponse 201 (UserBody pk user))) ∧
    users db' !! pk = Some user ∧
    User.role user = SCHOOL_ADMIN ∧ User.school user = None ∧
    ¬ role_school_ok user.
Proof.
  intros Hadmin Hrole Hvalid.
  pose proof Hvalid as Hv.
  apply UserRegistrationSerializer_is_valid_inr in Hv as (_ & Hv & Hfree).
  apply UserRegistrationSerializer_validate_inr in Hv as (_ & _ & Hrule).
  assert (Hschool : Attrs.school data = None) by by apply Hrule.
  destruct (UserRegistrationSerializer_create_succeeds now
              (apply_overrides (mkOverrides (Some SCHOOL_ADMIN) None) data) db)
    as (db' & user & Hc); [done|discriminate|discriminate|].
  exists db', (next_id (users db)), user.
  unfold SchoolAdminCreateView, CreateAPIView_create.
  rewrite (authorize_Some _ _ requester_pk requester)
    by (done || by apply has_role_true; eauto).
  unfold bind at 1, get_db. rewrite Hvalid.
  unfold UserRegistrationSerializer_save, bind. rewrite Hc.
  split; [done|].
  apply UserRegistrationSerializer_create_user in Hc
    as (_ & Husers & Hr & Hs).
  simpl in Hr, Hs. rewrite Husers, lookup_insert_eq, Hr, Hs, Hschool.
  repeat split; try done.
  intros [Hsome _]. rewrite Hr, Hs, Hschool in Hsome.
  by destruct Hsome as [? ?].
Qed.

(** ** The schema's constraints are kept by every operation *)

Lemma unique_on_insert {A B} (col : A → B) (t : gmap Z A) k row :
  unique_on col t →
  (∀ j y, t !! j = Some y → j ≠ k → col y ≠ col row) →
  unique_on col (<[k := row]> t).
Proof.
  intros Huniq Hfree i j x y Hi Hj Hcol.
  apply lookup_insert_Some in Hi as [[<- <-]|[Hik Hi]];
    apply lookup_insert_Some in Hj as [[<- <-]|[Hjk Hj]]; [done|..].
  - exfalso. by eapply (Hfree j y).
  - exfalso. by eapply (Hfree i x).
  - by eapply Huniq.
Qed.

(** The check made before a write is what the inserted row needs. *)
Lemma clashes_false_written {A B} `{EqDecision B} (col : A → B) (t : gmap Z A)
    (self : option Z) k row :
  clashes col t self row = false →
  match self with Some pk => k = pk | None => True end →
  ∀ j y, t !! j = Some y → j ≠ k → col y ≠ col row.
Proof.
  intros Hcl Hself j y Hj Hjk. eapply clashes_false; [done..|].
  destruct self as [pk|]; [|done]. congruence.
Qed.

Lemma preserves_ret {A} (a : A) : preserves slugify (ret a).
Proof. by intros db db' r Hdb [= <- <-]. Qed.

Lemma preserves_raise {A} e : preserves slugify (raise e : M A).
Proof. by intros db db' r Hdb [= <- <-]. Qed.

Lemma preserves_get_db : preserves slugify get_db.
Proof. by intros db db' r Hdb [= <- <-]. Qed.

Lemma preserves_bind {A B} (c : M A) (k : A → M B) :
  preserves slugify c → (∀ a, preserves slugify (k a)) →
  preserves slugify (bind c k).
Proof.
  intros Hc Hk db db' r Hdb. unfold bind.
  destruct (c db) as [db1 [e|a]] eqn:Hrun.
  - intros [= <- <-]. by eapply Hc.
  - intros Hrest. eapply Hk; [|done]. by eapply Hc.
Qed.

Lemma preserves_User_save inst : preserves slugify (User_save inst).
Proof.
  intros db db' r [] Hsave.
  apply User_save_inv in Hsave as [(-> & _)|(k & _ & -> & Hk & Hcl)]; [done|].
  constructor; simpl; try done.
  apply unique_on_insert; [done|].
  eapply clashes_false_written; [done|]. destruct inst.1; [done|exact I].
Qed.

Lemma preserves_TeacherProfile_create pk p :
  preserves slugify (TeacherProfile_create pk p).
Proof.
  intros db db' r [] Hcreate.
  apply TeacherProfile_create_inv in Hcreate as [(-> & _)|(_ & _ & ->)]; done.
Qed.

Lemma preserves_StudentProfile_create pk p :
  preserves slugify (StudentProfile_create pk p).
Proof.
  intros db db' r [] Hcreate.
  apply StudentProfile_create_inv in Hcreate
    as [(-> & _)|(_ & _ & Hcl & ->)]; [done|].
  constructor; simpl; try done.
  apply unique_on_insert; [done|]. by eapply clashes_false_written.
Qed.

Lemma preserves_Topic_create now t : preserves slugify (Topic_create now t).
Proof.
  intros db db' r Hdb Hcreate. pose proof Hcreate as Hinv.
  apply Topic_create_unique in Hcreate; [|by destruct Hdb].
  apply Topic_create_inv in Hinv as [(-> & _)|(-> & _)]; [done|].
  destruct Hdb. by constructor.
Qed.

(** The row that [School.save] writes has its slug settled. *)
Lemma School_save_settles now (inst : instance School.t) :
  slug_settled slugify
    (School_pre_save now (inst.1, School_fill_slug slugify inst.2)).
Proof.
  unfold slug_settled. rewrite School_pre_save_slug, School_pre_save_name.
  simpl. rewrite School_fill_slug_name.
  destruct (decide (School.slug inst.2 = "")) as [He|He].
  - by rewrite School_fill_slug_empty.
  - by rewrite School_fill_slug_nonempty.
Qed.

Lemma preserves_School_save now inst :
  preserves slugify (School_save slugify now inst).
Proof.
  intros db db' r [] Hsave. unfold School_save in Hsave.
  apply School_super_save_inv in Hsave
    as [(-> & _)|(k & _ & -> & Hk & Hname & Hslug & Hreg)]; [done|].
  simpl in Hk, Hname, Hslug, Hreg.
  assert (Hself : match inst.1 with Some pk => k = pk | None => True end)
    by by destruct inst.1.
  constructor; simpl; try done.
  - apply unique_on_insert; [done|]. by eapply clashes_false_written.
  - apply unique_on_insert; [done|]. by eapply clashes_false_written.
  - apply unique_on_insert; [done|]. by eapply clashes_false_written.
  - apply map_Forall_insert_2; [|done]. apply School_save_settles.
Qed.

Lemma preserves_create_user now email password first_name last_name role school :
  preserves slugify
    (create_user normalize_email make_password now email password first_name
       last_name role school).
Proof.
  unfold create_user. case_bool_decide; [apply preserves_raise|].
  apply preserves_bind; [apply preserves_User_save|].
  intros [k u]. apply preserves_ret.
Qed.

Lemma preserves_UserRegistrationSerializer_create now vd :
  preserves slugify (UserRegistrationSerializer_create make_password now vd).
Proof.
  unfold UserRegistrationSerializer_create.
  apply preserves_bind; [apply preserves_User_save|]. intros [pk user].
  apply preserves_bind; [apply preserves_User_save|]. intros _.
  apply preserves_bind; [|intros _; apply preserves_ret].
  destruct (User.role _);
    auto using preserves_ret, preserves_TeacherProfile_create,
      preserves_StudentProfile_create.
Qed.

Lemma preserves_CreateAPIView_create has_permission kwargs now ru data :
  preserves slugify
    (CreateAPIView_create make_password validate_email validate_password
       has_permission kwargs now ru data).
Proof.
  unfold CreateAPIView_create.
  destruct (authorize _ _) as [[rpk requester]|]; [|apply preserves_ret].
  apply preserves_bind; [apply preserves_get_db|]. intros db0.
  destruct (UserRegistrationSerializer_is_valid _ _ _ _);
    [apply preserves_ret|].
  apply preserves_bind;
    [apply preserves_UserRegistrationSerializer_create|].
  intros [pk user]. apply preserves_ret.
Qed.

Lemma preserves_bulk_create_one now school student_data :
  preserves slugify
    (bulk_create_one normalize_email make_password now school student_data).
Proof.
  unfold bulk_create_one, getitem.
  repeat (apply preserves_bind;
          [first [apply preserves_create_user
                 |apply preserves_StudentProfile_create
                 |destruct (student_data !! _);
                  [apply preserves_ret|apply preserves_raise]]|intros ?]);
    try match goal with p : _ * _ |- _ => destruct p end.
  all: repeat (apply preserves_bind;
          [first [apply preserves_create_user
                 |apply preserves_StudentProfile_create
                 |destruct (student_data !! _);
                  [apply preserves_ret|apply preserves_raise]]|intros ?]).
  all: apply preserves_ret.
Qed.

Lemma preserves_bulk_create_loop now school students_data :
  ∀ created,
    preserves slugify
      (bulk_create_loop normalize_email make_password now school
         students_data created).
Proof.
  induction students_data as [|student_data rest IH]; intros created; simpl.
  - apply preserves_ret.
  - apply preserves_bind; [apply preserves_bulk_create_one|]. intros ?. apply IH.
Qed.

Lemma preserves_deactivate_user pk user :
  preserves slugify (deactivate_user pk user).
Proof.
  unfold deactivate_user.
  apply preserves_bind; [apply preserves_User_save|]. intros _.
  apply preserves_ret.
Qed.

(** X25. The creation endpoints, the bulk endpoint, the password reset and
    the three [DELETE] views keep the constraints of the schema, also when
    they raise. *)
Lemma endpoints_keep_constraints now ru pk :
  (∀ data, preserves slugify
     (SchoolAdminCreateView make_password validate_email validate_password
        now ru data)) ∧
  (∀ data, preserves slugify
     (TeacherCreateView make_password validate_email validate_password
        now ru data)) ∧
  (∀ data, preserves slugify
     (StudentCreateView make_password validate_email validate_password
        now ru data)) ∧
  (∀ data, preserves slugify
     (BulkStudentCreateView_post normalize_email make_password now ru data)) ∧
  (∀ data, preserves slugify (password_reset_request validate_email data)) ∧
  preserves slugify (UserDetailView_destroy ru pk) ∧
  preserves slugify (SchoolUserDetailView_destroy ru pk) ∧
  preserves slugify (SchoolDetailView_destroy slugify now ru pk).
Proof.
  repeat apply conj; try intros data;
    try apply preserves_CreateAPIView_create.
  - unfold BulkStudentCreateView_post.
    destruct (authorize _ _) as [[rpk requester]|]; [|apply preserves_ret].
    apply preserves_bind; [apply preserves_get_db|]. intros db0.
    destruct (BulkStudentCreateSerializer_is_valid _ _);
      [apply preserves_ret|].
    apply preserves_bind; [apply preserves_bulk_create_loop|].
    intros ?. apply preserves_ret.
  - unfold password_reset_request.
    destruct (PasswordResetRequestSerializer_is_valid _ _);
      [apply preserves_ret|].
    apply preserves_bind; [apply preserves_get_db|]. intros db0.
    destruct (User_objects_get _ _) as [[]|];
      auto using preserves_ret, preserves_raise.
  - unfold UserDetailView_destroy.
    destruct (authorize _ _); [|apply preserves_ret].
    apply preserves_bind; [apply preserves_get_db|]. intros db0.
    destruct (users db0 !! pk);
      auto using preserves_ret, preserves_deactivate_user.
  - unfold SchoolUserDetailView_destroy.
    destruct (authorize _ _) as [[rpk requester]|]; [|apply preserves_ret].
    apply preserves_bind; [apply preserves_get_db|]. intros db0.
    destruct (_ !! pk); [|apply preserves_ret].
    destruct (IsSameSchool_has_object_permission _ _) as [|[]];
      auto using preserves_ret, preserves_raise, preserves_deactivate_user.
  - unfold SchoolDetailView_destroy.
    destruct (authorize _ _); [|apply preserves_ret].
    apply preserves_bind; [apply preserves_get_db|]. intros db0.
    destruct (schools db0 !! pk); [|apply preserves_ret].
    apply preserves_bind; [apply preserves_School_save|]. intros _.
    apply preserves_ret.
Qed.

End Properties.


(** * Further properties *)

Section EndpointProperties.

Variable slugify : string → string.
Variable normalize_email : string → string.
Variable make_password : option string → string.
Variable check_password : string → string → bool.
Variable validate_email : string → bool.
Variable validate_password : string → bool.
Variable casefold : string → string.
Variable python_int : string → option Z.

(** ** Permission classes *)

(** X1. The four role permissions are exclusive: an authenticated user
    passes exactly one of them, the anonymous user none;
    [IsSuperAdminOrSchoolAdmin] passes exactly those who pass [IsSuperAdmin]
    or [IsSchoolAdmin]. *)
Theorem role_permissions_partition (ru : RequestUser) :
  length (filter (λ has_permission : RequestUser → bool, has_permission ru = true)
            [IsSuperAdmin_has_permission; IsSchoolAdmin_has_permission;
             IsTeacher_has_permission; IsStudent_has_permission])
  = (match ru with AnonymousUser => 0 | Authenticated _ _ => 1 end)%nat ∧
  IsSuperAdminOrSchoolAdmin_has_permission ru
  = IsSuperAdmin_has_permission ru || IsSchoolAdmin_has_permission ru.
Proof.
  destruct ru as [|pk [? ? ? role ? ? ? ? ? ? ?]]; [done|].
  by destruct role; vm_compute.
Qed.

(** ** Changing the password *)

Lemma char_field_password field value :
  char_field field None false value
  = if bool_decide (strip value = "") then inl [(field, "blank")]
    else if has_null (strip value)
    then inl [(field, "null_characters_not_allowed")]
    else inr (strip value).
Proof. unfold char_field. by destruct (has_null (strip value)). Qed.

(** What [ChangePasswordSerializer] accepts. *)
Lemma ChangePasswordSerializer_is_valid_inr (user : User.t)
    (data : ChangePasswordData.t) o n c :
  ChangePasswordSerializer_is_valid check_password validate_password user data
  = inr (o, n, c) →
  ∃ o0 n0 c0,
    data = ChangePasswordData.mk (Some o0) (Some n0) (Some c0) ∧
    o = strip o0 ∧ n = strip n0 ∧ c = strip c0 ∧
    check_password o (User.password user) = true ∧
    n ≠ "" ∧ validate_password n = true ∧ n = c ∧
    has_null o = false ∧ has_null n = false.
Proof.
  destruct data as [[o0|] [n0|] [c0|]];
    unfold ChangePasswordSerializer_is_valid, run_field; simpl;
    rewrite ?char_field_password;
    unfold ChangePasswordSerializer_validate_old_password;
    try (by repeat case_match).
  destruct (bool_decide (strip o0 = "")) eqn:Ho; [by repeat case_match|].
  destruct (has_null (strip o0)) eqn:Honul; [by repeat case_match|].
  destruct (check_password (strip o0) (User.password user)) eqn:Hcheck;
    [|by repeat case_match].
  destruct (bool_decide (strip n0 = "")) eqn:Hn; [by repeat case_match|].
  destruct (has_null (strip n0)) eqn:Hnnul; [by repeat case_match|].
  destruct (validate_password (strip n0)) eqn:Hvalid; [|by repeat case_match].
  destruct (bool_decide (strip c0 = "")) eqn:Hc; [by repeat case_match|].
  destruct (has_null (strip c0)) eqn:Hcnul; [by repeat case_match|].
  unfold ChangePasswordSerializer_validate.
  destruct (decide (strip n0 = strip c0)) as [Hsame|Hdiff];
    [|by rewrite bool_decide_eq_true_2].
  rewrite bool_decide_eq_false_2 by (intros Hne; by apply Hne).
  intros Heq. simplify_eq. exists o0, n0, c0.
  apply bool_decide_eq_false in Hn. done.
Qed.

(** X2. Without the current password nothing changes: when the old password
    is missing from the request, or is not the requester's password, the
    answer is 400 and the database is what it was. *)
Theorem ChangePasswordView_update_needs_old_password pk (user : User.t)
    (data : ChangePasswordData.t) (db : DB) :
  (∀ o, ChangePasswordData.old_password data = Some o →
        check_password (strip o) (User.password user) = false) →
  ∃ errs,
    ChangePasswordView_update make_password check_password validate_password
      (Authenticated pk user) data db
    = (db, inr (mkResponse 400 (Errors errs))).
Proof.
  intros Hold. unfold ChangePasswordView_update.
  destruct (ChangePasswordSerializer_is_valid _ _ user data)
    as [errs|[[o n] c]] eqn:Hv; [by exists errs|].
  apply ChangePasswordSerializer_is_valid_inr in Hv
    as (o0 & n0 & c0 & -> & -> & _ & _ & Hcheck & _).
  rewrite (Hold o0) in Hcheck; done.
Qed.

(** X3. A password change that is accepted rewrites the requester's row
    with the hash of the new password (stripped of surrounding whitespace,
    as the field does) and changes nothing else.  It is accepted when the
    three passwords, stripped, are not empty and without the null
    character, the old one is the requester's, the new one passes the
    password validation and equals the confirmation. *)
Theorem ChangePasswordView_update_sets_password pk (user : User.t)
    old new confirm (db : DB) :
  users db !! pk = Some user →
  unique_on User.email (users db) →
  strip old ≠ "" → has_null (strip old) = false →
  check_password (strip old) (User.password user) = true →
  strip new ≠ "" → has_null (strip new) = false →
  validate_password (strip new) = true →
  strip new = strip confirm →
  ChangePasswordView_update make_password check_password validate_password
    (Authenticated pk user)
    (ChangePasswordData.mk (Some old) (Some new) (Some confirm)) db
  = (with_users
       <[pk := User.set_password_hash (make_password (Some (strip new))) user]>
       db,
     inr (mkResponse 200 (Message "Password changed successfully"))).
Proof.
  intros Hpk Huniq Hold Holdnul Hcheck Hnew Hnewnul Hvalid Hsame.
  unfold ChangePasswordView_update, ChangePasswordSerializer_is_valid, run_field.
  simpl. rewrite !char_field_password.
  rewrite !bool_decide_eq_false_2 by congruence.
  rewrite <-Hsame, Holdnul, Hnewnul.
  unfold ChangePasswordSerializer_validate_old_password.
  rewrite Hcheck, Hvalid. simpl.
  unfold ChangePasswordSerializer_validate.
  rewrite bool_decide_eq_false_2 by (intros Hne; by apply Hne).
  unfold bind. by rewrite (User_save_update db pk user).
Qed.

(** ** Updating, deactivating and reactivating a user *)

Lemma update_user_inv partial pk (user : User.t) data (db db' : DB) r :
  update_user partial pk user data db = (db', r) →
  db' = db ∨
  ∃ validated_data,
    UserUpdateSerializer_is_valid partial data = inr validated_data ∧
    db' = with_users <[pk := UserUpdateSerializer_update user validated_data]> db.
Proof.
  unfold update_user.
  destruct (UserUpdateSerializer_is_valid partial data) as [errs|v];
    [intros [= <- <-]; by left|].
  unfold bind. destruct (User_save _ db) as [db1 r1] eqn:Hs.
  apply User_save_inv in Hs as [(-> & e & ->)|(k & -> & -> & -> & _)].
  - intros [= <- <-]. by left.
  - intros [= <- <-]. right. eauto.
Qed.

(** Both update endpoints either leave the database alone or rewrite the
    row of the addressed user with the serializer's three fields. *)
Lemma user_update_views_inv partial ru pk data (db db' : DB) r :
  UserDetailView_update partial ru pk data db = (db', r) ∨
  SchoolUserDetailView_update partial ru pk data db = (db', r) →
  db' = db ∨
  ∃ user validated_data,
    users db !! pk = Some user ∧
    db' = with_users <[pk := UserUpdateSerializer_update user validated_data]> db.
Proof.
  intros [Hup|Hup].
  - unfold UserDetailView_update in Hup.
    destruct (authorize _ ru); [|injection Hup as <- <-; by left].
    unfold bind at 1, get_db in Hup.
    destruct (users db !! pk) as [user|] eqn:Hpk;
      [|injection Hup as <- <-; by left].
    apply update_user_inv in Hup as [->|(v & _ & ->)]; [by left|right; eauto].
  - unfold SchoolUserDetailView_update in Hup.
    destruct (authorize _ ru) as [[rpk requester]|];
      [|injection Hup as <- <-; by left].
    unfold bind at 1, get_db in Hup.
    destruct (SchoolUserDetailView_get_queryset requester db !! pk)
      as [user|] eqn:Hpk; [|injection Hup as <- <-; by left].
    apply map_lookup_filter_Some in Hpk as [Hpk _].
    destruct (IsSameSchool_has_object_permission _ _) as [e|[]];
      [injection Hup as <- <-; by left| |injection Hup as <- <-; by left].
    apply update_user_inv in Hup as [->|(v & _ & ->)]; [by left|right; eauto].
Qed.

(** X4. A [PUT] or [PATCH] on a user, through either detail endpoint and
    whatever its outcome, adds and removes no row, touches no other table
    and no other user, and leaves the email, role, school, password hash,
    staff flags and dates of the addressed user as they were: only the two
    names and [is_active] can change. *)
Theorem user_update_keeps_identity partial ru pk data (db db' : DB) r :
  UserDetailView_update partial ru pk data db = (db', r) ∨
  SchoolUserDetailView_update partial ru pk data db = (db', r) →
  schools db' = schools db ∧ teacher_profiles db' = teacher_profiles db ∧
  student_profiles db' = student_profiles db ∧ topics db' = topics db ∧
  dom (users db') = dom (users db) ∧
  ∀ k u, users db !! k = Some u →
    ∃ u', users db' !! k = Some u' ∧ (k ≠ pk → u' = u) ∧
      User.email u' = User.email u ∧ User.role u' = User.role u ∧
      User.school u' = User.school u ∧ User.password u' = User.password u ∧
      User.is_staff u' = User.is_staff u ∧
      User.is_superuser u' = User.is_superuser u ∧
      User.date_joined u' = User.date_joined u ∧
      User.last_login u' = User.last_login u.
Proof.
  intros Hup. apply user_update_views_inv in Hup
    as [->|(user & v & Hpk & ->)].
  - repeat split; try done. intros k u Hk. exists u. by repeat split.
  - simpl. repeat split; try done.
    + by apply dom_insert_lookup_L.
    + intros k u Hk. destruct (decide (k = pk)) as [->|Hne].
      * rewrite lookup_insert_eq. eexists. split; [done|].
        assert (u = user) as -> by congruence. by repeat split.
      * rewrite lookup_insert_ne by done. exists u. by repeat split.
Qed.

Lemma UserUpdateSerializer_reactivate (user : User.t) :
  User.is_active user = true →
  UserUpdateSerializer_update (User.set_is_active false user)
    (UserUpdateData.mk None None (Some true)) = user.
Proof. intros Hactive. destruct user. by simplify_eq/=. Qed.

(** X5. Deactivation can be undone: after the Super Admin's [DELETE] of an
    active user, a [PATCH] with [is_active] true on the same user gives back
    the database as it was before the [DELETE]. *)
Theorem deactivate_then_reactivate ru pk (user : User.t) (db : DB) :
  IsSuperAdmin_has_permission ru = true →
  unique_on User.email (users db) →
  users db !! pk = Some user →
  User.is_active user = true →
  ∃ db1,
    UserDetailView_destroy ru pk db
    = (db1, inr (mkResponse 200 (Message "User deactivated successfully"))) ∧
    users db1 !! pk = Some (User.set_is_active false user) ∧
    UserDetailView_update true ru pk (UserUpdateData.mk None None (Some true)) db1
    = (db,
       inr (mkReply 200
              (UserUpdateBody (User.first_name user) (User.last_name user) true))).
Proof.
  intros Hperm Huniq Hpk Hactive.
  pose proof Hperm as Hru. apply has_role_true in Hru as (rpk & r & -> & Hrole).
  exists (with_users <[pk := User.set_is_active false user]> db).
  split; [|split; [by simpl; rewrite lookup_insert_eq|]].
  - unfold UserDetailView_destroy.
    rewrite (authorize_Some _ _ rpk r) by done.
    unfold bind at 1, get_db. rewrite Hpk. by apply deactivate_user_ok.
  - unfold UserDetailView_update.
    rewrite (authorize_Some _ _ rpk r) by done.
    unfold bind at 1, get_db. simpl. rewrite lookup_insert_eq.
    unfold update_user. simpl.
    rewrite UserUpdateSerializer_reactivate by done.
    unfold bind.
    rewrite (User_save_update _ pk (User.set_is_active false user));
      [| |by simpl; rewrite lookup_insert_eq|done].
    + unfold ret. f_equal. destruct db as [s u t p c]. unfold with_users.
      simpl in *. f_equal. rewrite insert_insert_eq. by apply insert_id.
    + simpl. intros i j x y Hi Hj Hxy.
      apply lookup_insert_Some in Hi as [[<- <-]|[Hik Hi]];
        apply lookup_insert_Some in Hj as [[<- <-]|[Hjk Hj]]; [done|..].
      * eapply Huniq; [exact Hpk|exact Hj|done].
      * eapply Huniq; [exact Hi|exact Hpk|done].
      * by eapply Huniq.
Qed.

(** X6. A School Admin cannot reach the users of another school: a
    [DELETE], [PUT] or [PATCH] through [SchoolUserDetailView] on a user whose
    school is not the requester's is answered 404 and changes nothing. *)
Theorem SchoolUserDetailView_other_school requester_pk (requester : User.t)
    pk (user : User.t) partial data (db : DB) :
  User.role requester = SCHOOL_ADMIN →
  users db !! pk = Some user →
  User.school user ≠ User.school requester →
  SchoolUserDetailView_destroy (Authenticated requester_pk requester) pk db
  = (db, inr not_found) ∧
  SchoolUserDetailView_update partial (Authenticated requester_pk requester)
    pk data db
  = (db, inr (plain not_found)).
Proof.
  intros Hrole Hpk Hschool.
  assert (Hqs : SchoolUserDetailView_get_queryset requester db !! pk = None).
  { apply map_lookup_filter_None. right. intros u Hu. simpl.
    assert (u = user) as -> by congruence. done. }
  unfold SchoolUserDetailView_destroy, SchoolUserDetailView_update.
  rewrite (authorize_Some _ _ requester_pk requester)
    by (done || by apply has_role_true; eauto).
  unfold bind, get_db. by rewrite Hqs.
Qed.

(** ** The list querysets *)

(** X7. [AllUsersListView.get_queryset], for every pair of query
    parameters.  A parameter that is missing or empty does not filter, the
    other still does.  A role that is given keeps the users with that role
    value (nobody, when it is no role value).  A school that is given and is
    a number keeps the users of that school; one that is not a number makes
    the queryset raise. *)
Theorem AllUsersListView_get_queryset_spec (role school : option string)
    (db : DB) :
  let absent (parameter : option string) :=
    parameter = None ∨ parameter = Some "" in
  let has_role (u : User.t) :=
    absent role ∨ Some (Role_value (User.role u)) = role in
  (absent school →
   ∃ queryset,
     AllUsersListView_get_queryset python_int role school db = inr queryset ∧
     (absent role → queryset = users db) ∧
     ∀ k u, queryset !! k = Some u ↔ users db !! k = Some u ∧ has_role u) ∧
  (∀ school_id, ¬ absent school → school ≫= python_int = Some school_id →
   ∃ queryset,
     AllUsersListView_get_queryset python_int role school db = inr queryset ∧
     ∀ k u, queryset !! k = Some u ↔
            users db !! k = Some u ∧ has_role u ∧
            User.school u = Some school_id) ∧
  (¬ absent school → school ≫= python_int = None →
   ∃ e, AllUsersListView_get_queryset python_int role school db = inl e) ∧
  (¬ absent role → (∀ r, Some (Role_value r) ≠ role) →
   AllUsersListView_get_queryset python_int role school db = inr ∅ ∨
   ∃ e, AllUsersListView_get_queryset python_int role school db = inl e).
Proof.
  intros absent has_role.
  assert (Htruthy : ∀ parameter, truthy parameter = false ↔ absent parameter).
  { intros [v|]; unfold absent; simpl.
    - rewrite negb_false_iff, bool_decide_eq_true.
      split; [intros ->; by right|by intros [?|[= ->]]].
    - split; [by left|done]. }
  assert (Hgiven : ∀ parameter, ¬ absent parameter → truthy parameter = true).
  { intros parameter Hno. destruct (truthy parameter) eqn:Ht; [done|].
    by apply Htruthy in Ht. }
  assert (Hrole : ∀ k u,
            (if truthy role
             then filter (λ kr : Z * User.t,
                            Some (Role_value (User.role kr.2)) = role) (users db)
             else users db) !! k = Some u ↔
            users db !! k = Some u ∧ has_role u).
  { intros k u. unfold has_role. destruct (truthy role) eqn:Ht.
    - rewrite map_lookup_filter_Some. simpl.
      split; [intros [? ?]; split; [done|by right]|].
      intros [? [Habs|?]]; [|done].
      apply Htruthy in Habs. congruence.
    - split; [|by intros [? _]]. intros ?. split; [done|].
      left. by apply Htruthy. }
  unfold AllUsersListView_get_queryset. repeat apply conj.
  - intros Habs. apply Htruthy in Habs as ->.
    eexists. split; [done|]. split; [|exact Hrole].
    intros Hno. apply Htruthy in Hno. by rewrite Hno.
  - intros school_id Hno Hint. rewrite (Hgiven _ Hno), Hint.
    eexists. split; [done|]. intros k u.
    rewrite map_lookup_filter_Some, Hrole. simpl.
    split; [by intros [[? ?] ?]|by intros (? & ? & ?)].
  - intros Hno Hint. rewrite (Hgiven _ Hno), Hint. eauto.
  - intros Hno Hnone. rewrite (Hgiven _ Hno).
    assert (Hempty : filter (λ kr : Z * User.t,
                               Some (Role_value (User.role kr.2)) = role)
                       (users db) = ∅).
    { apply map_empty. intros k. apply eq_None_not_Some. intros [u Hu].
      apply map_lookup_filter_Some in Hu as [_ Hr]. by eapply Hnone. }
    rewrite Hempty. destruct (truthy school); [|by left].
    destruct (school ≫= python_int); [|right; eauto].
    left. by rewrite map_filter_empty.
Qed.

(** What a [DELETE] on a user can have done to the database. *)
Lemma user_destroy_views_inv ru pk (db db' : DB) r :
  UserDetailView_destroy ru pk db = (db', r) ∨
  SchoolUserDetailView_destroy ru pk db = (db', r) →
  db' = db ∨
  ∃ user, users db !! pk = Some user ∧
          db' = with_users <[pk := User.set_is_active false user]> db.
Proof.
  assert (Hdeact : ∀ user, users db !! pk = Some user →
            deactivate_user pk user db = (db', r) →
            db' = db ∨
            ∃ user, users db !! pk = Some user ∧
                    db' = with_users <[pk := User.set_is_active false user]> db).
  { intros user Hpk. unfold deactivate_user, bind.
    destruct (User_save _ db) as [db1 r1] eqn:Hs.
    apply User_save_inv in Hs as [(-> & e & ->)|(k & -> & -> & -> & _)];
      intros [= <- <-]; [by left|right; eauto]. }
  intros [Hd|Hd].
  - unfold UserDetailView_destroy in Hd.
    destruct (authorize _ ru); [|injection Hd as <- <-; by left].
    unfold bind at 1, get_db in Hd.
    destruct (users db !! pk) as [user|] eqn:Hpk;
      [by eapply Hdeact|injection Hd as <- <-; by left].
  - unfold SchoolUserDetailView_destroy in Hd.
    destruct (authorize _ ru) as [[rpk requester]|];
      [|injection Hd as <- <-; by left].
    unfold bind at 1, get_db in Hd.
    destruct (SchoolUserDetailView_get_queryset requester db !! pk)
      as [user|] eqn:Hpk; [|injection Hd as <- <-; by left].
    apply map_lookup_filter_Some in Hpk as [Hpk _].
    destruct (IsSameSchool_has_object_permission _ _) as [e|[]];
      [injection Hd as <- <-; by left|by eapply Hdeact
      |injection Hd as <- <-; by left].
Qed.

(** A deactivation keeps the school and the role of every user. *)
Lemma deactivation_keeps_listing (db : DB) pk (user : User.t) k :
  users db !! pk = Some user →
  (∀ u', <[pk := User.set_is_active false user]> (users db) !! k = Some u' →
         ∃ u, users db !! k = Some u ∧ User.school u' = User.school u ∧
              User.role u' = User.role u) ∧
  (∀ u, users db !! k = Some u →
        ∃ u', <[pk := User.set_is_active false user]> (users db) !! k = Some u' ∧
              User.school u' = User.school u ∧ User.role u' = User.role u).
Proof.
  intros Hpk. destruct (decide (k = pk)) as [->|Hne].
  - rewrite lookup_insert_eq. split.
    + intros u' [= <-]. by exists user.
    + intros u Hu. assert (u = user) as -> by congruence. by eexists.
  - rewrite lookup_insert_ne by done. split; intros u Hu; by exists u.
Qed.

(** X8. The lists of a school do not look at [is_active]: whatever a
    [DELETE] on a user did, the same users are in the querysets of
    [SchoolTeachersListView] and [SchoolStudentsListView] (with or without a
    class level) afterwards. *)
Theorem deactivated_users_stay_listed ru pk (db db' : DB) r
    (requester : User.t) class_level :
  UserDetailView_destroy ru pk db = (db', r) ∨
  SchoolUserDetailView_destroy ru pk db = (db', r) →
  dom (SchoolTeachersListView_get_queryset requester db')
  = dom (SchoolTeachersListView_get_queryset requester db) ∧
  dom (SchoolStudentsListView_get_queryset requester class_level db')
  = dom (SchoolStudentsListView_get_queryset requester class_level db).
Proof.
  intros Hd. apply user_destroy_views_inv in Hd as [->|(user & Hpk & ->)];
    [done|].
  unfold SchoolTeachersListView_get_queryset,
    SchoolStudentsListView_get_queryset.
  simpl. split; [|destruct (truthy class_level)].
  all: apply set_eq; intros k; rewrite !elem_of_dom; unfold is_Some;
    repeat setoid_rewrite map_lookup_filter_Some; simpl.
  all: destruct (deactivation_keeps_listing db pk user k Hpk) as [Hback Hforth].
  all: split; intros (u & Hu).
  - destruct Hu as [Hu [Hs Hr]]. destruct (Hback u Hu) as (u0 & ? & Hs0 & Hr0).
    exists u0. rewrite <-Hs0, <-Hr0. done.
  - destruct Hu as [Hu [Hs Hr]]. destruct (Hforth u Hu) as (u0 & ? & Hs0 & Hr0).
    exists u0. rewrite Hs0, Hr0. done.
  - destruct Hu as [[Hu [Hs Hr]] Hl].
    destruct (Hback u Hu) as (u0 & ? & Hs0 & Hr0).
    exists u0. rewrite <-Hs0, <-Hr0. done.
  - destruct Hu as [[Hu [Hs Hr]] Hl].
    destruct (Hforth u Hu) as (u0 & ? & Hs0 & Hr0).
    exists u0. rewrite Hs0, Hr0. done.
  - destruct Hu as [Hu [Hs Hr]]. destruct (Hback u Hu) as (u0 & ? & Hs0 & Hr0).
    exists u0. rewrite <-Hs0, <-Hr0. done.
  - destruct Hu as [Hu [Hs Hr]]. destruct (Hforth u Hu) as (u0 & ? & Hs0 & Hr0).
    exists u0. rewrite Hs0, Hr0. done.
Qed.

(** *** The users that a bulk request adds *)

(** The size of a filtered table after a row is added under a new key. *)
Lemma size_filter_insert_new `{∀ kr : Z * User.t, Decision (P kr)}
    (m : gmap Z User.t) k u :
  m !! k = None →
  size (filter P (<[k := u]> m))
  = (size (filter P m) + (if decide (P (k, u)) then 1 else 0))%nat.
Proof.
  intros Hk. destruct (decide (P (k, u))) as [Hp|Hp].
  - rewrite map_filter_insert_True by done.
    rewrite map_size_insert_None; [lia|].
    apply map_lookup_filter_None. by left.
  - rewrite map_filter_insert_False by done.
    rewrite delete_id by done. lia.
Qed.

(** The size of a filtered table after a row is replaced. *)
Lemma size_filter_insert_old `{∀ kr : Z * User.t, Decision (P kr)}
    (m : gmap Z User.t) k u u' :
  m !! k = Some u →
  (size (filter P (<[k := u']> m)) + (if decide (P (k, u)) then 1 else 0)
   = size (filter P m) + (if decide (P (k, u')) then 1 else 0))%nat.
Proof.
  intros Hk.
  rewrite <-(insert_delete_id m k u) at 2 by done.
  rewrite <-(insert_delete_eq m k u').
  rewrite !size_filter_insert_new by apply lookup_delete_eq. lia.
Qed.

(** The user row of a turn of the loop that succeeds. *)
Lemma bulk_create_one_user now school (student_data : Entry) (db db' : DB)
    summary :
  bulk_create_one normalize_email make_password now school student_data db
  = (db', inr summary) →
  ∃ u, summary_id summary = next_id (users db) ∧
       users db' = <[next_id (users db) := u]> (users db) ∧
       User.role u = STUDENT ∧ User.school u = school ∧
       User.is_active u = true.
Proof.
  intros Hone. unfold bulk_create_one, getitem in Hone.
  destruct (student_data !! "email") as [email|]; [|discriminate].
  destruct (student_data !! "first_name") as [first_name|]; [|discriminate].
  destruct (student_data !! "last_name") as [last_name|]; [|discriminate].
  unfold bind at 1, ret at 1 in Hone. unfold bind at 1, ret at 1 in Hone.
  unfold bind at 1, ret at 1 in Hone. unfold bind at 1 in Hone.
  destruct (create_user _ _ _ _ _ _ _ _ _ db) as [db1 r1] eqn:Hu.
  apply create_user_inv in Hu as [(-> & e & ->)|(Hne & -> & ->)];
    [discriminate|].
  cbv beta iota in Hone.
  destruct (student_data !! "class_level") as [class_level|];
    [|discriminate].
  unfold bind at 1, ret at 1 in Hone. unfold bind at 1 in Hone.
  destruct (StudentProfile_create _ _ _) as [db2 r2] eqn:Hp.
  apply StudentProfile_create_inv in Hp
    as [(-> & e & ->)|(-> & Hnone & _ & ->)]; [discriminate|].
  injection Hone as <- <-. eexists. simpl. done.
Qed.

(** The loop, when it returns: the summaries it adds have new, pairwise
    distinct ids, and the number of active users of a role in a school has
    grown by the number of entries for the students of the given school,
    and by nothing for the others. *)
Lemma bulk_create_loop_users now school (students_data : list Entry) :
  ∀ created (db db' : DB) out,
    bulk_create_loop normalize_email make_password now school students_data
      created db = (db', inr out) →
    ∃ new, out = (created ++ new)%list ∧
      Forall (λ summary, users db !! summary_id summary = None) new ∧
      NoDup (summary_id <$> new) ∧
      ∀ r s, size (School_active_users r s db')
             = (size (School_active_users r s db)
                + (if decide (school = Some s ∧ r = STUDENT)
                   then length students_data else 0))%nat.
Proof.
  induction students_data as [|student_data rest IH]; intros created db db' out.
  - intros [= <- <-]. exists []. rewrite app_nil_r.
    split; [done|]. split; [done|]. split; [constructor|].
    intros r s. simpl. destruct (decide _); lia.
  - simpl. unfold bind at 1.
    destruct (bulk_create_one _ _ _ _ _ db) as [db1 [e|summary]] eqn:Hone;
      [discriminate|].
    intros Hrest.
    pose proof Hone as Hgrow. apply bulk_create_one_grows in Hgrow as [Hsub _].
    apply bulk_create_one_user in Hone
      as (u & Hid & Hdb1 & Hrole & Hschool & Hactive).
    apply IH in Hrest as (new & -> & Hfresh & Hnodup & Hsize).
    exists (summary :: new). split; [by rewrite <-app_assoc|].
    assert (Hmono : ∀ k, users db1 !! k = None → users db !! k = None).
    { intros k Hk. destruct (users db !! k) as [u0|] eqn:Hk0; [|done].
      eapply lookup_weaken in Hk0; [|done]. congruence. }
    split; [|split].
    + constructor; [rewrite Hid; apply next_id_fresh|].
      eapply Forall_impl; [done|]. intros s. apply Hmono.
    + rewrite fmap_cons. constructor; [|done].
      intros Hin. apply list_elem_of_fmap in Hin as (s' & Heq & Hin).
      rewrite Forall_forall in Hfresh. specialize (Hfresh _ Hin).
      rewrite <-Heq, Hid, Hdb1, lookup_insert_eq in Hfresh. done.
    + intros r s. rewrite Hsize. unfold School_active_users. rewrite Hdb1.
      rewrite size_filter_insert_new by apply next_id_fresh. simpl.
      rewrite Hrole, Hschool, Hactive.
      destruct (decide (school = Some s ∧ r = STUDENT)) as [[-> ->]|Hn].
      * rewrite decide_True by done. lia.
      * rewrite decide_False; [lia|]. intros (? & ? & _). by apply Hn.
Qed.

(** A bulk request answered 201 has run the loop to its end. *)
Lemma BulkStudentCreateView_post_loop now ru data (db db' : DB) m summaries :
  BulkStudentCreateView_post normalize_email make_password now ru data db
  = (db', inr (mkResponse 201 (Students m summaries))) →
  ∃ requester_pk requester students,
    ru = Authenticated requester_pk requester ∧
    bulk_create_loop normalize_email make_password now (User.school requester)
      students [] db = (db', inr summaries).
Proof.
  unfold BulkStudentCreateView_post.
  destruct (authorize _ ru) as [[rpk requester]|] eqn:Hauth; [|discriminate].
  apply authorize_inv in Hauth as [-> _].
  unfold bind at 1, get_db.
  destruct (BulkStudentCreateSerializer_is_valid db data) as [errs|students];
    [discriminate|].
  unfold bind at 1.
  destruct (bulk_create_loop _ _ _ _ _ _ db) as [db1 [e|out]] eqn:Hloop;
    [discriminate|].
  intros [= <- _ <-]. eauto.
Qed.

(** X9. The students of a bulk request answered 201 have pairwise distinct
    ids, none of which was the id of a user before, and all of them are in
    the requester's student list afterwards. *)
Theorem bulk_created_students_are_listed now requester_pk (requester : User.t)
    data (db db' : DB) m summaries :
  BulkStudentCreateView_post normalize_email make_password now
    (Authenticated requester_pk requester) data db
  = (db', inr (mkResponse 201 (Students m summaries))) →
  NoDup (summary_id <$> summaries) ∧
  ∀ summary, summary ∈ summaries →
    users db !! summary_id summary = None ∧
    is_Some (SchoolStudentsListView_get_queryset requester None db'
               !! summary_id summary).
Proof.
  intros Hpost. pose proof Hpost as Hcreated.
  apply BulkStudentCreateView_post_created in Hcreated
    as (rpk & requester' & students & [= <- <-] & -> & Hall).
  apply BulkStudentCreateView_post_loop in Hpost
    as (rpk & requester' & students' & [= <- <-] & Hloop).
  apply bulk_create_loop_users in Hloop as (new & Hnew & Hfresh & Hnodup & _).
  rewrite app_nil_l in Hnew. subst new.
  split; [done|]. intros summary Hin. split.
  - rewrite Forall_forall in Hfresh. by apply Hfresh.
  - apply list_elem_of_lookup in Hin as [i Hi].
    destruct (Forall2_lookup_r _ _ _ _ _ Hall Hi)
      as (sd & _ & u & p & Hu & Hp & _ & Hrole & Hschool & _).
    exists u. unfold SchoolStudentsListView_get_queryset. simpl.
    by apply map_lookup_filter_Some.
Qed.

(** X10. Deactivating an active user takes one off the count of their school
    and role, and changes no other count: after either [DELETE] view has
    answered 200 for an active student of school [s], [total_students] of [s]
    is one less and its [total_teachers] is as before. *)
Theorem deactivation_lowers_total_students ru pk (user : User.t) s (db db' : DB)
    m :
  users db !! pk = Some user →
  User.role user = STUDENT → User.school user = Some s →
  User.is_active user = true →
  UserDetailView_destroy ru pk db = (db', inr (mkResponse 200 m)) ∨
  SchoolUserDetailView_destroy ru pk db = (db', inr (mkResponse 200 m)) →
  S (School_total_students s db') = School_total_students s db ∧
  School_total_teachers s db' = School_total_teachers s db ∧
  ∀ s', s' ≠ s → School_total_students s' db' = School_total_students s' db.
Proof.
  intros Hpk Hrole Hschool Hactive Hd.
  assert (db' = with_users <[pk := User.set_is_active false user]> db) as ->.
  { assert (Hdeact : ∀ db1 r, deactivate_user pk user db = (db1, inr r) →
              db1 = with_users <[pk := User.set_is_active false user]> db).
    { intros db1 r. unfold deactivate_user, bind.
      destruct (User_save _ db) as [db2 r2] eqn:Hs.
      apply User_save_inv in Hs as [(-> & e & ->)|(k & -> & -> & -> & _)];
        [discriminate|]. by intros [= <- _]. }
    destruct Hd as [Hd|Hd].
    - unfold UserDetailView_destroy in Hd.
      destruct (authorize _ ru); [|discriminate].
      unfold bind at 1, get_db in Hd. rewrite Hpk in Hd. by eapply Hdeact.
    - unfold SchoolUserDetailView_destroy in Hd.
      destruct (authorize _ ru) as [[rpk requester]|]; [|discriminate].
      unfold bind at 1, get_db in Hd.
      destruct (SchoolUserDetailView_get_queryset requester db !! pk)
        as [user'|] eqn:Hq; [|discriminate].
      apply map_lookup_filter_Some in Hq as [Hq _].
      assert (user' = user) as -> by congruence.
      destruct (IsSameSchool_has_object_permission _ _) as [e|[]];
        [discriminate|by eapply Hdeact|discriminate]. }
  unfold School_total_students, School_total_teachers, School_active_users.
  simpl. split; [|split; [|intros s' Hs']].
  all: match goal with |- context [filter ?P (<[_ := ?u']> _)] =>
         pose proof (size_filter_insert_old (P := P) _ _ _ u' Hpk) as Hsize
       end; simpl in Hsize; rewrite Hrole, Hschool, Hactive in Hsize.
  - rewrite decide_True, decide_False in Hsize; [lia| |done].
    by intros (_ & _ & ?).
  - rewrite !decide_False in Hsize; [lia| |]; by intros (_ & ? & _).
  - rewrite !decide_False in Hsize; [lia| |]; intros ([= ?] & _); by apply Hs'.
Qed.

(** X11. A bulk request answered 201 raises [total_students] of the
    requester's school by the number of students in the answer, and leaves
    [total_teachers] of every school and [total_students] of every other
    school as they were. *)
Theorem bulk_raises_total_students now requester_pk (requester : User.t)
    data (db db' : DB) m summaries :
  BulkStudentCreateView_post normalize_email make_password now
    (Authenticated requester_pk requester) data db
  = (db', inr (mkResponse 201 (Students m summaries))) →
  ∀ s, School_total_teachers s db' = School_total_teachers s db ∧
       School_total_students s db'
       = (School_total_students s db
          + (if decide (User.school requester = Some s)
             then length summaries else 0))%nat.
Proof.
  intros Hpost. pose proof Hpost as Hcreated.
  apply BulkStudentCreateView_post_created in Hcreated
    as (rpk & requester' & students & [= <- <-] & -> & Hall).
  apply Forall2_length in Hall.
  apply BulkStudentCreateView_post_loop in Hpost
    as (rpk & requester' & students' & [= <- <-] & Hloop).
  pose proof Hloop as Hinv.
  apply bulk_create_loop_inv in Hinv as (new & Hnew & Hall').
  rewrite app_nil_l in Hnew. subst new. apply Forall2_length in Hall'.
  apply bulk_create_loop_users in Hloop as (_ & _ & _ & _ & Hsize).
  intros s. unfold School_total_teachers, School_total_students.
  rewrite !Hsize. split.
  - rewrite decide_False; [lia|]. by intros [_ ?].
  - destruct (decide (User.school requester = Some s)) as [Hs|Hs].
    + rewrite decide_True by done. lia.
    + rewrite decide_False; [lia|]. by intros [? _].
Qed.

(** ** Schools *)

Lemma check_nil_inv ok field code : check ok field code = [] → ok = true.
Proof. by destruct ok. Qed.

(** School data without validation errors: no stored school has the name. *)
Lemma SchoolCreateSerializer_errors_name (db : DB) (data : SchoolCreateData.t) :
  SchoolCreateSerializer_errors validate_email casefold db data = [] →
  exists_where School.name (SchoolCreateData.name data) (schools db) = false.
Proof.
  unfold SchoolCreateSerializer_errors. intros Herrs.
  apply app_eq_nil in Herrs as [Hname _].
  unfold SchoolCreateSerializer_name_errors in Hname.
  destruct (bounded _ _ _ ++ check _ _ _)%list eqn:Hchecks; [|done].
  apply app_eq_nil in Hchecks as [_ Hunique].
  apply check_nil_inv in Hunique. by apply negb_true_iff in Hunique.
Qed.

(** A given registration number without validation errors is not stored. *)
Lemma SchoolCreateSerializer_errors_registration (db : DB)
    (data : SchoolCreateData.t) number :
  SchoolCreateSerializer_errors validate_email casefold db data = [] →
  SchoolCreateData.registration_number data = Some number →
  exists_where School.registration_number number (schools db) = false.
Proof.
  unfold SchoolCreateSerializer_errors. intros Herrs Hnumber.
  rewrite Hnumber in Herrs.
  repeat (apply app_eq_nil in Herrs as [_ Herrs]).
  apply check_nil_inv in Herrs. by apply negb_true_iff in Herrs.
Qed.

Lemma clashes_insert_exists {A B} `{EqDecision B} (col : A → B) (t : gmap Z A)
    (row : A) :
  clashes col t None row = exists_where col (col row) t.
Proof.
  unfold clashes, exists_where. apply bool_decide_ext.
  split; intros (k & r & Hk & Hr); exists k, r; [by destruct Hr|done].
Qed.

(** X12. [SchoolCreateView] answers 201 only to a Super Admin, and then
    exactly one row has been added, under a new key: the school of the
    answer, with the name and the other values of the request, the
    slugified name as its slug, active, and on the FREE subscription unless
    the request names one.  No stored school had that name, that slug or
    that registration number. *)
Theorem SchoolCreateView_created now ru (data : SchoolCreateData.t)
    (db db' : DB) (s : School.t) :
  SchoolCreateView slugify validate_email casefold now ru data db
  = (db', inr (mkReply 201 (SchoolCreateBody s))) →
  IsSuperAdmin_has_permission ru = true ∧
  schools db !! next_id (schools db) = None ∧
  db' = with_schools <[next_id (schools db) := s]> db ∧
  School.name s = SchoolCreateData.name data ∧
  School.slug s = slugify (SchoolCreateData.name data) ∧
  School.is_active s = true ∧
  School.subscription_type s
  = default FREE (SchoolCreateData.subscription_type data) ∧
  School.email s = SchoolCreateData.email data ∧
  School.registration_number s
  = default "" (SchoolCreateData.registration_number data) ∧
  ∀ k s0, schools db !! k = Some s0 →
    School.name s0 ≠ School.name s ∧ School.slug s0 ≠ School.slug s ∧
    School.registration_number s0 ≠ School.registration_number s.
Proof.
  unfold SchoolCreateView.
  destruct (authorize _ ru) as [[rpk requester]|] eqn:Hauth; [|discriminate].
  apply authorize_inv in Hauth as [-> Hperm].
  unfold bind at 1, get_db.
  destruct (SchoolCreateSerializer_errors _ _ db data); [|discriminate].
  unfold bind at 1.
  destruct (School_save _ _ _ db) as [db1 r1] eqn:Hsave.
  unfold School_save in Hsave.
  apply School_super_save_inv in Hsave
    as [(-> & e & ->)|(k & -> & -> & Hk & Hn & Hsl & Hreg)]; [discriminate|].
  simpl in Hk. subst k. intros [= <- <-].
  split; [done|]. split; [apply next_id_fresh|]. split; [done|].
  repeat (split; [done|]).
  intros k s0 Hs0. repeat split.
  - eapply (proj1 (clashes_false _ _ _ _) Hn); done.
  - eapply (proj1 (clashes_false _ _ _ _) Hsl); done.
  - eapply (proj1 (clashes_false _ _ _ _) Hreg); done.
Qed.

(** X13. Validated school data can still fail at the database: the
    serializer looks at names only, so when the slugified name is the slug of
    a stored school, [SchoolCreateView] raises an [IntegrityError] instead
    of answering, and nothing is written.  With the registration number of
    the new row free, the slug is the one constraint violated and the one
    named. *)
Theorem SchoolCreateView_slug_collision now ru (data : SchoolCreateData.t)
    (db : DB) k (s0 : School.t) :
  IsSuperAdmin_has_permission ru = true →
  SchoolCreateSerializer_errors validate_email casefold db data = [] →
  schools db !! k = Some s0 →
  School.slug s0 = slugify (SchoolCreateData.name data) →
  (∀ j s1, schools db !! j = Some s1 →
           School.registration_number s1
           ≠ default "" (SchoolCreateData.registration_number data)) →
  SchoolCreateView slugify validate_email casefold now ru data db
  = (db, inl (IntegrityError "schools.slug")).
Proof.
  intros Hperm Herrs Hk Hslug Hfree. unfold SchoolCreateView.
  destruct ru as [|rpk requester]; [done|].
  rewrite (authorize_Some _ _ rpk requester) by done.
  unfold bind at 1, get_db. rewrite Herrs.
  unfold bind at 1, School_save, School_super_save, bind, get_db.
  rewrite clashes_insert_exists.
  change (School.name (School_pre_save _ _)) with (SchoolCreateData.name data).
  rewrite (SchoolCreateSerializer_errors_name _ _ Herrs).
  rewrite (proj2 (clashes_true School.slug _ _ _)); [done|].
  exists k, s0. done.
Qed.

(** X14. The registration number may be left out, and is then stored as the
    empty string in a unique column: once a school without a registration
    number is stored, a second request that leaves it out passes validation
    and raises the [IntegrityError] of that column, and nothing is
    written. *)
Theorem SchoolCreateView_second_without_registration now ru
    (data : SchoolCreateData.t) (db : DB) k (s0 : School.t) :
  IsSuperAdmin_has_permission ru = true →
  SchoolCreateSerializer_errors validate_email casefold db data = [] →
  SchoolCreateData.registration_number data = None →
  schools db !! k = Some s0 → School.registration_number s0 = "" →
  (∀ j s1, schools db !! j = Some s1 →
           School.slug s1 ≠ slugify (SchoolCreateData.name data)) →
  SchoolCreateView slugify validate_email casefold now ru data db
  = (db, inl (IntegrityError "schools.registration_number")).
Proof.
  intros Hperm Herrs Hnone Hk Hreg Hslugs. unfold SchoolCreateView.
  destruct ru as [|rpk requester]; [done|].
  rewrite (authorize_Some _ _ rpk requester) by done.
  unfold bind at 1, get_db. rewrite Herrs.
  unfold bind at 1, School_save, School_super_save, bind, get_db.
  rewrite clashes_insert_exists.
  change (School.name (School_pre_save _ _)) with (SchoolCreateData.name data).
  rewrite (SchoolCreateSerializer_errors_name _ _ Herrs).
  rewrite (proj2 (clashes_false School.slug _ _ _)).
  2: { intros j s1 Hj _. by apply (Hslugs j). }
  rewrite (proj2 (clashes_true School.registration_number _ _ _)); [done|].
  exists k, s0. split; [done|]. split; [done|]. simpl. by rewrite Hnone.
Qed.

(** X15. [SchoolDetailView] lets a School Admin read and never write, and
    reads any school, not only the requester's own: a [GET] by a School
    Admin on a stored school is answered 200 with that school and its two
    counts, the write methods are allowed to a Super Admin alone, a
    [DELETE] by the School Admin is answered 403, and neither changes the
    database. *)
Theorem SchoolDetailView_school_admin now requester_pk (requester : User.t)
    pk (school : School.t) (db : DB) :
  User.role requester = SCHOOL_ADMIN →
  schools db !! pk = Some school →
  let ru := Authenticated requester_pk requester in
  SchoolDetailView_retrieve ru pk db
  = (db, inr (mkReply 200
                (SchoolDetailBody pk school (School_total_students pk db)
                   (School_total_teachers pk db)))) ∧
  (∀ method, method ≠ GET →
             SchoolDetailView_get_permissions method
             = IsSuperAdmin_has_permission) ∧
  SchoolDetailView_get_permissions DELETE ru = false ∧
  SchoolDetailView_destroy slugify now ru pk db = (db, inr permission_denied).
Proof.
  intros Hrole Hpk ru. repeat apply conj.
  - unfold SchoolDetailView_retrieve, SchoolDetailView_get_permissions.
    simpl. rewrite Hrole. simpl. unfold bind, get_db. by rewrite Hpk.
  - by intros [].
  - unfold SchoolDetailView_get_permissions. simpl. by rewrite Hrole.
  - unfold SchoolDetailView_destroy. simpl. by rewrite Hrole.
Qed.

(** ** [create_superuser] *)

(** X16. [create_superuser] never stores a user who is not both staff and
    superuser: either it raises and the database is as before, or it has
    written one row, with both flags set, the normalized email, the hash of
    the password and the role given (SUPER_ADMIN when none is).  The other
    keywords reach the row as they are: the row is active unless
    [is_active] says otherwise, and it is written under a new key unless an
    [id] is given, in which case the row under that key is replaced. *)
Theorem create_superuser_flags now email password
    (extra_fields : ExtraFields.t) (db db' : DB) r :
  create_superuser normalize_email make_password now email password
    extra_fields db = (db', r) →
  (db' = db ∧ ∃ e, r = inl e) ∨
  ∃ pk u, r = inr (pk, u) ∧
          pk = default (next_id (users db)) (ExtraFields.id extra_fields) ∧
          (ExtraFields.id extra_fields = None → users db !! pk = None) ∧
          db' = with_users <[pk := u]> db ∧
          User.is_staff u = true ∧ User.is_superuser u = true ∧
          User.is_active u
          = default true (ExtraFields.is_active extra_fields) ∧
          User.email u = normalize_email email ∧
          User.password u = make_password password ∧
          User.role u = default SUPER_ADMIN (ExtraFields.role extra_fields) ∧
          User.school u = ExtraFields.school extra_fields.
Proof.
  unfold create_superuser.
  destruct (default true (ExtraFields.is_staff extra_fields)) eqn:Hstaff;
    simpl; [|intros [= <- <-]; left; eauto].
  destruct (default true (ExtraFields.is_superuser extra_fields)) eqn:Hsuper;
    simpl; [|intros [= <- <-]; left; eauto].
  unfold create_user_extra. case_bool_decide as Hemail;
    [intros [= <- <-]; left; eauto|].
  unfold bind. destruct (User_save _ db) as [db1 r1] eqn:Hs.
  apply User_save_inv in Hs as [(-> & e & ->)|(k & -> & -> & Hk & _)].
  - intros [= <- <-]. left. eauto.
  - intros [= <- <-]. right. simpl in Hk. eexists _, _.
    split; [done|].
    destruct (ExtraFields.id extra_fields) as [given|]; subst k;
      (split; [done|]); (split; [|done]); [done|].
    intros _. apply next_id_fresh.
Qed.

(** ** What the bulk validation accepts *)

Lemma missing_field_None (student : Entry) :
  missing_field student = None ↔
  ∀ field, field ∈ required_fields → is_Some (student !! field).
Proof.
  unfold missing_field. split.
  - intros Hhead field Hin.
    destruct (student !! field) as [v|] eqn:Hfield; [by eexists|].
    destruct (missing_field_Some student field Hin Hfield) as [f Hf].
    unfold missing_field in Hf. congruence.
  - intros Hall.
    destruct (filter _ required_fields) as [|f l] eqn:Hfilter; [done|].
    assert (Hf : f ∈ filter (λ field, student !! field = None) required_fields)
      by (rewrite Hfilter; left).
    apply list_elem_of_filter in Hf as [Hnone Hin].
    destruct (Hall f Hin) as [v Hv]. congruence.
Qed.

Lemma validate_student_accepts (db : DB) idx (student : Entry) :
  validate_student db idx student = None ↔ entry_accepted db student.
Proof.
  unfold validate_student, entry_accepted. rewrite <-missing_field_None.
  destruct (missing_field student) as [field|];
    [split; [done|by intros [? _]]|].
  split.
  - intros Hv. split; [done|].
    destruct (truthy (student !! "email") && _) eqn:Hemail; [done|].
    case_bool_decide as Hlevel; [done|]. split.
    + intros email Hsome Hne k u Hk Hu.
      rewrite Hsome in Hemail. simpl in Hemail.
      rewrite (bool_decide_eq_false_2 (email = "")) in Hemail by done.
      simpl in Hemail. apply bool_decide_eq_false in Hemail.
      apply Hemail. exists k, u. split; [done|]. by rewrite Hu.
    + apply not_Forall_Exists in Hlevel; [|apply _].
      apply Exists_exists in Hlevel as (level & Hin & Hlevel).
      exists level. split; [|done]. simpl in Hlevel.
      by destruct (decide (Some level = student !! "class_level")).
  - intros (_ & Hemail & level & Hlevel & Hin).
    destruct (truthy (student !! "email") && _) eqn:Hstored.
    + exfalso. apply andb_true_iff in Hstored as [Htruthy Hstored].
      destruct (student !! "email") as [email|] eqn:Hsome; [|done].
      simpl in Htruthy. apply negb_true_iff, bool_decide_eq_false in Htruthy.
      apply bool_decide_eq_true in Hstored as (k & u & Hk & [= Hu]).
      by eapply (Hemail email).
    + rewrite bool_decide_eq_false_2; [done|].
      intros Hall. rewrite Forall_forall in Hall.
      by apply (Hall level Hin).
Qed.

Lemma validate_students_from_accepts (db : DB) (value : list Entry) :
  ∀ idx, validate_students_from db idx value = None ↔
         Forall (entry_accepted db) value.
Proof.
  induction value as [|student rest IH]; intros idx; simpl.
  - split; [constructor|done].
  - rewrite Forall_cons, <-(validate_student_accepts db idx), <-(IH (S idx)).
    destruct (validate_student db idx student).
    + split; [done|by intros [? _]].
    + split; [done|by intros [_ ?]].
Qed.

(** X17. [validate_students] hands the list on as it is, and it does so
    exactly when every entry has the four required keys, an email that is
    empty or not the email of a stored user, and a class level of the list;
    in every other case it ends with one message. *)
Theorem validate_students_accepts (db : DB) (value : list Entry) :
  (BulkStudentCreateSerializer_validate_students db value = inr value ↔
   Forall (entry_accepted db) value) ∧
  (¬ Forall (entry_accepted db) value →
   ∃ err, BulkStudentCreateSerializer_validate_students db value = inl err).
Proof.
  unfold BulkStudentCreateSerializer_validate_students.
  rewrite <-(validate_students_from_accepts db value 0%nat).
  destruct (validate_students_from db 0 value) as [err|].
  - split; [split; done|eauto].
  - split; [split; done|done].
Qed.

(** X18. An entry whose email is the empty string passes the bulk
    validation, and the request then fails in [create_user]: when it is the
    first entry, the view raises the [ValueError] of [create_user] instead of
    answering, and nothing is written. *)
Theorem bulk_empty_email_raises now ru (student : Entry) (rest : list Entry)
    (db : DB) :
  IsSchoolAdmin_has_permission ru = true →
  Forall (entry_accepted db) (student :: rest) →
  student !! "email" = Some "" →
  BulkStudentCreateSerializer_is_valid db (Some (student :: rest))
  = inr (student :: rest) ∧
  BulkStudentCreateView_post normalize_email make_password now ru
    (Some (student :: rest)) db
  = (db, inl (ValueError "Users must have an email address")).
Proof.
  intros Hperm Hall Hemail.
  assert (Hvalid : BulkStudentCreateSerializer_is_valid db (Some (student :: rest))
                   = inr (student :: rest)).
  { unfold BulkStudentCreateSerializer_is_valid,
      BulkStudentCreateSerializer_validate_students.
    by rewrite (proj2 (validate_students_from_accepts db _ 0%nat) Hall). }
  split; [done|].
  apply Forall_cons in Hall as [(Hkeys & _) _].
  destruct (Hkeys "first_name") as [first_name Hfirst];
    [unfold required_fields; rewrite !elem_of_cons; auto|].
  destruct (Hkeys "last_name") as [last_name Hlast];
    [unfold required_fields; rewrite !elem_of_cons; auto|].
  unfold BulkStudentCreateView_post.
  destruct ru as [|rpk requester]; [done|].
  rewrite (authorize_Some _ _ rpk requester) by done.
  unfold bind at 1, get_db. rewrite Hvalid.
  unfold bind at 1. simpl bulk_create_loop. unfold bind at 1.
  unfold bulk_create_one, getitem. rewrite Hemail, Hfirst, Hlast.
  unfold bind at 1, ret at 1. unfold bind at 1, ret at 1.
  unfold bind at 1, ret at 1. unfold bind at 1.
  unfold create_user. rewrite bool_decide_eq_true_2 by done. done.
Qed.

(** ** The student's own profile *)

Lemma StudentProfile_save_inv pk (p : StudentProfile.t) (db db' : DB) r :
  StudentProfile_save pk p db = (db', r) →
  (db' = db ∧ ∃ e, r = inl e) ∨
  (db' = with_student_profiles <[pk := p]> db ∧ r = inr tt ∧
   clashes StudentProfile.student_id (student_profiles db) (Some pk) p = false).
Proof.
  unfold StudentProfile_save, bind, get_db.
  destruct (clashes _ _ _ _) eqn:Hclash; intros [= <- <-];
    [left; eauto|by right].
Qed.

(** X19. A [PUT] or [PATCH] on the student profile view, whatever its
    outcome, writes to no table but [student_profiles], adds and removes no
    profile (the keys of the table are the same before and after), and
    leaves every profile but the requester's own as it was; in the
    requester's own it never changes the student id, the weak topics or the
    time of creation. *)
Theorem StudentProfileView_update_frame now partial ru data (db db' : DB) r :
  StudentProfileView_update validate_email now partial ru data db = (db', r) →
  users db' = users db ∧ schools db' = schools db ∧
  teacher_profiles db' = teacher_profiles db ∧ topics db' = topics db ∧
  dom (student_profiles db') = dom (student_profiles db) ∧
  ∀ k p, student_profiles db !! k = Some p →
    ∃ p', student_profiles db' !! k = Some p' ∧
          StudentProfile.student_id p' = StudentProfile.student_id p ∧
          StudentProfile.weak_topics p' = StudentProfile.weak_topics p ∧
          StudentProfile.created_at p' = StudentProfile.created_at p ∧
          ((∀ u, ru ≠ Authenticated k u) → p' = p).
Proof.
  assert (Hsame : ∀ db0 : DB,
            users db0 = users db0 ∧ schools db0 = schools db0 ∧
            teacher_profiles db0 = teacher_profiles db0 ∧
            topics db0 = topics db0 ∧
            dom (student_profiles db0) = dom (student_profiles db0) ∧
            ∀ k p, student_profiles db0 !! k = Some p →
              ∃ p', student_profiles db0 !! k = Some p' ∧
                    StudentProfile.student_id p' = StudentProfile.student_id p ∧
                    StudentProfile.weak_topics p' = StudentProfile.weak_topics p ∧
                    StudentProfile.created_at p' = StudentProfile.created_at p ∧
                    ((∀ u, ru ≠ Authenticated k u) → p' = p)).
  { intros db0. repeat (split; [done|]). intros k p Hk. by exists p. }
  unfold StudentProfileView_update.
  destruct ru as [|pk u]; [intros [= <- <-]; apply Hsame|].
  unfold bind at 1, get_db. unfold StudentProfileView_get_object.
  destruct (student_profiles db !! pk) as [profile|] eqn:Hpk;
    [|intros [= <- <-]; apply Hsame].
  destruct (StudentProfileUpdateSerializer_is_valid _ _ _) as [errs|vd];
    [intros [= <- <-]; apply Hsame|].
  unfold bind. destruct (StudentProfile_save _ _ db) as [db1 r1] eqn:Hsave.
  apply StudentProfile_save_inv in Hsave as [(-> & e & ->)|(-> & -> & _)];
    intros [= <- <-]; [apply Hsame|].
  simpl. repeat (split; [done|]).
  split; [by apply dom_insert_lookup_L|]. intros k p Hk.
  destruct (decide (k = pk)) as [->|Hne].
  - rewrite lookup_insert_eq. eexists. split; [done|].
    assert (p = profile) as -> by congruence. simpl.
    repeat (split; [done|]). intros Hno. by destruct (Hno u).
  - rewrite lookup_insert_ne by done. by exists p.
Qed.

(** X20. With unique student ids, an update of the own profile that passes
    validation cannot fail: the student id is not among the fields, so the
    unique column is never hit.  The view answers 200 and the row has the
    validated values where the request gave one, the old ones elsewhere,
    and the time of the request as [updated_at]. *)
Theorem StudentProfileView_update_succeeds now partial pk (u : User.t)
    (profile : StudentProfile.t) data validated_data (db : DB) :
  unique_on StudentProfile.student_id (student_profiles db) →
  student_profiles db !! pk = Some profile →
  StudentProfileUpdateSerializer_is_valid validate_email partial data
  = inr validated_data →
  ∃ p',
    StudentProfileView_update validate_email now partial (Authenticated pk u)
      data db
    = (with_student_profiles <[pk := p']> db,
       inr (mkReply 200
              (StudentProfileUpdateBody (StudentProfile.class_level p')
                 (StudentProfile.phone_number p')
                 (StudentProfile.parent_email p')
                 (StudentProfile.parent_phone p')))) ∧
    StudentProfile.class_level p'
    = default (StudentProfile.class_level profile)
        (StudentProfileUpdateData.class_level validated_data) ∧
    StudentProfile.phone_number p'
    = default (StudentProfile.phone_number profile)
        (StudentProfileUpdateData.phone_number validated_data) ∧
    StudentProfile.parent_email p'
    = default (StudentProfile.parent_email profile)
        (StudentProfileUpdateData.parent_email validated_data) ∧
    StudentProfile.parent_phone p'
    = default (StudentProfile.parent_phone profile)
        (StudentProfileUpdateData.parent_phone validated_data) ∧
    StudentProfile.student_id p' = StudentProfile.student_id profile ∧
    StudentProfile.updated_at p' = now.
Proof.
  intros Hunique Hpk Hvalid.
  exists (StudentProfileUpdateSerializer_update now profile validated_data).
  split; [|done].
  unfold StudentProfileView_update, bind at 1, get_db.
  unfold StudentProfileView_get_object. rewrite Hpk, Hvalid.
  unfold bind, StudentProfile_save, bind, get_db.
  rewrite (proj2 (clashes_false StudentProfile.student_id _ _ _)); [done|].
  intros k p Hk Hne Hid. apply Hne. f_equal.
  by eapply (Hunique k pk p profile).
Qed.

(** X21. [class_level] is the one required field of the profile update: a
    [PUT] without it is answered 400 and writes nothing, while a [PATCH]
    without any key is answered 200 and changes [updated_at] only. *)
Theorem StudentProfileView_put_and_patch now pk (u : User.t)
    (profile : StudentProfile.t) data (db : DB) :
  unique_on StudentProfile.student_id (student_profiles db) →
  student_profiles db !! pk = Some profile →
  StudentProfileUpdateData.class_level data = None →
  (∃ errs,
     ("class_level", "required") ∈ errs ∧
     StudentProfileView_update validate_email now false (Authenticated pk u)
       data db
     = (db, inr (plain (mkResponse 400 (Errors errs))))) ∧
  StudentProfileView_update validate_email now true (Authenticated pk u)
    (StudentProfileUpdateData.mk None None None None) db
  = (with_student_profiles
       <[pk := StudentProfile.mk (StudentProfile.class_level profile)
                 (StudentProfile.student_id profile)
                 (StudentProfile.phone_number profile)
                 (StudentProfile.parent_email profile)
                 (StudentProfile.parent_phone profile)
                 (StudentProfile.weak_topics profile)
                 (StudentProfile.created_at profile) now]> db,
     inr (mkReply 200
            (StudentProfileUpdateBody (StudentProfile.class_level profile)
               (StudentProfile.phone_number profile)
               (StudentProfile.parent_email profile)
               (StudentProfile.parent_phone profile)))).
Proof.
  intros Hunique Hpk Hnone. split.
  - unfold StudentProfileView_update, bind at 1, get_db.
    unfold StudentProfileView_get_object. rewrite Hpk.
    unfold StudentProfileUpdateSerializer_is_valid. rewrite Hnone.
    cbn [run_field errors_of].
    eexists. split; [|reflexivity]. simpl. left.
  - unfold StudentProfileView_update, bind at 1, get_db.
    unfold StudentProfileView_get_object. rewrite Hpk.
    cbn [StudentProfileUpdateSerializer_is_valid run_field
         StudentProfileUpdateData.class_level
         StudentProfileUpdateData.phone_number
         StudentProfileUpdateData.parent_email
         StudentProfileUpdateData.parent_phone].
    unfold bind, StudentProfile_save, bind, get_db.
    rewrite (proj2 (clashes_false StudentProfile.student_id _ _ _)); [done|].
    intros k p Hk Hne Hid. apply Hne. f_equal.
    by eapply (Hunique k pk p profile).
Qed.

(** ** The constraints, for the further endpoints and the script *)

Lemma preserves_StudentProfile_save pk p :
  preserves slugify (StudentProfile_save pk p).
Proof.
  intros db db' r [] Hsave.
  apply StudentProfile_save_inv in Hsave as [(-> & _)|(-> & _ & Hcl)]; [done|].
  constructor; simpl; try done.
  apply unique_on_insert; [done|]. by eapply clashes_false_written.
Qed.

Lemma preserves_update_user partial pk user data :
  preserves slugify (update_user partial pk user data).
Proof.
  unfold update_user.
  destruct (UserUpdateSerializer_is_valid _ _); [apply preserves_ret|].
  apply preserves_bind; [apply preserves_User_save|]. intros _.
  apply preserves_ret.
Qed.

Lemma preserves_create_user_extra now email password role is_staff
    is_superuser extra_fields :
  preserves slugify
    (create_user_extra normalize_email make_password now email password role
       is_staff is_superuser extra_fields).
Proof.
  unfold create_user_extra. case_bool_decide; [apply preserves_raise|].
  apply preserves_bind; [apply preserves_User_save|].
  intros [k u]. apply preserves_ret.
Qed.

Lemma preserves_create_superuser now email password extra_fields :
  preserves slugify
    (create_superuser normalize_email make_password now email password
       extra_fields).
Proof.
  unfold create_superuser.
  destruct (negb _); [apply preserves_raise|].
  destruct (negb _); [apply preserves_raise|].
  apply preserves_create_user_extra.
Qed.

Lemma preserves_School_objects_get_or_create now instance :
  preserves slugify (School_objects_get_or_create slugify now instance).
Proof.
  intros db db' r Hdb. unfold School_objects_get_or_create, bind at 1, get_db.
  destruct (School_objects_get _ db) as [e|[pk school]];
    [|by intros [= <- <-]].
  assert (Hsave : ∀ db1 r1,
            School_save slugify now (None, instance) db = (db1, r1) →
            db_consistent slugify db1)
    by (intros db1 r1; by apply preserves_School_save).
  destruct e; try (by intros [= <- <-]).
  destruct (School_save slugify now (None, instance) db)
    as [db1 [e|[pk school]]] eqn:Hrun;
    [|intros [= <- <-]; by eapply Hsave].
  specialize (Hsave _ _ eq_refl).
  destruct e; try (by intros [= <- <-]).
  destruct (School_objects_get _ db1) as [e|[pk school]];
    [|by intros [= <- <-]].
  by destruct e; intros [= <- <-].
Qed.

Lemma preserves_create_test_data times :
  preserves slugify
    (create_test_data slugify normalize_email make_password times).
Proof.
  destruct times as [[[[t_school t_super] t_admin] t_teacher] t_student].
  unfold create_test_data.
  apply preserves_bind; [apply preserves_School_objects_get_or_create|].
  intros [[school_pk school] created].
  repeat (apply preserves_bind;
          [first [apply preserves_get_db
                 |destruct (negb _); [|apply preserves_ret];
                  apply preserves_bind;
                  [first [apply preserves_create_superuser
                         |apply preserves_create_user]|];
                  intros [? ?]; apply preserves_ret]|];
          intros ?).
  apply preserves_ret.
Qed.

(** X22. The further endpoints and the script keep the constraints of the
    schema, also when they raise: the password change, the updates of a
    user, the update of the own profile, the creation and the retrieval of a
    school, [create_superuser] and [create_test_data] lead from a database
    with unique emails, school names, slugs, registration numbers, student
    ids and topics to one. *)
Theorem further_endpoints_keep_constraints now ru pk partial :
  (∀ data, preserves slugify
     (ChangePasswordView_update make_password check_password validate_password
        ru data)) ∧
  (∀ data, preserves slugify (UserDetailView_update partial ru pk data)) ∧
  (∀ data, preserves slugify (SchoolUserDetailView_update partial ru pk data)) ∧
  (∀ data, preserves slugify
     (StudentProfileView_update validate_email now partial ru data)) ∧
  (∀ data, preserves slugify
     (SchoolCreateView slugify validate_email casefold now ru data)) ∧
  preserves slugify (SchoolDetailView_retrieve ru pk) ∧
  (∀ email password extra_fields, preserves slugify
     (create_superuser normalize_email make_password now email password
        extra_fields)) ∧
  (∀ times, preserves slugify
     (create_test_data slugify normalize_email make_password times)).
Proof.
  repeat apply conj; try intros data.
  - unfold ChangePasswordView_update. destruct ru as [|rpk user];
      [apply preserves_ret|].
    destruct (ChangePasswordSerializer_is_valid _ _ _ _) as [errs|[[? ?] ?]];
      [apply preserves_ret|].
    apply preserves_bind; [apply preserves_User_save|]. intros _.
    apply preserves_ret.
  - unfold UserDetailView_update.
    destruct (authorize _ _); [|apply preserves_ret].
    apply preserves_bind; [apply preserves_get_db|]. intros db0.
    destruct (users db0 !! pk); [apply preserves_update_user|apply preserves_ret].
  - unfold SchoolUserDetailView_update.
    destruct (authorize _ _) as [[rpk requester]|]; [|apply preserves_ret].
    apply preserves_bind; [apply preserves_get_db|]. intros db0.
    destruct (_ !! pk) as [user|]; [|apply preserves_ret].
    destruct (IsSameSchool_has_object_permission _ _) as [e|[]];
      [apply preserves_raise|apply preserves_update_user|apply preserves_ret].
  - unfold StudentProfileView_update. destruct ru as [|rpk user];
      [apply preserves_ret|].
    apply preserves_bind; [apply preserves_get_db|]. intros db0.
    destruct (StudentProfileView_get_object _ _); [apply preserves_raise|].
    destruct (StudentProfileUpdateSerializer_is_valid _ _ _);
      [apply preserves_ret|].
    apply preserves_bind; [apply preserves_StudentProfile_save|]. intros _.
    apply preserves_ret.
  - unfold SchoolCreateView.
    destruct (authorize _ _); [|apply preserves_ret].
    apply preserves_bind; [apply preserves_get_db|]. intros db0.
    destruct (SchoolCreateSerializer_errors _ _ _ _); [|apply preserves_ret].
    apply preserves_bind; [apply preserves_School_save|]. intros [? ?].
    apply preserves_ret.
  - unfold SchoolDetailView_retrieve.
    destruct (authorize _ _); [|apply preserves_ret].
    apply preserves_bind; [apply preserves_get_db|]. intros db0.
    destruct (schools db0 !! pk); apply preserves_ret.
  - intros password extra_fields. apply preserves_create_superuser.
  - apply preserves_create_test_data.
Qed.

(** ** The script *)

Lemma bind_inv {A B} (c : M A) (k : A → M B) (db db' : DB) r :
  bind c k db = (db', r) →
  (c db = (db', inl (match r with inl e => e | inr _ => DoesNotExist end)) ∧
   ∃ e, r = inl e) ∨
  ∃ db1 a, c db = (db1, inr a) ∧ k a db1 = (db', r).
Proof.
  unfold bind. destruct (c db) as [db1 [e|a]].
  - intros [= <- <-]. left. eauto.
  - intros Hk. right. eauto.
Qed.

Lemma School_objects_get_inv name (db : DB) pk (s : School.t) :
  School_objects_get name db = inr (pk, s) →
  schools db !! pk = Some s ∧ School.name s = name.
Proof.
  unfold School_objects_get.
  destruct (filter _ (map_to_list (schools db))) as [|kr [|kr' l]] eqn:Hfilter;
    [done| |done].
  intros [= ->].
  assert (Hin : (pk, s) ∈ filter (λ kr : Z * School.t, School.name kr.2 = name)
                           (map_to_list (schools db)))
    by (rewrite Hfilter; left).
  apply list_elem_of_filter in Hin as [Hname Hin].
  by apply elem_of_map_to_list in Hin.
Qed.

(** [get_or_create] writes to [schools] only and adds at most one row; when
    it returns, a [get] by the name finds the school it returns. *)
Lemma School_objects_get_or_create_inv now (instance : School.t) (db db' : DB) r :
  School_objects_get_or_create slugify now instance db = (db', r) →
  users db' = users db ∧ teacher_profiles db' = teacher_profiles db ∧
  student_profiles db' = student_profiles db ∧ topics db' = topics db ∧
  schools db ⊆ schools db' ∧
  ∀ pk school created, r = inr (pk, school, created) →
    School_objects_get (School.name instance) db' = inr (pk, school).
Proof.
  unfold School_objects_get_or_create, bind at 1, get_db.
  destruct (School_objects_get _ db) as [e|[pk school]] eqn:Hget.
  2: { intros [= <- <-]. repeat (split; [done|]). by intros ? ? ? [= <- <- _]. }
  destruct e; try (intros [= <- <-]; by repeat (split; [done|])).
  destruct (School_save slugify now (None, instance) db)
    as [db1 [e|[pk school]]] eqn:Hsave;
    unfold School_save in Hsave;
    apply School_super_save_inv in Hsave
      as [(-> & e' & Hr)|(k & Hr & -> & Hk & _)]; try discriminate.
  - destruct e; try (intros [= <- <-]; by repeat (split; [done|])).
    rewrite Hget. intros [= <- <-]. by repeat (split; [done|]).
  - simpl in Hk. subst k. injection Hr as -> ->. intros [= <- <-]. simpl.
    repeat (split; [done|]).
    split; [apply insert_subseteq, next_id_fresh|].
    intros ? ? ? [= <- <- _].
    unfold School_objects_get in *.
    destruct (filter _ (map_to_list (schools db))) as [|kr [|kr' l]] eqn:Hfilter;
      [|done|done].
    simpl.
    match goal with
    | |- match filter ?P (map_to_list (<[?k := ?s]> _)) with _ => _ end = _ =>
        assert (Hone : filter P (map_to_list (<[k := s]> (schools db)))
                       = [(k, s)])
    end.
    { apply Permutation_singleton_r.
      rewrite map_to_list_insert by apply next_id_fresh.
      rewrite filter_cons_True
        by exact (eq_trans
                    (School_pre_save_name now
                       (None, School_fill_slug slugify instance))
                    (School_fill_slug_name slugify instance)).
      by rewrite Hfilter. }
    by rewrite Hone.
Qed.

(** One account of the script: created unless a user has the email. *)
Lemma test_account_step (P : User.t → Prop) email exists_line
    (c : M (Z * User.t)) (line : User.t → string) (db db' : DB) r :
  (∀ d d' r', c d = (d', r') →
     (d' = d ∧ ∃ e, r' = inl e) ∨
     ∃ u, P u ∧ User.email u = normalize_email email ∧
          d' = with_users <[next_id (users d) := u]> d ∧
          r' = inr (next_id (users d), u)) →
  (if negb (exists_where User.email email (users db))
   then do ' (_, u) <- c; ret (line u)
   else ret exists_line) db = (db', r) →
  (db' = db ∧
   ((∃ e, r = inl e) ∨
    (r = inr exists_line ∧
     exists_where User.email email (users db) = true))) ∨
  ∃ u, P u ∧ User.email u = normalize_email email ∧
       db' = with_users <[next_id (users db) := u]> db ∧ r = inr (line u).
Proof.
  intros Hc. destruct (exists_where _ _ _) eqn:Hex; simpl.
  - intros [= <- <-]. left. eauto.
  - unfold bind. destruct (c db) as [db1 r1] eqn:Hrun.
    apply Hc in Hrun as [(-> & e & ->)|(u & Hu & Hemail & -> & ->)].
    + intros [= <- <-]. left. eauto.
    + intros [= <- <-]. right. eauto.
Qed.

Lemma create_user_extra_inv now email password role is_staff is_superuser
    (extra_fields : ExtraFields.t) (db db' : DB) r :
  ExtraFields.id extra_fields = None →
  create_user_extra normalize_email make_password now email password role
    is_staff is_superuser extra_fields db = (db', r) →
  (db' = db ∧ ∃ e, r = inl e) ∨
  (let pk := next_id (users db) in
   let user := User.mk (normalize_email email)
                 (default "" (ExtraFields.first_name extra_fields))
                 (default "" (ExtraFields.last_name extra_fields))
                 role (ExtraFields.school extra_fields)
                 (default true (ExtraFields.is_active extra_fields))
                 is_staff is_superuser
                 (default now (ExtraFields.date_joined extra_fields))
                 (ExtraFields.last_login extra_fields)
                 (make_password password) in
   r = inr (pk, user) ∧ db' = with_users <[pk := user]> db).
Proof.
  intros Hid. unfold create_user_extra. rewrite Hid.
  case_bool_decide as Hemail; [intros [= <- <-]; left; eauto|].
  unfold bind. destruct (User_save _ db) as [db1 r1] eqn:Hs.
  apply User_save_inv in Hs as [(-> & e & ->)|(k & -> & -> & Hk & _)].
  - intros [= <- <-]. left. eauto.
  - intros [= <- <-]. right. simpl in Hk. by subst k.
Qed.

Lemma test_superuser_step now school_pk (d d' : DB) r' :
  create_superuser normalize_email make_password now "superadmin@biotutor.com"
    (Some "Admin@2025")
    (ExtraFields.mk None (Some "Super") (Some "Admin") (Some SUPER_ADMIN) None
       None None None None None) d
  = (d', r') →
  (d' = d ∧ ∃ e, r' = inl e) ∨
  ∃ u, test_account school_pk u ∧
       User.email u = normalize_email "superadmin@biotutor.com" ∧
       d' = with_users <[next_id (users d) := u]> d ∧
       r' = inr (next_id (users d), u).
Proof.
  unfold create_superuser. simpl. intros Hrun.
  apply create_user_extra_inv in Hrun as [?|[-> ->]]; [by left| |done].
  right. eexists. split; [|repeat split; reflexivity].
  split; [done|]. by left.
Qed.

Lemma test_user_step now email password first_name last_name role school_pk
    (d d' : DB) r' :
  role ≠ SUPER_ADMIN →
  create_user normalize_email make_password now email password first_name
    last_name role (Some school_pk) d = (d', r') →
  (d' = d ∧ ∃ e, r' = inl e) ∨
  ∃ u, test_account school_pk u ∧ User.email u = normalize_email email ∧
       d' = with_users <[next_id (users d) := u]> d ∧
       r' = inr (next_id (users d), u).
Proof.
  intros Hrole Hrun.
  apply create_user_inv in Hrun as [?|(_ & -> & ->)]; [by left|].
  right. eexists. split; [|repeat split; reflexivity].
  split; [done|]. by right.
Qed.

Lemma exists_where_mono {A B} `{EqDecision B} (col : A → B) v (t t' : gmap Z A) :
  t ⊆ t' → exists_where col v t = true → exists_where col v t' = true.
Proof.
  intros Hsub. rewrite !exists_where_true. intros (k & r & Hk & Hr).
  exists k, r. split; [by eapply lookup_weaken|done].
Qed.

Lemma exists_where_insert {A B} `{EqDecision B} (col : A → B) (t : gmap Z A) k r :
  exists_where col (col r) (<[k := r]> t) = true.
Proof. apply exists_where_true. exists k, r. by rewrite lookup_insert_eq. Qed.

(** When the school and the four accounts are there, the script writes
    nothing and prints that they exist. *)
Lemma create_test_data_present times (db : DB) :
  test_data_present db →
  create_test_data slugify normalize_email make_password times db
  = (db, inr (["Creating test data...";
               "✓ School already exists: Test High School";
               "✓ Super Admin already exists";
               "✓ School Admin already exists";
               "✓ Teacher already exists";
               "✓ Student already exists"] ++ credentials)%list).
Proof.
  intros [[[pk school] Hget] Hemails].
  destruct times as [[[[t_school t_super] t_admin] t_teacher] t_student].
  apply Forall_cons in Hemails as [H1 Hemails].
  apply Forall_cons in Hemails as [H2 Hemails].
  apply Forall_cons in Hemails as [H3 Hemails].
  apply Forall_cons in Hemails as [H4 _].
  pose proof (School_objects_get_inv _ _ _ _ Hget) as [_ Hname].
  assert (Hget_db : ∀ {A} (k : DB → M A) d, bind get_db k d = k d d) by done.
  assert (Hret : ∀ {A B} (a : A) (k : A → M B) d, bind (ret a) k d = k a d)
    by done.
  unfold create_test_data.
  assert (Hgoc : School_objects_get_or_create slugify t_school test_school db
                 = (db, inr (pk, school, false))).
  { unfold School_objects_get_or_create. rewrite Hget_db.
    change (School.name test_school) with "Test High School".
    by rewrite Hget. }
  unfold bind at 1. rewrite Hgoc. cbv beta iota.
  rewrite Hget_db. cbv beta. rewrite H1. simpl negb. cbv iota. rewrite Hret.
  rewrite Hget_db. cbv beta. rewrite H2. simpl negb. cbv iota. rewrite Hret.
  rewrite Hget_db. cbv beta. rewrite H3. simpl negb. cbv iota. rewrite Hret.
  rewrite Hget_db. cbv beta. rewrite H4. simpl negb. cbv iota. rewrite Hret.
  unfold ret. by rewrite Hname.
Qed.

Lemma test_accounts_added_refl school_pk (db : DB) :
  test_accounts_added school_pk db db.
Proof. repeat (split; [done|]). intros k u Hk Hnone. congruence. Qed.

Lemma test_accounts_added_trans school_pk (db1 db2 db3 : DB) :
  test_accounts_added school_pk db1 db2 →
  test_accounts_added school_pk db2 db3 →
  test_accounts_added school_pk db1 db3.
Proof.
  intros (Hs & Ht & Hp & Hc & Hu & Hnew) (Hs' & Ht' & Hp' & Hc' & Hu' & Hnew').
  repeat apply conj; try congruence; [by etrans|].
  intros k u Hk Hnone.
  destruct (users db2 !! k) as [u2|] eqn:Hk2; [|by eapply Hnew'].
  apply (Hnew k); [|done].
  eapply lookup_weaken in Hk2 as Hk3; [|done]. congruence.
Qed.

(** One account of the script, as a step of [test_accounts_added]. *)
Lemma test_account_block school_pk email exists_line (c : M (Z * User.t))
    (line : User.t → string) (db db' : DB) r :
  (∀ d d' r', c d = (d', r') →
     (d' = d ∧ ∃ e, r' = inl e) ∨
     ∃ u, test_account school_pk u ∧ User.email u = normalize_email email ∧
          d' = with_users <[next_id (users d) := u]> d ∧
          r' = inr (next_id (users d), u)) →
  (if negb (exists_where User.email email (users db))
   then do ' (_, u) <- c; ret (line u)
   else ret exists_line) db = (db', r) →
  test_accounts_added school_pk db db' ∧
  (∀ l, r = inr l → normalize_email email = email →
        exists_where User.email email (users db') = true).
Proof.
  intros Hc Hrun.
  eapply (test_account_step (test_account school_pk)) in Hrun
    as [(-> & [(e & ->)|(-> & Hex)])|(u & Hu & Hemail & -> & ->)]; [| | |done].
  - split; [apply test_accounts_added_refl|]. by intros l.
  - split; [apply test_accounts_added_refl|]. by intros l.
  - split.
    + repeat (split; [done|]). simpl.
      split; [apply insert_subseteq, next_id_fresh|].
      intros k u' Hk Hnone.
      apply lookup_insert_Some in Hk as [[_ <-]|[_ Hk]]; [done|congruence].
    + intros l _ Hnorm. simpl. rewrite <-Hnorm, <-Hemail.
      apply exists_where_insert.
Qed.

(** What a run of the script can have done, whatever its outcome. *)
Lemma create_test_data_inv times (db db' : DB) r :
  create_test_data slugify normalize_email make_password times db = (db', r) →
  ∃ db0 : DB,
    users db0 = users db ∧ teacher_profiles db0 = teacher_profiles db ∧
    student_profiles db0 = student_profiles db ∧ topics db0 = topics db ∧
    schools db ⊆ schools db0 ∧
    ((db' = db0 ∧ ∃ e, r = inl e) ∨
     ∃ pk school,
       School_objects_get "Test High School" db0 = inr (pk, school) ∧
       test_accounts_added pk db0 db' ∧
       ∀ lines, r = inr lines →
         Forall (λ email, normalize_email email = email) test_emails →
         Forall (λ email, exists_where User.email email (users db') = true)
           test_emails).
Proof.
  destruct times as [[[[t_school t_super] t_admin] t_teacher] t_student].
  unfold create_test_data. intros Hrun.
  apply bind_inv in Hrun as [[Hgoc [e ->]]|(db0 & [[pk school] created] & Hgoc & Hrun)];
    apply School_objects_get_or_create_inv in Hgoc
      as (Hu0 & Ht0 & Hp0 & Hc0 & Hs0 & Hfound);
    exists db0 || exists db'; repeat (split; [done|]); [left; eauto|].
  right. exists pk, school.
  specialize (Hfound _ _ _ eq_refl).
  change (School.name test_school) with "Test High School" in Hfound.
  split; [done|]. cbv zeta in Hrun.
  (* the Super Admin *)
  apply bind_inv in Hrun as [[[=] _]|(db1 & d1 & [= <- <-] & Hrun)].
  apply bind_inv in Hrun as [[H1 [e ->]]|(db1 & line1 & H1 & Hrun)];
    (eapply (test_account_block pk) in H1 as [Hadd1 Hex1];
     [|intros d d' r'; by apply test_superuser_step]);
    [split; [done|by intros lines]|].
  (* the School Admin *)
  apply bind_inv in Hrun as [[[=] _]|(db2 & d2 & [= <- <-] & Hrun)].
  apply bind_inv in Hrun as [[H2 [e ->]]|(db2 & line2 & H2 & Hrun)];
    (eapply (test_account_block pk) in H2 as [Hadd2 Hex2];
     [|intros d d' r'; by apply test_user_step]);
    pose proof (test_accounts_added_trans _ _ _ _ Hadd1 Hadd2) as Hadd12;
    [split; [done|by intros lines]|].
  (* the teacher *)
  apply bind_inv in Hrun as [[[=] _]|(db3 & d3 & [= <- <-] & Hrun)].
  apply bind_inv in Hrun as [[H3 [e ->]]|(db3 & line3 & H3 & Hrun)];
    (eapply (test_account_block pk) in H3 as [Hadd3 Hex3];
     [|intros d d' r'; by apply test_user_step]);
    pose proof (test_accounts_added_trans _ _ _ _ Hadd12 Hadd3) as Hadd123;
    [split; [done|by intros lines]|].
  (* the student *)
  apply bind_inv in Hrun as [[[=] _]|(db4 & d4 & [= <- <-] & Hrun)].
  apply bind_inv in Hrun as [[H4 [e ->]]|(db4 & line4 & H4 & Hrun)];
    (eapply (test_account_block pk) in H4 as [Hadd4 Hex4];
     [|intros d d' r'; by apply test_user_step]);
    pose proof (test_accounts_added_trans _ _ _ _ Hadd123 Hadd4) as Hadd;
    [split; [done|by intros lines]|].
  injection Hrun as <- <-. split; [done|].
  intros lines _ Hnorm.
  apply Forall_cons in Hnorm as [N1 Hnorm].
  apply Forall_cons in Hnorm as [N2 Hnorm].
  apply Forall_cons in Hnorm as [N3 Hnorm].
  apply Forall_cons in Hnorm as [N4 _].
  destruct Hadd2 as (_ & _ & _ & _ & Hsub2 & _).
  destruct Hadd3 as (_ & _ & _ & _ & Hsub3 & _).
  destruct Hadd4 as (_ & _ & _ & _ & Hsub4 & _).
  repeat constructor.
  - eapply exists_where_mono; [|by eapply Hex1].
    etrans; [done|]. by etrans.
  - eapply exists_where_mono; [|by eapply Hex2]. by etrans.
  - eapply exists_where_mono; [|by eapply Hex3]. done.
  - by eapply Hex4.
Qed.

(** X23. The script can be run again: when a run has returned, and the
    four emails are in normal form, a second run finds the school and the
    four accounts, writes nothing and prints that they exist. *)
Theorem create_test_data_twice times times' (db db' : DB) lines :
  Forall (λ email, normalize_email email = email) test_emails →
  create_test_data slugify normalize_email make_password times db
  = (db', inr lines) →
  create_test_data slugify normalize_email make_password times' db'
  = (db', inr (["Creating test data...";
                "✓ School already exists: Test High School";
                "✓ Super Admin already exists";
                "✓ School Admin already exists";
                "✓ Teacher already exists";
                "✓ Student already exists"] ++ credentials)%list).
Proof.
  intros Hnorm Hrun. apply create_test_data_present.
  apply create_test_data_inv in Hrun
    as (db0 & _ & _ & _ & _ & _ & [(_ & e & [=])|(pk & school & Hget & Hadd & Hex)]).
  split; [|by eapply Hex].
  exists (pk, school). destruct Hadd as (Hschools & _).
  unfold School_objects_get in *. by rewrite Hschools.
Qed.

(** X24. Whatever its outcome, the script removes and changes no row, adds
    no profile and no topic, and every user row it adds is a test account:
    active, and either the Super Admin, without a school and with both
    flags, or an account without the flags whose school is a stored school
    named Test High School.  Each of them satisfies the role and school
    rule. *)
Theorem create_test_data_rows times (db db' : DB) r :
  create_test_data slugify normalize_email make_password times db = (db', r) →
  schools db ⊆ schools db' ∧ users db ⊆ users db' ∧
  teacher_profiles db' = teacher_profiles db ∧
  student_profiles db' = student_profiles db ∧ topics db' = topics db ∧
  ∀ k u, users db' !! k = Some u → users db !! k = None →
    role_school_ok u ∧
    ∃ school_pk school,
      schools db' !! school_pk = Some school ∧
      School.name school = "Test High School" ∧
      test_account school_pk u.
Proof.
  intros Hrun. apply create_test_data_inv in Hrun
    as (db0 & Hu0 & Ht0 & Hp0 & Hc0 & Hs0
        & [(-> & _)|(pk & school & Hget & Hadd & _)]).
  - rewrite Hu0. repeat (split; [done|]). intros k u Hk Hnone. congruence.
  - destruct Hadd as (Hs & Ht & Hp & Hc & Hu & Hnew).
    rewrite Hs, Ht, Hp, Hc, <-Hu0. repeat (split; [done|]).
    intros k u Hk Hnone. specialize (Hnew k u Hk Hnone).
    apply School_objects_get_inv in Hget as [Hpk Hname].
    split; [|by exists pk, school].
    destruct Hnew as [_ [(Hrole & Hschool & _)|(Hrole & Hschool & _)]];
      split; intros ?; by rewrite ?Hschool.
Qed.

End EndpointProperties.

(** ** The properties on the sample data *)

Lemma Sample_unique_emails : unique_on User.email (users Sample.db).
Proof. apply unique_on_NoDup. vm_compute. by apply (bool_decide_unpack _). Qed.

Lemma Sample_unique_schools :
  unique_on School.name (schools Sample.db) ∧
  unique_on School.slug (schools Sample.db) ∧
  unique_on School.registration_number (schools Sample.db).
Proof.
  repeat split; apply unique_on_NoDup; vm_compute;
    by apply (bool_decide_unpack _).
Qed.

(** C1 at an explicit request: the Super Admin of the sample data posts a
    registration with role SUPER_ADMIN and no school to
    [SchoolAdminCreateView]; the answer is 201 and user 4 is a School Admin
    whose school is NULL. *)
Lemma SchoolAdminCreateView_breaks_rule_witness :
  ∃ db' pk user,
    SchoolAdminCreateView Sample.make_password Sample.validate_email
      Sample.validate_password 200 (Authenticated 1 Sample.super_admin)
      Sample.no_school Sample.db
    = (db', inr (mkResponse 201 (UserBody pk user))) ∧
    users db' !! pk = Some user ∧
    User.role user = SCHOOL_ADMIN ∧ User.school user = None ∧
    ¬ role_school_ok user.
Proof.
  apply (SchoolAdminCreateView_breaks_rule Sample.make_password
           Sample.validate_email Sample.validate_password 200 1
           Sample.super_admin Sample.no_school Sample.db).
  - reflexivity.
  - reflexivity.
  - vm_compute. reflexivity.
Defined.

Example SchoolAdminCreateView_failing_input :
  (SchoolAdminCreateView Sample.make_password Sample.validate_email
     Sample.validate_password 200 (Authenticated 1 Sample.super_admin)
     Sample.no_school Sample.db).2
  = inr (mkResponse 201
           (UserBody 4
              (User.mk "newadmin@testhigh.com" "New" "Admin" SCHOOL_ADMIN None
                 true false false 200 None "pbkdf2$Secret#2025"))).
Proof. vm_compute. reflexivity. Qed.



(** C3 as stated fails on schools: [updated_at] is declared [auto_now], so
    the save behind the [DELETE] of school 1 at time 200 also moves that
    column from 100 to 200. *)
Lemma SchoolDetailView_destroy_touches_updated_at :
  let out :=
    SchoolDetailView_destroy Sample.slugify 200
      (Authenticated 1 Sample.super_admin) 1 Sample.db in
  out.2 = inr (mkResponse 200 (Message "School deactivated successfully")) ∧
  schools Sample.db !! 1 = Some Sample.school1 ∧
  School.updated_at Sample.school1 = 100 ∧
  School.updated_at <$> schools out.1 !! 1 = Some 200 ∧
  schools out.1 !! 1 ≠ Some (School.set_is_active false Sample.school1).
Proof.
  vm_compute. repeat split; try reflexivity. intros [=].
Qed.

Lemma soft_delete_effect_witness :
  UserDetailView_destroy (Authenticated 1 Sample.super_admin) 3 Sample.db
  = (with_users <[3 := User.set_is_active false Sample.teacher]> Sample.db,
     inr (mkResponse 200 (Message "User deactivated successfully"))) ∧
  SchoolUserDetailView_destroy (Authenticated 2 Sample.school_admin) 3 Sample.db
  = (with_users <[3 := User.set_is_active false Sample.teacher]> Sample.db,
     inr (mkResponse 200 (Message "User deactivated successfully"))) ∧
  SchoolDetailView_destroy Sample.slugify 200
    (Authenticated 1 Sample.super_admin) 1 Sample.db
  = (with_schools
       <[1 := School.set_updated_at 200
                (School.set_is_active false Sample.school1)]> Sample.db,
     inr (mkResponse 200 (Message "School deactivated successfully"))).
Proof.
  split; [|split].
  - apply (proj1 (soft_delete_effect Sample.slugify 200
                    (Authenticated 1 Sample.super_admin) 3 Sample.db)).
    + reflexivity.
    + apply Sample_unique_emails.
    + vm_compute. reflexivity.
  - apply (proj1 (proj2 (soft_delete_effect Sample.slugify 200
                    (Authenticated 2 Sample.school_admin) 3 Sample.db))
             2 Sample.school_admin).
    + reflexivity.
    + reflexivity.
    + apply Sample_unique_emails.
    + vm_compute. reflexivity.
    + reflexivity.
  - apply (proj2 (proj2 (soft_delete_effect Sample.slugify 200
                    (Authenticated 1 Sample.super_admin) 1 Sample.db))).
    + reflexivity.
    + apply Sample_unique_schools.
    + apply Sample_unique_schools.
    + apply Sample_unique_schools.
    + vm_compute. reflexivity.
    + intros Hslug. vm_compute in Hslug. discriminate Hslug.
Defined.

Lemma Topic_unique_together_witness :
  Topic_create 200 (Topic.mk 1 "The Cell" "Again" 2 "" [] 0 0) Sample.db
  = (Sample.db, inl (IntegrityError "topics.curriculum_class_id_title")) ∧
  Topic_create 200 (Topic.mk 2 "The Cell" "Revisited" 1 "" [] 0 0) Sample.db
  = (with_topics
       <[2 := Topic_stamp 200 (Topic.mk 2 "The Cell" "Revisited" 1 "" [] 0 0)]>
       Sample.db,
     inr (2, Topic_stamp 200 (Topic.mk 2 "The Cell" "Revisited" 1 "" [] 0 0))).
Proof.
  split.
  - apply (proj1 (Topic_unique_together 200 Sample.db 1 Sample.cell
                    (Topic.mk 1 "The Cell" "Again" 2 "" [] 0 0)
                    ltac:(vm_compute; reflexivity) eq_refl)).
    reflexivity.
  - apply (proj2 (Topic_unique_together 200 Sample.db 1 Sample.cell
                    (Topic.mk 2 "The Cell" "Revisited" 1 "" [] 0 0)
                    ltac:(vm_compute; reflexivity) eq_refl)).
    + discriminate.
    + intros j t Hj Hclass. change (topics Sample.db) with
        ({[1 := Sample.cell]} : gmap Z Topic.t) in Hj.
      apply lookup_singleton_Some in Hj as [_ <-]. discriminate Hclass.
Defined.

Lemma School_save_slug_witness :
  School.slug (School_fill_slug Sample.slugify Sample.hill) = "hill-school" ∧
  School.slug (School_fill_slug Sample.slugify Sample.school1)
  = "test-high-school" ∧
  ∃ db' k s',
    School_save Sample.slugify 200 (None, Sample.hill) Sample.db
    = (db', inr (k, s')) ∧
    schools db' !! k = Some s' ∧ School.slug s' = "hill-school".
Proof.
  pose proof (School_save_slug Sample.slugify 200 (None, Sample.hill) Sample.db)
    as (_ & Hempty & _ & Hstored).
  pose proof (School_save_slug Sample.slugify 200 (Some 1, Sample.school1)
                Sample.db) as (_ & _ & Hkept & _).
  split; [by apply Hempty|]. split; [by apply Hkept|].
  destruct (School_save Sample.slugify 200 (None, Sample.hill) Sample.db)
    as [db' [e|[k s']]] eqn:Hsave; [vm_compute in Hsave; discriminate Hsave|].
  exists db', k, s'. split; [reflexivity|].
  destruct (Hstored db' k s' eq_refl) as (Hk & Hslug & _).
  split; [exact Hk|]. by apply Hslug.
Defined.

Lemma password_reset_request_noninterference_witness :
  password_reset_request Sample.validate_email (Some "teacher@testhigh.com")
    Sample.db
  = (Sample.db,
     inr (mkResponse 200 (Message "Password reset link sent to email"))) ∧
  password_reset_request Sample.validate_email (Some "teacher@testhigh.com")
    empty_db
  = (empty_db,
     inr (mkResponse 200 (Message "Password reset link sent to email"))) ∧
  (password_reset_request Sample.validate_email (Some "teacher@testhigh.com")
     Sample.db).2
  = (password_reset_request Sample.validate_email (Some "teacher@testhigh.com")
       empty_db).2.
Proof.
  apply (password_reset_request_noninterference Sample.validate_email
           "teacher@testhigh.com" Sample.db empty_db).
  - reflexivity.
  - apply Sample_unique_emails.
  - apply unique_on_empty.
Defined.




Lemma Sample_db_consistent : db_consistent Sample.slugify Sample.db.
Proof.
  constructor; try (apply unique_on_NoDup; vm_compute;
                    by apply (bool_decide_unpack _)).
  intros k s Hk Hslug.
  change (schools Sample.db) with ({[1 := Sample.school1]} : gmap Z School.t) in Hk.
  apply lookup_singleton_Some in Hk as [_ <-]. discriminate Hslug.
Qed.


(** *** The further properties on the sample data *)

Lemma Sample_unique_student_ids :
  unique_on StudentProfile.student_id (student_profiles Sample.db2).
Proof. apply unique_on_NoDup. vm_compute. by apply (bool_decide_unpack _). Qed.

Lemma ChangePasswordView_update_needs_old_password_witness :
  ∃ errs,
    ChangePasswordView_update Sample.make_password Sample.check_password
      Sample.validate_password (Authenticated 2 Sample.school_admin)
      (ChangePasswordData.mk (Some "Guess@2025") (Some "Better#2026")
         (Some "Better#2026")) Sample.db
    = (Sample.db, inr (mkResponse 400 (Errors errs))).
Proof.
  apply (ChangePasswordView_update_needs_old_password Sample.make_password
           Sample.check_password Sample.validate_password 2
           Sample.school_admin _ Sample.db).
  intros o [= <-]. vm_compute. reflexivity.
Defined.

Lemma ChangePasswordView_update_sets_password_witness :
  ChangePasswordView_update Sample.make_password Sample.check_password
    Sample.validate_password (Authenticated 2 Sample.school_admin)
    (ChangePasswordData.mk (Some ("School@2025" +:+ Sample.nbsp))
       (Some (" Better#2026" +:+ Sample.nbsp)) (Some "Better#2026"))
    Sample.db
  = (with_users
       <[2 := User.set_password_hash "pbkdf2$Better#2026" Sample.school_admin]>
       Sample.db,
     inr (mkResponse 200 (Message "Password changed successfully"))).
Proof.
  apply (ChangePasswordView_update_sets_password Sample.make_password
           Sample.check_password Sample.validate_password 2
           Sample.school_admin ("School@2025" +:+ Sample.nbsp)
           (" Better#2026" +:+ Sample.nbsp) "Better#2026" Sample.db).
  - vm_compute. reflexivity.
  - apply Sample_unique_emails.
  - vm_compute. discriminate.
  - vm_compute. reflexivity.
  - vm_compute. reflexivity.
  - vm_compute. discriminate.
  - vm_compute. reflexivity.
  - vm_compute. reflexivity.
  - vm_compute. reflexivity.
Defined.

Lemma user_update_keeps_identity_witness :
  let out :=
    SchoolUserDetailView_update true (Authenticated 2 Sample.school_admin) 3
      (UserUpdateData.mk (Some "Tess") None (Some false)) Sample.db2 in
  User.first_name <$> users out.1 !! 3 = Some "Tess" ∧
  schools out.1 = schools Sample.db2 ∧
  teacher_profiles out.1 = teacher_profiles Sample.db2 ∧
  student_profiles out.1 = student_profiles Sample.db2 ∧
  topics out.1 = topics Sample.db2 ∧
  dom (users out.1) = dom (users Sample.db2) ∧
  ∀ k u, users Sample.db2 !! k = Some u →
    ∃ u', users out.1 !! k = Some u' ∧ (k ≠ 3 → u' = u) ∧
      User.email u' = User.email u ∧ User.role u' = User.role u ∧
      User.school u' = User.school u ∧ User.password u' = User.password u ∧
      User.is_staff u' = User.is_staff u ∧
      User.is_superuser u' = User.is_superuser u ∧
      User.date_joined u' = User.date_joined u ∧
      User.last_login u' = User.last_login u.
Proof.
  intros out. split; [vm_compute; reflexivity|].
  apply (user_update_keeps_identity true (Authenticated 2 Sample.school_admin)
           3 (UserUpdateData.mk (Some "Tess") None (Some false)) Sample.db2
           out.1 out.2).
  right. apply surjective_pairing.
Defined.

Lemma deactivate_then_reactivate_witness :
  ∃ db1,
    UserDetailView_destroy (Authenticated 1 Sample.super_admin) 3 Sample.db
    = (db1, inr (mkResponse 200 (Message "User deactivated successfully"))) ∧
    users db1 !! 3 = Some (User.set_is_active false Sample.teacher) ∧
    UserDetailView_update true (Authenticated 1 Sample.super_admin) 3
      (UserUpdateData.mk None None (Some true)) db1
    = (Sample.db,
       inr (mkReply 200
              (UserUpdateBody (User.first_name Sample.teacher)
                 (User.last_name Sample.teacher) true))).
Proof.
  apply (deactivate_then_reactivate (Authenticated 1 Sample.super_admin) 3
           Sample.teacher Sample.db).
  - reflexivity.
  - apply Sample_unique_emails.
  - vm_compute. reflexivity.
  - reflexivity.
Defined.

Lemma SchoolUserDetailView_other_school_witness :
  SchoolUserDetailView_destroy (Authenticated 2 Sample.school_admin) 5
    Sample.db2
  = (Sample.db2, inr not_found) ∧
  SchoolUserDetailView_update true (Authenticated 2 Sample.school_admin) 5
    (UserUpdateData.mk None None (Some false)) Sample.db2
  = (Sample.db2, inr (plain not_found)).
Proof.
  apply (SchoolUserDetailView_other_school 2 Sample.school_admin 5
           Sample.outsider true _ Sample.db2).
  - reflexivity.
  - vm_compute. reflexivity.
  - discriminate.
Defined.

Lemma AllUsersListView_get_queryset_spec_witness :
  (∃ queryset,
     AllUsersListView_get_queryset Sample.python_int (Some "TEACHER") None
       Sample.db2 = inr queryset ∧
     queryset !! 3 = Some Sample.teacher ∧ queryset !! 5 = Some Sample.outsider ∧
     queryset !! 4 = None) ∧
  (∃ queryset,
     AllUsersListView_get_queryset Sample.python_int (Some "") (Some "2")
       Sample.db2 = inr queryset ∧
     queryset !! 5 = Some Sample.outsider ∧ queryset !! 3 = None) ∧
  (∃ e, AllUsersListView_get_queryset Sample.python_int (Some "TEACHER")
          (Some "one") Sample.db2 = inl e).
Proof.
  split; [|split].
  - destruct (AllUsersListView_get_queryset_spec Sample.python_int
                (Some "TEACHER") None Sample.db2) as (Hrole & _).
    destruct Hrole as (queryset & Hq & _ & Hspec); [by left|].
    exists queryset. split; [exact Hq|]. split; [|split].
    + apply Hspec. split; [vm_compute; reflexivity|]. by right.
    + apply Hspec. split; [vm_compute; reflexivity|]. by right.
    + destruct (queryset !! 4) as [u|] eqn:Hu; [|reflexivity].
      apply Hspec in Hu as (Hu & [[[=]|[=]]|Hrole]).
      vm_compute in Hu. injection Hu as <-. discriminate Hrole.
  - destruct (AllUsersListView_get_queryset_spec Sample.python_int
                (Some "") (Some "2") Sample.db2) as (_ & Hschool & _).
    destruct (Hschool 2) as (queryset & Hq & Hspec);
      [by intros [[=]|[=]]|vm_compute; reflexivity|].
    exists queryset. split; [exact Hq|]. split.
    + apply Hspec. split; [vm_compute; reflexivity|].
      split; [left; by right|reflexivity].
    + destruct (queryset !! 3) as [u|] eqn:Hu; [|reflexivity].
      apply Hspec in Hu as (Hu & _ & Hschool3).
      vm_compute in Hu. injection Hu as <-. discriminate Hschool3.
  - apply (AllUsersListView_get_queryset_spec Sample.python_int
             (Some "TEACHER") (Some "one") Sample.db2).
    + by intros [[=]|[=]].
    + vm_compute. reflexivity.
Defined.

Lemma deactivated_users_stay_listed_witness :
  let out :=
    SchoolUserDetailView_destroy (Authenticated 2 Sample.school_admin) 4
      Sample.db2 in
  User.is_active <$> users out.1 !! 4 = Some false ∧
  dom (SchoolTeachersListView_get_queryset Sample.school_admin out.1)
  = dom (SchoolTeachersListView_get_queryset Sample.school_admin Sample.db2) ∧
  dom (SchoolStudentsListView_get_queryset Sample.school_admin (Some "S1")
         out.1)
  = dom (SchoolStudentsListView_get_queryset Sample.school_admin (Some "S1")
           Sample.db2).
Proof.
  intros out. split; [vm_compute; reflexivity|].
  apply (deactivated_users_stay_listed (Authenticated 2 Sample.school_admin)
           4 Sample.db2 out.1 out.2 Sample.school_admin (Some "S1")).
  right. apply surjective_pairing.
Defined.

Lemma bulk_created_students_are_listed_witness :
  ∃ db' m summaries,
    BulkStudentCreateView_post Sample.normalize_email Sample.make_password 200
      (Authenticated 2 Sample.school_admin)
      (Some [Sample.student_a; Sample.student_b]) Sample.db
    = (db', inr (mkResponse 201 (Students m summaries))) ∧
    NoDup (summary_id <$> summaries) ∧
    ∀ summary, summary ∈ summaries →
      users Sample.db !! summary_id summary = None ∧
      is_Some (SchoolStudentsListView_get_queryset Sample.school_admin None db'
                 !! summary_id summary).
Proof.
  destruct (BulkStudentCreateView_post Sample.normalize_email
              Sample.make_password 200 (Authenticated 2 Sample.school_admin)
              (Some [Sample.student_a; Sample.student_b]) Sample.db)
    as [db' [e|[st [m|errs|m|pk u|m summaries]]]] eqn:Hpost;
    try (vm_compute in Hpost; discriminate Hpost).
  assert (st = 201) as ->
    by (pose proof Hpost as Hst; vm_compute in Hst; congruence).
  exists db', m, summaries. split; [reflexivity|].
  exact (bulk_created_students_are_listed Sample.normalize_email
           Sample.make_password 200 2 Sample.school_admin _ Sample.db db' m
           summaries Hpost).
Defined.

Lemma deactivation_lowers_total_students_witness :
  let out :=
    UserDetailView_destroy (Authenticated 1 Sample.super_admin) 4 Sample.db2 in
  School_total_students 1 Sample.db2 = 1%nat ∧
  S (School_total_students 1 out.1) = School_total_students 1 Sample.db2 ∧
  School_total_teachers 1 out.1 = School_total_teachers 1 Sample.db2 ∧
  ∀ s', s' ≠ 1 →
        School_total_students s' out.1 = School_total_students s' Sample.db2.
Proof.
  intros out. split; [vm_compute; reflexivity|].
  apply (deactivation_lowers_total_students
           (Authenticated 1 Sample.super_admin) 4 Sample.student 1 Sample.db2
           out.1 (Message "User deactivated successfully")).
  - vm_compute. reflexivity.
  - reflexivity.
  - reflexivity.
  - reflexivity.
  - left. vm_compute. reflexivity.
Defined.

Lemma bulk_raises_total_students_witness :
  ∃ db' m summaries,
    BulkStudentCreateView_post Sample.normalize_email Sample.make_password 200
      (Authenticated 2 Sample.school_admin)
      (Some [Sample.student_a; Sample.student_b]) Sample.db2
    = (db', inr (mkResponse 201 (Students m summaries))) ∧
    length summaries = 2%nat ∧
    ∀ s, School_total_teachers s db' = School_total_teachers s Sample.db2 ∧
         School_total_students s db'
         = (School_total_students s Sample.db2
            + (if decide (User.school Sample.school_admin = Some s)
               then length summaries else 0))%nat.
Proof.
  destruct (BulkStudentCreateView_post Sample.normalize_email
              Sample.make_password 200 (Authenticated 2 Sample.school_admin)
              (Some [Sample.student_a; Sample.student_b]) Sample.db2)
    as [db' [e|[st [m|errs|m|pk u|m summaries]]]] eqn:Hpost;
    try (vm_compute in Hpost; discriminate Hpost).
  assert (st = 201) as ->
    by (pose proof Hpost as Hst; vm_compute in Hst; congruence).
  exists db', m, summaries. split; [reflexivity|]. split.
  - pose proof Hpost as Hlen. vm_compute in Hlen.
    injection Hlen as _ _ <-. reflexivity.
  - exact (bulk_raises_total_students Sample.normalize_email
             Sample.make_password 200 2 Sample.school_admin _ Sample.db2 db' m
             summaries Hpost).
Defined.

Lemma SchoolCreateView_created_witness :
  ∃ db' s,
    SchoolCreateView Sample.slugify Sample.validate_email Sample.lower 200
      (Authenticated 1 Sample.super_admin) Sample.hill_data Sample.db
    = (db', inr (mkReply 201 (SchoolCreateBody s))) ∧
    IsSuperAdmin_has_permission (Authenticated 1 Sample.super_admin) = true ∧
    schools Sample.db !! next_id (schools Sample.db) = None ∧
    db' = with_schools <[next_id (schools Sample.db) := s]> Sample.db ∧
    School.name s = "Hill School" ∧
    School.slug s = "hill-school" ∧
    School.is_active s = true ∧
    School.subscription_type s = FREE ∧
    School.email s = "office@hill.example" ∧
    School.registration_number s = "HILL2025" ∧
    ∀ k s0, schools Sample.db !! k = Some s0 →
      School.name s0 ≠ School.name s ∧ School.slug s0 ≠ School.slug s ∧
      School.registration_number s0 ≠ School.registration_number s.
Proof.
  destruct (SchoolCreateView Sample.slugify Sample.validate_email Sample.lower
              200 (Authenticated 1 Sample.super_admin) Sample.hill_data
              Sample.db)
    as [db' [e|[st [b| | | |s]]]] eqn:Hcreate;
    try (vm_compute in Hcreate; discriminate Hcreate).
  assert (st = 201) as ->
    by (pose proof Hcreate as Hst; vm_compute in Hst; congruence).
  exists db', s. split; [reflexivity|].
  exact (SchoolCreateView_created Sample.slugify Sample.validate_email
           Sample.lower 200 _ Sample.hill_data Sample.db db' s Hcreate).
Defined.

Lemma SchoolCreateView_slug_collision_witness :
  SchoolCreateView Sample.slugify Sample.validate_email Sample.lower 200
    (Authenticated 1 Sample.super_admin) Sample.hyphen_data Sample.db
  = (Sample.db, inl (IntegrityError "schools.slug")).
Proof.
  apply (SchoolCreateView_slug_collision Sample.slugify Sample.validate_email
           Sample.lower 200 (Authenticated 1 Sample.super_admin)
           Sample.hyphen_data Sample.db 1 Sample.school1).
  - reflexivity.
  - vm_compute. reflexivity.
  - vm_compute. reflexivity.
  - vm_compute. reflexivity.
  - intros j s1 Hj.
    change (schools Sample.db) with ({[1 := Sample.school1]} : gmap Z School.t)
      in Hj.
    apply lookup_singleton_Some in Hj as [_ <-]. vm_compute. discriminate.
Defined.

Lemma SchoolCreateView_second_without_registration_witness :
  SchoolCreateView Sample.slugify Sample.validate_email Sample.lower 200
    (Authenticated 1 Sample.super_admin) Sample.unregistered_data Sample.db3
  = (Sample.db3, inl (IntegrityError "schools.registration_number")).
Proof.
  apply (SchoolCreateView_second_without_registration Sample.slugify
           Sample.validate_email Sample.lower 200
           (Authenticated 1 Sample.super_admin) Sample.unregistered_data
           Sample.db3 3 Sample.unregistered).
  - reflexivity.
  - vm_compute. reflexivity.
  - reflexivity.
  - vm_compute. reflexivity.
  - reflexivity.
  - intros j s1 Hj.
    change (schools Sample.db3)
      with (<[1 := Sample.school1]> ({[3 := Sample.unregistered]}
              : gmap Z School.t)) in Hj.
    apply lookup_insert_Some in Hj as [[_ <-]|[_ Hj]]; [vm_compute; discriminate|].
    apply lookup_singleton_Some in Hj as [_ <-]. vm_compute. discriminate.
Defined.

Lemma SchoolDetailView_school_admin_witness :
  SchoolDetailView_retrieve (Authenticated 2 Sample.school_admin) 2 Sample.db2
  = (Sample.db2, inr (mkReply 200 (SchoolDetailBody 2 Sample.school2 0 1))) ∧
  SchoolDetailView_destroy Sample.slugify 200
    (Authenticated 2 Sample.school_admin) 2 Sample.db2
  = (Sample.db2, inr permission_denied).
Proof.
  destruct (SchoolDetailView_school_admin Sample.slugify 200 2
              Sample.school_admin 2 Sample.school2 Sample.db2)
    as (Hget & _ & _ & Hdelete).
  - reflexivity.
  - vm_compute. reflexivity.
  - split; [|exact Hdelete]. rewrite Hget. vm_compute. reflexivity.
Defined.

Lemma create_superuser_flags_witness :
  let extra_fields :=
    ExtraFields.mk None (Some "Root") (Some "Admin") None None (Some false)
      None (Some true) None None in
  let out :=
    create_superuser Sample.normalize_email Sample.make_password 200
      "root@biotutor.com" (Some "Root@2025") extra_fields Sample.db in
  User.email <$> users out.1 !! 4 = Some "root@biotutor.com" ∧
  User.is_active <$> users out.1 !! 4 = Some false ∧
  ((out.1 = Sample.db ∧ ∃ e, out.2 = inl e) ∨
   ∃ pk u, out.2 = inr (pk, u) ∧
           pk = default (next_id (users Sample.db)) (ExtraFields.id extra_fields) ∧
           (ExtraFields.id extra_fields = None → users Sample.db !! pk = None) ∧
           out.1 = with_users <[pk := u]> Sample.db ∧
           User.is_staff u = true ∧ User.is_superuser u = true ∧
           User.is_active u
           = default true (ExtraFields.is_active extra_fields) ∧
           User.email u = Sample.normalize_email "root@biotutor.com" ∧
           User.password u = Sample.make_password (Some "Root@2025") ∧
           User.role u = default SUPER_ADMIN (ExtraFields.role extra_fields) ∧
           User.school u = ExtraFields.school extra_fields).
Proof.
  intros extra_fields out. split; [vm_compute; reflexivity|].
  split; [vm_compute; reflexivity|].
  apply (create_superuser_flags Sample.normalize_email Sample.make_password
           200 "root@biotutor.com" (Some "Root@2025") extra_fields Sample.db
           out.1 out.2).
  apply surjective_pairing.
Defined.

Lemma validate_students_accepts_witness :
  BulkStudentCreateSerializer_validate_students Sample.db
    [Sample.student_a; Sample.student_no_email]
  = inr [Sample.student_a; Sample.student_no_email] ∧
  Forall (entry_accepted Sample.db) [Sample.student_a; Sample.student_no_email].
Proof.
  assert (Haccepted : BulkStudentCreateSerializer_validate_students Sample.db
                        [Sample.student_a; Sample.student_no_email]
                      = inr [Sample.student_a; Sample.student_no_email])
    by (vm_compute; reflexivity).
  split; [exact Haccepted|].
  apply (validate_students_accepts Sample.db
           [Sample.student_a; Sample.student_no_email]).
  exact Haccepted.
Defined.

Lemma bulk_empty_email_raises_witness :
  BulkStudentCreateSerializer_is_valid Sample.db
    (Some [Sample.student_no_email; Sample.student_a])
  = inr [Sample.student_no_email; Sample.student_a] ∧
  BulkStudentCreateView_post Sample.normalize_email Sample.make_password 200
    (Authenticated 2 Sample.school_admin)
    (Some [Sample.student_no_email; Sample.student_a]) Sample.db
  = (Sample.db, inl (ValueError "Users must have an email address")).
Proof.
  apply (bulk_empty_email_raises Sample.normalize_email Sample.make_password
           200 (Authenticated 2 Sample.school_admin) Sample.student_no_email
           [Sample.student_a] Sample.db).
  - reflexivity.
  - apply (validate_students_from_accepts Sample.db _ 0%nat).
    vm_compute. reflexivity.
  - vm_compute. reflexivity.
Defined.

Lemma StudentProfileView_update_frame_witness :
  let out :=
    StudentProfileView_update Sample.validate_email 200 true
      (Authenticated 4 Sample.student)
      (StudentProfileUpdateData.mk (Some "S2") None
         (Some "parent@home.example") None) Sample.db2 in
  StudentProfile.class_level <$> student_profiles out.1 !! 4 = Some "S2" ∧
  users out.1 = users Sample.db2 ∧ schools out.1 = schools Sample.db2 ∧
  teacher_profiles out.1 = teacher_profiles Sample.db2 ∧
  topics out.1 = topics Sample.db2 ∧
  dom (student_profiles out.1) = dom (student_profiles Sample.db2) ∧
  ∀ k p, student_profiles Sample.db2 !! k = Some p →
    ∃ p', student_profiles out.1 !! k = Some p' ∧
          StudentProfile.student_id p' = StudentProfile.student_id p ∧
          StudentProfile.weak_topics p' = StudentProfile.weak_topics p ∧
          StudentProfile.created_at p' = StudentProfile.created_at p ∧
          ((∀ u, Authenticated 4 Sample.student ≠ Authenticated k u) → p' = p).
Proof.
  intros out. split; [vm_compute; reflexivity|].
  apply (StudentProfileView_update_frame Sample.validate_email 200 true
           (Authenticated 4 Sample.student)
           (StudentProfileUpdateData.mk (Some "S2") None
              (Some "parent@home.example") None) Sample.db2 out.1 out.2).
  apply surjective_pairing.
Defined.

Lemma StudentProfileView_update_succeeds_witness :
  ∃ p',
    StudentProfileView_update Sample.validate_email 200 true
      (Authenticated 4 Sample.student)
      (StudentProfileUpdateData.mk (Some "S2") None
         (Some " parent@home.example") None) Sample.db2
    = (with_student_profiles <[4 := p']> Sample.db2,
       inr (mkReply 200
              (StudentProfileUpdateBody (StudentProfile.class_level p')
                 (StudentProfile.phone_number p')
                 (StudentProfile.parent_email p')
                 (StudentProfile.parent_phone p')))) ∧
    StudentProfile.class_level p' = "S2" ∧
    StudentProfile.phone_number p' = "" ∧
    StudentProfile.parent_email p' = "parent@home.example" ∧
    StudentProfile.parent_phone p' = "" ∧
    StudentProfile.student_id p' = "STD000004" ∧
    StudentProfile.updated_at p' = 200.
Proof.
  apply (StudentProfileView_update_succeeds Sample.validate_email 200 true 4
           Sample.student Sample.student_profile
           (StudentProfileUpdateData.mk (Some "S2") None
              (Some " parent@home.example") None)
           (StudentProfileUpdateData.mk (Some "S2") None
              (Some "parent@home.example") None) Sample.db2).
  - apply Sample_unique_student_ids.
  - vm_compute. reflexivity.
  - vm_compute. reflexivity.
Defined.

Lemma StudentProfileView_put_and_patch_witness :
  (∃ errs,
     ("class_level", "required") ∈ errs ∧
     StudentProfileView_update Sample.validate_email 200 false
       (Authenticated 4 Sample.student)
       (StudentProfileUpdateData.mk None (Some "+256700000009") None None)
       Sample.db2
     = (Sample.db2, inr (plain (mkResponse 400 (Errors errs))))) ∧
  StudentProfileView_update Sample.validate_email 200 true
    (Authenticated 4 Sample.student)
    (StudentProfileUpdateData.mk None None None None) Sample.db2
  = (with_student_profiles
       <[4 := StudentProfile.mk "S1" "STD000004" "" "" "" [] 100 200]>
       Sample.db2,
     inr (mkReply 200 (StudentProfileUpdateBody "S1" "" "" ""))).
Proof.
  apply (StudentProfileView_put_and_patch Sample.validate_email 200 4
           Sample.student Sample.student_profile
           (StudentProfileUpdateData.mk None (Some "+256700000009") None None)
           Sample.db2).
  - apply Sample_unique_student_ids.
  - vm_compute. reflexivity.
  - reflexivity.
Defined.

Lemma further_endpoints_keep_constraints_witness :
  db_consistent Sample.slugify
    (SchoolCreateView Sample.slugify Sample.validate_email Sample.lower 200
       (Authenticated 1 Sample.super_admin) Sample.hill_data Sample.db).1 ∧
  db_consistent Sample.slugify
    (create_test_data Sample.slugify Sample.normalize_email
       Sample.make_password (200, 201, 202, 203, 204) Sample.db).1.
Proof.
  destruct (further_endpoints_keep_constraints Sample.slugify
              Sample.normalize_email Sample.make_password Sample.check_password
              Sample.validate_email Sample.validate_password Sample.lower 200
              (Authenticated 1 Sample.super_admin) 1 true)
    as (_ & _ & _ & _ & Hcreate & _ & _ & Hscript).
  split.
  - eapply (Hcreate Sample.hill_data Sample.db);
      [apply Sample_db_consistent|apply surjective_pairing].
  - eapply (Hscript (200, 201, 202, 203, 204) Sample.db);
      [apply Sample_db_consistent|apply surjective_pairing].
Defined.

Lemma create_test_data_twice_witness :
  ∃ db' lines,
    create_test_data Sample.slugify Sample.normalize_email Sample.make_password
      (200, 201, 202, 203, 204) Sample.empty_db = (db', inr lines) ∧
    create_test_data Sample.slugify Sample.normalize_email Sample.make_password
      (300, 301, 302, 303, 304) db'
    = (db', inr (["Creating test data...";
                  "✓ School already exists: Test High School";
                  "✓ Super Admin already exists";
                  "✓ School Admin already exists";
                  "✓ Teacher already exists";
                  "✓ Student already exists"] ++ credentials)%list).
Proof.
  destruct (create_test_data Sample.slugify Sample.normalize_email
              Sample.make_password (200, 201, 202, 203, 204) Sample.empty_db)
    as [db' [e|lines]] eqn:Hrun; [vm_compute in Hrun; discriminate Hrun|].
  exists db', lines. split; [reflexivity|].
  apply (create_test_data_twice Sample.slugify Sample.normalize_email
           Sample.make_password (200, 201, 202, 203, 204) _ Sample.empty_db
           db' lines); [|exact Hrun].
  repeat constructor.
Defined.

Lemma create_test_data_rows_witness :
  let out :=
    create_test_data Sample.slugify Sample.normalize_email Sample.make_password
      (200, 201, 202, 203, 204) Sample.db in
  User.role <$> users out.1 !! 4 = Some STUDENT ∧
  schools Sample.db ⊆ schools out.1 ∧ users Sample.db ⊆ users out.1 ∧
  teacher_profiles out.1 = teacher_profiles Sample.db ∧
  student_profiles out.1 = student_profiles Sample.db ∧
  topics out.1 = topics Sample.db ∧
  ∀ k u, users out.1 !! k = Some u → users Sample.db !! k = None →
    role_school_ok u ∧
    ∃ school_pk school,
      schools out.1 !! school_pk = Some school ∧
      School.name school = "Test High School" ∧
      test_account school_pk u.
Proof.
  intros out. split; [vm_compute; reflexivity|].
  apply (create_test_data_rows Sample.slugify Sample.normalize_email
           Sample.make_password (200, 201, 202, 203, 204) Sample.db out.1
           out.2).
  apply surjective_pairing.
Defined.

Lemma endpoints_keep_constraints_witness :
  db_consistent Sample.slugify
    (BulkStudentCreateView_post Sample.normalize_email Sample.make_password 200
       (Authenticated 2 Sample.school_admin)
       (Some [Sample.student_a; Sample.student_a]) Sample.db).1 ∧
  db_consistent Sample.slugify
    (SchoolDetailView_destroy Sample.slugify 200
       (Authenticated 1 Sample.super_admin) 1 Sample.db).1.
Proof.
  destruct (endpoints_keep_constraints Sample.slugify Sample.normalize_email
              Sample.make_password Sample.validate_email
              Sample.validate_password 200
              (Authenticated 2 Sample.school_admin) 1)
    as (_ & _ & _ & Hbulk & _).
  destruct (endpoints_keep_constraints Sample.slugify Sample.normalize_email
              Sample.make_password Sample.validate_email
              Sample.validate_password 200
              (Authenticated 1 Sample.super_admin) 1)
    as (_ & _ & _ & _ & _ & _ & _ & Hschool).
  split.
  - eapply (Hbulk _ Sample.db);
      [apply Sample_db_consistent|apply surjective_pairing].
  - eapply (Hschool Sample.db);
      [apply Sample_db_consistent|apply surjective_pairing].
Defined.

Lemma BulkStudentCreateView_post_refused_witness :
  (BulkStudentCreateView_post Sample.normalize_email Sample.make_password 200
     (Authenticated 3 Sample.teacher) (Some [Sample.student_a]) Sample.db).1
  = Sample.db.
Proof.
  apply (BulkStudentCreateView_post_refused Sample.normalize_email
           Sample.make_password 200 (Authenticated 3 Sample.teacher)
           (Some [Sample.student_a]) Sample.db _ permission_denied).
  - vm_compute. reflexivity.
  - vm_compute. discriminate.
Defined.

Lemma bulk_create_loop_rows_witness :
  let out :=
    bulk_create_loop Sample.normalize_email Sample.make_password 200 (Some 1)
      [Sample.student_a; Sample.student_a] [] Sample.db in
  out.2 = inl (IntegrityError "users.email") ∧
  ∀ k u, users out.1 !! k = Some u → users Sample.db !! k = None →
    ∃ student_data,
      student_data ∈ [Sample.student_a; Sample.student_a] ∧
      user_from_entry Sample.normalize_email Sample.make_password (Some 1)
        student_data u ∧
      ∀ p, student_profiles out.1 !! k = Some p →
           student_profiles Sample.db !! k = None →
           profile_from_entry k student_data p.
Proof.
  intros out. split; [vm_compute; reflexivity|].
  apply (bulk_create_loop_rows Sample.normalize_email Sample.make_password 200
           (Some 1) [Sample.student_a; Sample.student_a] [] Sample.db out.1
           out.2).
  apply surjective_pairing.
Defined.

Lemma school_admin_views_keep_rule_witness :
  ∃ db' pk user,
    TeacherCreateView Sample.make_password Sample.validate_email
      Sample.validate_password 200 (Authenticated 2 Sample.school_admin)
      Sample.new_teacher Sample.db
    = (db', inr (mkResponse 201 (UserBody pk user))) ∧
    ∃ requester_pk requester,
      Authenticated 2 Sample.school_admin
      = Authenticated requester_pk requester ∧
      User.role user = TEACHER ∧ User.school user = User.school requester ∧
      (role_school_ok requester → role_school_ok user).
Proof.
  destruct (TeacherCreateView Sample.make_password Sample.validate_email
              Sample.validate_password 200
              (Authenticated 2 Sample.school_admin) Sample.new_teacher
              Sample.db)
    as [db' [e|[st [m|errs|m|pk user|m summaries]]]] eqn:Hcreate;
    try (vm_compute in Hcreate; discriminate Hcreate).
  assert (st = 201) as ->
    by (pose proof Hcreate as Hst; vm_compute in Hst; congruence).
  exists db', pk, user. split; [reflexivity|].
  apply (school_admin_views_keep_rule Sample.make_password
           Sample.validate_email Sample.validate_password 200
           (Authenticated 2 Sample.school_admin) Sample.new_teacher Sample.db
           db' pk user TEACHER); [|exact Hcreate].
  apply elem_of_cons. by left.
Defined.

Lemma bulk_view_keeps_rule_witness :
  ∃ db' m summaries,
    BulkStudentCreateView_post Sample.normalize_email Sample.make_password 200
      (Authenticated 2 Sample.school_admin)
      (Some [Sample.student_a; Sample.student_b]) Sample.db
    = (db', inr (mkResponse 201 (Students m summaries))) ∧
    ∃ requester_pk requester,
      Authenticated 2 Sample.school_admin
      = Authenticated requester_pk requester ∧
      ∀ summary, summary ∈ summaries →
        ∃ u, users db' !! summary_id summary = Some u ∧
             (is_Some (User.school requester) → role_school_ok u).
Proof.
  destruct (BulkStudentCreateView_post Sample.normalize_email
              Sample.make_password 200 (Authenticated 2 Sample.school_admin)
              (Some [Sample.student_a; Sample.student_b]) Sample.db)
    as [db' [e|[st [m|errs|m|pk u|m summaries]]]] eqn:Hpost;
    try (vm_compute in Hpost; discriminate Hpost).
  assert (st = 201) as ->
    by (pose proof Hpost as Hst; vm_compute in Hst; congruence).
  exists db', m, summaries. split; [reflexivity|].
  exact (bulk_view_keeps_rule Sample.normalize_email Sample.make_password 200
           _ _ Sample.db db' m summaries Hpost).
Defined.
